(** * SpeedSanta: the assignment and settlement engine of [src/lib/firebase.ts]

    The repository holds two revisions of [src/lib/firebase.ts]:
    - [src/src/lib/firebase.ts]: candidate gifters come in two tiers
      ([spent === 0] first), recipients are paired greedily through a
      [usedRecipients] set, the settled gifter is passed as [excludeGifters];
      embedded in [Module Firebase];
    - [src/unnamed/part_002]: gifters and recipients are paired index by
      index, the gift record carries [timestamp] and [isHidden];
      embedded in [Module Part002].
    [joinRoom] and the participant updates of [addGift] are the same text in
    both and are embedded once.  The submit handlers of the two room pages
    ([src/src/app/room/[id]/page.tsx], [src/unnamed/part_001]) are embedded
    in [Module RoomPage] and [Module Part001].

    Modelling choices.
    - JavaScript numbers ([spent], [received], [amount], [budget],
      [Date.now()]) are integers here ([Z]): the amount is the result of
      [parseInt] in the callers.  [Module Firebase] and [Module Part002] add
      them exactly, which is what the code computes as long as the sums are
      safe integers (below 2^53 in magnitude).  [Module Double] has the
      addition of the language, rounded to a double, and [addGift] of both
      revisions with it; the two agree on safe integers
      ([Double_Firebase_addGift_exact], [Double_Part002_addGift_exact]).
      Array lengths are [nat].
    - The Firestore collection [rooms] is a finite map from document id to
      the room document; [getDoc]/[updateDoc] are lookup and insert, one call
      after the other (no interleaving of two calls).  A thrown [Error(msg)]
      is [inl msg].  The lookup is the code's [doc] and [getDoc] for a room
      id that is a document id ([validRoomId]); statements about an id under
      which no room is stored assume it.
    - [[...xs].sort(() => Math.random() - 0.5)] is a function parameter of
      type [list Participant.t -> list Participant.t]; theorems that need it
      assume that it returns a permutation of its argument ([is_shuffle]).
    - [Date.now()] is a parameter. *)

From Stdlib Require Import ZArith Lia Ascii DecimalString.
From stdpp Require Import base strings list gmap.

Open Scope Z_scope.

(** ** Data model ([src/types]) *)

(** [recipient?: string | null]: the field may be missing, [null] or a name. *)
Inductive Nullable : Type :=
| Undefined
| Null
| Name (s : string).

Module Participant.
Record t : Type := mk {
  username : string;
  spent : Z;
  received : Z;
  isGifter : bool;
  recipient : Nullable
}.
End Participant.

Module Assignment.
Record t : Type := mk {
  gifter : string;
  recipient : string
}.
End Assignment.

(** [timestamp] and [isHidden] are [None] when the object literal has no such
    field (the gift built by [src/src/lib/firebase.ts]). *)
Module Gift.
Record t : Type := mk {
  id : string;
  gifter : string;
  recipient : string;
  description : string;
  amount : Z;
  timestamp : option Z;
  isHidden : option bool
}.
End Gift.

(** The stored document is [Omit<Room, 'id'>]: the id is the key of the
    document in the collection. *)
Module Room.
Record t : Type := mk {
  name : string;
  budget : Z;
  gameStarted : bool;
  participants : list Participant.t;
  gifts : list Gift.t;
  activeAssignments : list Assignment.t;
  createdAt : Z;
  createdBy : string
}.
End Room.

#[export] Instance Nullable_eq_dec : EqDecision Nullable.
Proof. solve_decision. Defined.

#[export] Instance Participant_eq_dec : EqDecision Participant.t.
Proof. solve_decision. Defined.

#[export] Instance Assignment_eq_dec : EqDecision Assignment.t.
Proof. solve_decision. Defined.

#[export] Instance Gift_eq_dec : EqDecision Gift.t.
Proof. solve_decision. Defined.

#[export] Instance Room_eq_dec : EqDecision Room.t.
Proof. solve_decision. Defined.

(** The collection [rooms]: room id to document. *)
Abbreviation Store := (gmap string Room.t).

(** What a throwing [async] function yields: the message of the [Error], or
    the collection after its [updateDoc]. *)
Abbreviation Outcome := (string + Store)%type.

(** ** Library functions used by the source *)

(** [n.toString()] for an integer [n]. *)
Definition toString (n : Z) : string := NilZero.string_of_int (Z.to_int n).

(** Firestore's [arrayUnion(x)] applied to the stored array: an element that
    is not already in the array is added to its end; an element the array
    already holds (field-wise equal) is not added again. *)
Definition arrayUnion {A : Type} `{EqDecision A} (stored : list A) (x : A) : list A :=
  if bool_decide (x ∈ stored) then stored else stored ++ [x].

(** The result of one [sort(() => Math.random() - 0.5)] is some rearrangement
    of the array it was called on. *)
Definition is_shuffle (shuffle : list Participant.t -> list Participant.t) : Prop :=
  forall l, shuffle l ≡ₚ l.

(** An object or [undefined] used as a condition: [find]'s result is truthy
    exactly when an element was found. *)
Definition truthy {A : Type} (o : option A) : bool :=
  match o with Some _ => true | None => false end.

(** [names.includes(u)] *)
Definition includes (names : list string) (u : string) : bool :=
  existsb (String.eqb u) names.

(** [doc(db, 'rooms', roomId)] followed by [getDoc] reads the document
    [roomId] of the collection when [roomId] is a document id of Firestore:
    not empty, without [/], not [.] or [..], not of the form [__.*__], at
    most 1500 bytes (strings stand for well-formed text in its UTF-8
    encoding).  For any other string [doc] or [getDoc] throws, or the path
    names a document that is not [roomId] (a trailing [/] is dropped). *)
Fixpoint hasSlash (s : string) : bool :=
  match s with
  | EmptyString => false
  | String c rest => Ascii.eqb c "/"%char || hasSlash rest
  end.

Definition reservedId (s : string) : bool :=
  (4 <=? String.length s)%nat
  && String.prefix "__" s
  && String.eqb (String.substring (String.length s - 2) 2 s) "__".

Definition validRoomId (roomId : string) : bool :=
  negb (String.eqb roomId "")
  && negb (hasSlash roomId)
  && negb (String.eqb roomId ".") && negb (String.eqb roomId "..")
  && negb (reservedId roomId)
  && (String.length roomId <=? 1500)%nat.

(** ** [joinRoom] (the same in both revisions) *)

Definition newParticipant (username : string) : Participant.t :=
  {| Participant.username := username;
     Participant.spent := 0;
     Participant.received := 0;
     Participant.isGifter := false;
     Participant.recipient := Undefined |}.

Definition findParticipant (username : string) (ps : list Participant.t)
  : option Participant.t :=
  find (fun p => String.eqb (Participant.username p) username) ps.

Definition setParticipants (room : Room.t) (ps : list Participant.t) : Room.t :=
  {| Room.name := Room.name room;
     Room.budget := Room.budget room;
     Room.gameStarted := Room.gameStarted room;
     Room.participants := ps;
     Room.gifts := Room.gifts room;
     Room.activeAssignments := Room.activeAssignments room;
     Room.createdAt := Room.createdAt room;
     Room.createdBy := Room.createdBy room |}.

(** Returns the collection after the call and the promised boolean.  The
    lookup is [doc] and [getDoc] for a [roomId] that is a document id
    ([validRoomId]); [doc] throws for other strings. *)
Definition joinRoom (db : Store) (roomId username : string) : Store * bool :=
  match db !! roomId with
  | None => (db, false)
  | Some room =>
    if Room.gameStarted room
       && negb (truthy (findParticipant username (Room.participants room)))
    then (db, false)
    else
      match findParticipant username (Room.participants room) with
      | Some existingParticipant => (db, true)
      | None =>
        (<[roomId := setParticipants room
                       (arrayUnion (Room.participants room) (newParticipant username))]> db,
         true)
      end
  end.

(** ** The parts of [addGift] and [startGame] shared by both revisions *)

(** [room.participants.map(p => ...)]: spent/received amounts, added
    exactly; [Double.updatedParticipants] has them rounded to a double, and
    is the same function on safe integers
    ([Double_updatedParticipants_exact]). *)
Definition updatedParticipants (ps : list Participant.t)
    (gifter recipient : string) (amount : Z) : list Participant.t :=
  map (fun p =>
         if String.eqb (Participant.username p) gifter then
           {| Participant.username := Participant.username p;
              Participant.spent := Participant.spent p + amount;
              Participant.received := Participant.received p;
              Participant.isGifter := Participant.isGifter p;
              Participant.recipient := Participant.recipient p |}
         else if String.eqb (Participant.username p) recipient then
           {| Participant.username := Participant.username p;
              Participant.spent := Participant.spent p;
              Participant.received := Participant.received p + amount;
              Participant.isGifter := Participant.isGifter p;
              Participant.recipient := Participant.recipient p |}
         else p) ps.

(** [room.activeAssignments.filter(a => !(a.gifter === gifter && a.recipient === recipient))] *)
Definition updatedAssignments (current : list Assignment.t)
    (gifter recipient : string) : list Assignment.t :=
  List.filter (fun a => negb (String.eqb (Assignment.gifter a) gifter
                              && String.eqb (Assignment.recipient a) recipient))
              current.

(** [updatedParticipants.map(p => ...)]: the gifter status is cleared. *)
Definition finalParticipants (ps : list Participant.t) (gifter : string)
  : list Participant.t :=
  map (fun p =>
         if String.eqb (Participant.username p) gifter then
           {| Participant.username := Participant.username p;
              Participant.spent := Participant.spent p;
              Participant.received := Participant.received p;
              Participant.isGifter := false;
              Participant.recipient := Null |}
         else p) ps.

(** [assignments.find(a => a.gifter === p.username)?.recipient ?? null] *)
Definition recipientOf (assignments : list Assignment.t) (u : string) : Nullable :=
  match find (fun a => String.eqb (Assignment.gifter a) u) assignments with
  | Some a => Name (Assignment.recipient a)
  | None => Null
  end.

(** [ps.map(p => ({...p, isGifter: ..., recipient: ...}))], the last step of
    both [startGame] and [addGift]. *)
Definition withAssignments (ps : list Participant.t)
    (assignments : list Assignment.t) : list Participant.t :=
  map (fun p =>
         {| Participant.username := Participant.username p;
            Participant.spent := Participant.spent p;
            Participant.received := Participant.received p;
            Participant.isGifter :=
              existsb (fun a => String.eqb (Assignment.gifter a) (Participant.username p))
                      assignments;
            Participant.recipient := recipientOf assignments (Participant.username p) |})
      ps.

(** [participants.filter(p => p.received < budget)] *)
Definition eligibleRecipients (ps : list Participant.t) (budget : Z)
  : list Participant.t :=
  List.filter (fun p => Participant.received p <? budget) ps.

(** [Math.floor(participants.length / 2)] *)
Definition maxGifters (ps : list Participant.t) : nat := (length ps / 2)%nat.

(** ** [src/src/lib/firebase.ts] *)

Module Firebase.

(** The [for (const gifter of shuffledGifters)] loop of [createAssignments]
    and [createNewAssignments].  The two loops differ in the initial
    [usedRecipients] and in the [break] test, which is [full] applied to
    [assignments.length] after the push. *)
Fixpoint pairLoop (full : nat -> bool) (shuffledRecipients : list Participant.t)
    (shuffledGifters : list Participant.t)
    (assignments : list Assignment.t) (usedRecipients : gset string)
  : list Assignment.t :=
  match shuffledGifters with
  | [] => assignments
  | gifter :: rest =>
    match find (fun r => negb (String.eqb (Participant.username r) (Participant.username gifter))
                         && negb (bool_decide (Participant.username r ∈ usedRecipients)))
               shuffledRecipients with
    | Some recipient =>
      let assignments' :=
        assignments ++ [ {| Assignment.gifter := Participant.username gifter;
                            Assignment.recipient := Participant.username recipient |} ] in
      let usedRecipients' := usedRecipients ∪ {[ Participant.username recipient ]} in
      if full (length assignments') then assignments'
      else pairLoop full shuffledRecipients rest assignments' usedRecipients'
    | None => pairLoop full shuffledRecipients rest assignments usedRecipients
    end
  end.

(** [participants.filter(p => p.spent === 0 && !prevGifters.includes(p.username))] *)
Definition peopleWhoHaventGifted0 (ps : list Participant.t) (prevGifters : list string)
  : list Participant.t :=
  List.filter (fun p => (Participant.spent p =? 0)
                        && negb (includes prevGifters (Participant.username p))) ps.

Definition availableGifters0 (ps : list Participant.t) (prevGifters : list string)
  : list Participant.t :=
  if (0 <? length (peopleWhoHaventGifted0 ps prevGifters))%nat
  then peopleWhoHaventGifted0 ps prevGifters
  else List.filter (fun p => negb (Participant.isGifter p)
                             && negb (includes prevGifters (Participant.username p))) ps.

Definition createAssignments (shuffleR shuffleG : list Participant.t -> list Participant.t)
    (ps : list Participant.t) (budget : Z) (prevGifters : list string)
  : list Assignment.t :=
  if (length (eligibleRecipients ps budget) =? 0)%nat
     || (length (availableGifters0 ps prevGifters) =? 0)%nat
  then []
  else
    let shuffledRecipients := shuffleR (eligibleRecipients ps budget) in
    let shuffledGifters := shuffleG (availableGifters0 ps prevGifters) in
    pairLoop (fun n => (maxGifters ps <=? n)%nat)
             shuffledRecipients shuffledGifters [] ∅.

(** The four-part test of [createNewAssignments] that follows the tier's own
    condition: not a current gifter, not in [prevGifters], not excluded. *)
Definition notTaken (currentAssignments : list Assignment.t)
    (excludeGifters : list string) (p : Participant.t) : bool :=
  negb (existsb (fun a => String.eqb (Assignment.gifter a) (Participant.username p))
                currentAssignments)
  && negb (includes (map Assignment.gifter currentAssignments) (Participant.username p))
  && negb (includes excludeGifters (Participant.username p)).

Definition peopleWhoHaventGifted (ps : list Participant.t)
    (currentAssignments : list Assignment.t) (excludeGifters : list string)
  : list Participant.t :=
  List.filter (fun p => (Participant.spent p =? 0)
                        && notTaken currentAssignments excludeGifters p) ps.

Definition availableGifters (ps : list Participant.t)
    (currentAssignments : list Assignment.t) (excludeGifters : list string)
  : list Participant.t :=
  if (0 <? length (peopleWhoHaventGifted ps currentAssignments excludeGifters))%nat
  then peopleWhoHaventGifted ps currentAssignments excludeGifters
  else List.filter (fun p => negb (Participant.isGifter p)
                             && notTaken currentAssignments excludeGifters p) ps.

Definition createNewAssignments (shuffleR shuffleG : list Participant.t -> list Participant.t)
    (ps : list Participant.t) (budget : Z)
    (currentAssignments : list Assignment.t) (excludeGifters : list string)
  : list Assignment.t :=
  if (length (eligibleRecipients ps budget) =? 0)%nat
     || (length (availableGifters ps currentAssignments excludeGifters) =? 0)%nat
  then []
  else
    let currentGifterCount := length currentAssignments in
    if (maxGifters ps <=? currentGifterCount)%nat then []
    else
      let shuffledRecipients := shuffleR (eligibleRecipients ps budget) in
      let shuffledGifters :=
        shuffleG (availableGifters ps currentAssignments excludeGifters) in
      pairLoop (fun n => (maxGifters ps <=? n + currentGifterCount)%nat)
               shuffledRecipients shuffledGifters []
               (list_to_set (map Assignment.recipient currentAssignments)).

(** [Room not found] is the error of a [roomId] that is a document id
    ([validRoomId]) of no stored room; for other strings [doc] throws an
    error of its own. *)
Definition startGame (shuffleR shuffleG : list Participant.t -> list Participant.t)
    (db : Store) (roomId : string) : Outcome :=
  match db !! roomId with
  | None => inl "Room not found"%string
  | Some room =>
    if (length (Room.participants room) <? 3)%nat
    then inl "Need at least 3 participants to start"%string
    else
      let prevGifters := map Assignment.gifter (Room.activeAssignments room) in
      let assignments :=
        createAssignments shuffleR shuffleG (Room.participants room)
                          (Room.budget room) prevGifters in
      inr (<[roomId :=
              {| Room.name := Room.name room;
                 Room.budget := Room.budget room;
                 Room.gameStarted := true;
                 Room.participants := withAssignments (Room.participants room) assignments;
                 Room.gifts := Room.gifts room;
                 Room.activeAssignments := assignments;
                 Room.createdAt := Room.createdAt room;
                 Room.createdBy := Room.createdBy room |}]> db)
  end.

(** The document written by [addGift], given the one it read. *)
Definition settle (shuffleR shuffleG : list Participant.t -> list Participant.t)
    (now : Z) (room : Room.t) (gifter recipient description : string) (amount : Z)
  : Room.t :=
  let gift :=
    {| Gift.id := toString now;
       Gift.gifter := gifter;
       Gift.recipient := recipient;
       Gift.description := description;
       Gift.amount := amount;
       Gift.timestamp := None;
       Gift.isHidden := None |} in
  let updated := updatedParticipants (Room.participants room) gifter recipient amount in
  let remaining := updatedAssignments (Room.activeAssignments room) gifter recipient in
  let final := finalParticipants updated gifter in
  let newAssignments :=
    createNewAssignments shuffleR shuffleG final (Room.budget room) remaining [gifter] in
  {| Room.name := Room.name room;
     Room.budget := Room.budget room;
     Room.gameStarted := Room.gameStarted room;
     Room.participants := withAssignments final (remaining ++ newAssignments);
     Room.gifts := arrayUnion (Room.gifts room) gift;
     Room.activeAssignments := remaining ++ newAssignments;
     Room.createdAt := Room.createdAt room;
     Room.createdBy := Room.createdBy room |}.

Definition addGift (shuffleR shuffleG : list Participant.t -> list Participant.t)
    (now : Z) (db : Store) (roomId gifter recipient description : string) (amount : Z)
  : Outcome :=
  match db !! roomId with
  | None => inl "Room not found"%string
  | Some room =>
    inr (<[roomId := settle shuffleR shuffleG now room gifter recipient description amount]> db)
  end.

End Firebase.

(** ** [src/unnamed/part_002] *)

Module Part002.

(** [for (let i = 0; i < count; i++) assignments.push({gifter:
    shuffledGifters[i].username, recipient: shuffledRecipients[i].username})]
    where [count] is at most both lengths. *)
Fixpoint pairByIndex (count : nat) (shuffledGifters shuffledRecipients : list Participant.t)
  : list Assignment.t :=
  match count, shuffledGifters, shuffledRecipients with
  | S count', gifter :: gifters', recipient :: recipients' =>
    {| Assignment.gifter := Participant.username gifter;
       Assignment.recipient := Participant.username recipient |}
    :: pairByIndex count' gifters' recipients'
  | _, _, _ => []
  end.

Definition availableGifters0 (ps : list Participant.t) : list Participant.t :=
  List.filter (fun p => negb (Participant.isGifter p)) ps.

Definition createAssignments (shuffleR shuffleG : list Participant.t -> list Participant.t)
    (ps : list Participant.t) (budget : Z) : list Assignment.t :=
  if (length (eligibleRecipients ps budget) =? 0)%nat
     || (length (availableGifters0 ps) =? 0)%nat
  then []
  else
    let shuffledRecipients := shuffleR (eligibleRecipients ps budget) in
    let shuffledGifters := shuffleG (availableGifters0 ps) in
    pairByIndex (Nat.min (maxGifters ps)
                         (Nat.min (length shuffledGifters) (length shuffledRecipients)))
                shuffledGifters shuffledRecipients.

Definition availableGifters (ps : list Participant.t)
    (currentAssignments : list Assignment.t) : list Participant.t :=
  List.filter (fun p => negb (Participant.isGifter p)
                        && negb (existsb (fun a => String.eqb (Assignment.gifter a)
                                                              (Participant.username p))
                                         currentAssignments)) ps.

Definition createNewAssignments (shuffleR shuffleG : list Participant.t -> list Participant.t)
    (ps : list Participant.t) (budget : Z) (currentAssignments : list Assignment.t)
  : list Assignment.t :=
  if (length (eligibleRecipients ps budget) =? 0)%nat
     || (length (availableGifters ps currentAssignments) =? 0)%nat
  then []
  else
    let currentGifterCount := length currentAssignments in
    if (maxGifters ps <=? currentGifterCount)%nat then []
    else
      let shuffledRecipients := shuffleR (eligibleRecipients ps budget) in
      let shuffledGifters := shuffleG (availableGifters ps currentAssignments) in
      pairByIndex (Nat.min (maxGifters ps - currentGifterCount)
                           (Nat.min (length shuffledGifters) (length shuffledRecipients)))
                  shuffledGifters shuffledRecipients.

(** As in [Firebase.startGame], [Room not found] is the error of a document
    id of no stored room. *)
Definition startGame (shuffleR shuffleG : list Participant.t -> list Participant.t)
    (db : Store) (roomId : string) : Outcome :=
  match db !! roomId with
  | None => inl "Room not found"%string
  | Some room =>
    if (length (Room.participants room) <? 2)%nat
    then inl "Need at least 2 participants to start"%string
    else
      let assignments :=
        createAssignments shuffleR shuffleG (Room.participants room) (Room.budget room) in
      inr (<[roomId :=
              {| Room.name := Room.name room;
                 Room.budget := Room.budget room;
                 Room.gameStarted := true;
                 Room.participants := withAssignments (Room.participants room) assignments;
                 Room.gifts := Room.gifts room;
                 Room.activeAssignments := assignments;
                 Room.createdAt := Room.createdAt room;
                 Room.createdBy := Room.createdBy room |}]> db)
  end.

(** The document written by [addGift], given the one it read.  [nowId] and
    [nowTs] are the two readings of [Date.now()]. *)
Definition settle (shuffleR shuffleG : list Participant.t -> list Participant.t)
    (nowId nowTs : Z) (room : Room.t) (gifter recipient description : string) (amount : Z)
  : Room.t :=
  let gift :=
    {| Gift.id := toString nowId;
       Gift.gifter := gifter;
       Gift.recipient := recipient;
       Gift.description := description;
       Gift.amount := amount;
       Gift.timestamp := Some nowTs;
       Gift.isHidden := Some true |} in
  let updated := updatedParticipants (Room.participants room) gifter recipient amount in
  let remaining := updatedAssignments (Room.activeAssignments room) gifter recipient in
  let final := finalParticipants updated gifter in
  let newAssignments :=
    createNewAssignments shuffleR shuffleG final (Room.budget room) remaining in
  {| Room.name := Room.name room;
     Room.budget := Room.budget room;
     Room.gameStarted := Room.gameStarted room;
     Room.participants := withAssignments final (remaining ++ newAssignments);
     Room.gifts := arrayUnion (Room.gifts room) gift;
     Room.activeAssignments := remaining ++ newAssignments;
     Room.createdAt := Room.createdAt room;
     Room.createdBy := Room.createdBy room |}.

Definition addGift (shuffleR shuffleG : list Participant.t -> list Participant.t)
    (nowId nowTs : Z) (db : Store) (roomId gifter recipient description : string)
    (amount : Z) : Outcome :=
  match db !! roomId with
  | None => inl "Room not found"%string
  | Some room =>
    inr (<[roomId := settle shuffleR shuffleG nowId nowTs room
                            gifter recipient description amount]> db)
  end.

(** [revealGifts]: when every participant has [received >= budget], every
    gift gets [isHidden: false]; a missing room is ignored. *)
Definition revealGifts (db : Store) (roomId : string) : Store :=
  match db !! roomId with
  | None => db
  | Some room =>
    if forallb (fun p => Room.budget room <=? Participant.received p) (Room.participants room)
    then
      <[roomId :=
         {| Room.name := Room.name room;
            Room.budget := Room.budget room;
            Room.gameStarted := Room.gameStarted room;
            Room.participants := Room.participants room;
            Room.gifts :=
              map (fun gift =>
                     {| Gift.id := Gift.id gift;
                        Gift.gifter := Gift.gifter gift;
                        Gift.recipient := Gift.recipient gift;
                        Gift.description := Gift.description gift;
                        Gift.amount := Gift.amount gift;
                        Gift.timestamp := Gift.timestamp gift;
                        Gift.isHidden := Some false |}) (Room.gifts room);
            Room.activeAssignments := Room.activeAssignments room;
            Room.createdAt := Room.createdAt room;
            Room.createdBy := Room.createdBy room |}]> db
    else db
  end.

End Part002.

(** ** The addition of the language *)

(** A number of the language is a double.  On integers, [x + y] is the
    integer nearest to the exact sum among those a double can hold (53
    significant bits), the one with the even significand when two are equally
    near; it is the exact sum whenever that is a safe integer.  (Sums of
    magnitude 2^1024 and beyond, which give [Infinity], are not integers and
    are outside this model.) *)
Module Double.

Definition MAX_SAFE_INTEGER : Z := 2 ^ 53 - 1.

(** [Number.isSafeInteger] on an integer. *)
Definition isSafeInteger (z : Z) : bool :=
  (- MAX_SAFE_INTEGER <=? z) && (z <=? MAX_SAFE_INTEGER).

(** Round to nearest, ties to even, at 53 significant bits: [2 ^ e] is the
    distance between neighbouring doubles around [z]. *)
Definition round (z : Z) : Z :=
  let e := Z.log2 (Z.abs z) - 52 in
  if e <=? 0 then z
  else
    let ulp := 2 ^ e in
    let q := z / ulp in
    let r := z mod ulp in
    if 2 * r <? ulp then q * ulp
    else if ulp <? 2 * r then (q + 1) * ulp
    else if Z.even q then q * ulp else (q + 1) * ulp.

Definition add (x y : Z) : Z := round (x + y).

(** [room.participants.map(p => ...)] of [addGift] (the same text in both
    revisions), with [p.spent + amount] and [p.received + amount] as the
    language computes them. *)
Definition updatedParticipants (ps : list Participant.t)
    (gifter recipient : string) (amount : Z) : list Participant.t :=
  map (fun p =>
         if String.eqb (Participant.username p) gifter then
           {| Participant.username := Participant.username p;
              Participant.spent := add (Participant.spent p) amount;
              Participant.received := Participant.received p;
              Participant.isGifter := Participant.isGifter p;
              Participant.recipient := Participant.recipient p |}
         else if String.eqb (Participant.username p) recipient then
           {| Participant.username := Participant.username p;
              Participant.spent := Participant.spent p;
              Participant.received := add (Participant.received p) amount;
              Participant.isGifter := Participant.isGifter p;
              Participant.recipient := Participant.recipient p |}
         else p) ps.

(** [addGift] of [src/src/lib/firebase.ts]. *)
Definition Firebase_settle (shuffleR shuffleG : list Participant.t -> list Participant.t)
    (now : Z) (room : Room.t) (gifter recipient description : string) (amount : Z)
  : Room.t :=
  let gift :=
    {| Gift.id := toString now;
       Gift.gifter := gifter;
       Gift.recipient := recipient;
       Gift.description := description;
       Gift.amount := amount;
       Gift.timestamp := None;
       Gift.isHidden := None |} in
  let updated := updatedParticipants (Room.participants room) gifter recipient amount in
  let remaining := updatedAssignments (Room.activeAssignments room) gifter recipient in
  let final := finalParticipants updated gifter in
  let newAssignments :=
    Firebase.createNewAssignments shuffleR shuffleG final (Room.budget room) remaining
                                  [gifter] in
  {| Room.name := Room.name room;
     Room.budget := Room.budget room;
     Room.gameStarted := Room.gameStarted room;
     Room.participants := withAssignments final (remaining ++ newAssignments);
     Room.gifts := arrayUnion (Room.gifts room) gift;
     Room.activeAssignments := remaining ++ newAssignments;
     Room.createdAt := Room.createdAt room;
     Room.createdBy := Room.createdBy room |}.

Definition Firebase_addGift (shuffleR shuffleG : list Participant.t -> list Participant.t)
    (now : Z) (db : Store) (roomId gifter recipient description : string) (amount : Z)
  : Outcome :=
  match db !! roomId with
  | None => inl "Room not found"%string
  | Some room =>
    inr (<[roomId := Firebase_settle shuffleR shuffleG now room
                                     gifter recipient description amount]> db)
  end.

(** [addGift] of [src/unnamed/part_002]. *)
Definition Part002_settle (shuffleR shuffleG : list Participant.t -> list Participant.t)
    (nowId nowTs : Z) (room : Room.t) (gifter recipient description : string) (amount : Z)
  : Room.t :=
  let gift :=
    {| Gift.id := toString nowId;
       Gift.gifter := gifter;
       Gift.recipient := recipient;
       Gift.description := description;
       Gift.amount := amount;
       Gift.timestamp := Some nowTs;
       Gift.isHidden := Some true |} in
  let updated := updatedParticipants (Room.participants room) gifter recipient amount in
  let remaining := updatedAssignments (Room.activeAssignments room) gifter recipient in
  let final := finalParticipants updated gifter in
  let newAssignments :=
    Part002.createNewAssignments shuffleR shuffleG final (Room.budget room) remaining in
  {| Room.name := Room.name room;
     Room.budget := Room.budget room;
     Room.gameStarted := Room.gameStarted room;
     Room.participants := withAssignments final (remaining ++ newAssignments);
     Room.gifts := arrayUnion (Room.gifts room) gift;
     Room.activeAssignments := remaining ++ newAssignments;
     Room.createdAt := Room.createdAt room;
     Room.createdBy := Room.createdBy room |}.

Definition Part002_addGift (shuffleR shuffleG : list Participant.t -> list Participant.t)
    (nowId nowTs : Z) (db : Store) (roomId gifter recipient description : string)
    (amount : Z) : Outcome :=
  match db !! roomId with
  | None => inl "Room not found"%string
  | Some room =>
    inr (<[roomId := Part002_settle shuffleR shuffleG nowId nowTs room
                                    gifter recipient description amount]> db)
  end.

End Double.

(** ** The submit handlers that call [addGift] *)

(** [currentUser?.recipient] as a condition and as the argument passed on: a
    non-empty name, or nothing. *)
Definition recipientName (currentUser : option Participant.t) : option string :=
  match currentUser with
  | Some user =>
    match Participant.recipient user with
    | Name r => if String.eqb r "" then None else Some r
    | _ => None
    end
  | None => None
  end.

(** A string used as a condition. *)
Definition nonEmpty (s : string) : bool := negb (String.eqb s "").

(** [handleAddGift] of [src/src/app/room/[id]/page.tsx], which belongs with
    the [addGift] of [src/unnamed/part_002].  [parseInt] ([None] for [NaN])
    and [trim] are the JavaScript built-ins; [room] and [currentUser] are the
    component's state.  The result is the message given to [setError] (empty
    when none is) and the collection afterwards. *)
Module RoomPage.

Definition handleAddGift (parseInt : string -> option Z) (trim : string -> string)
    (shuffleR shuffleG : list Participant.t -> list Participant.t) (nowId nowTs : Z)
    (db : Store) (roomId : string) (room : Room.t) (currentUser : option Participant.t)
    (giftDescription giftAmount : string) : string * Store :=
  match currentUser, recipientName currentUser with
  | Some user, Some recipient =>
    if negb (nonEmpty (trim giftDescription)) || negb (nonEmpty giftAmount)
    then ("Please fill in all fields"%string, db)
    else
      match parseInt giftAmount with
      | None => ("Please enter a valid amount"%string, db)
      | Some amount =>
        if amount <=? 0 then ("Please enter a valid amount"%string, db)
        else if Room.budget room <? Participant.spent user + amount
        then ("This would exceed your budget"%string, db)
        else
          match Part002.addGift shuffleR shuffleG nowId nowTs db roomId
                                (Participant.username user) recipient
                                giftDescription amount with
          | inr db' => (""%string, db')
          | inl _ => ("Failed to add gift. Please try again."%string, db)
          end
      end
  | _, _ => ("Please fill in all fields"%string, db)
  end.

End RoomPage.

(** [handleAddGift] of the [GiftForm] of [src/unnamed/part_001], which belongs
    with [src/src/lib/firebase.ts]. *)
Module Part001.

Definition handleAddGift (parseInt : string -> option Z) (trim : string -> string)
    (shuffleR shuffleG : list Participant.t -> list Participant.t) (now : Z)
    (db : Store) (roomId : string) (currentUser : option Participant.t)
    (giftDescription giftAmount : string) : string * Store :=
  match currentUser, recipientName currentUser with
  | Some user, Some recipient =>
    if negb (nonEmpty (trim giftDescription)) || negb (nonEmpty giftAmount)
    then ("Please fill in all fields"%string, db)
    else
      match parseInt giftAmount with
      | None => ("Please enter a valid amount"%string, db)
      | Some amount =>
        if amount <=? 0 then ("Please enter a valid amount"%string, db)
        else
          match Firebase.addGift shuffleR shuffleG now db roomId
                                 (Participant.username user) recipient
                                 giftDescription amount with
          | inr db' => (""%string, db')
          | inl _ => ("Failed to add gift. Please try again."%string, db)
          end
      end
  | _, _ => ("Please fill in all fields"%string, db)
  end.

End Part001.

(** ** [createRoom] and [getRoom] (the same in both revisions) *)

Module CreateRoomData.
Record t : Type := mk {
  roomName : string;
  username : string;
  budget : Z
}.
End CreateRoomData.

(** [autoId] is the id of [doc(collection(db, 'rooms'))], which Firestore
    generates; [setDoc] writes the document under it.  Returns the collection
    afterwards and the promised room id. *)
Definition createRoom (autoId : string) (now : Z) (db : Store) (data : CreateRoomData.t)
  : Store * string :=
  let initialParticipant :=
    {| Participant.username := CreateRoomData.username data;
       Participant.spent := 0;
       Participant.received := 0;
       Participant.isGifter := false;
       Participant.recipient := Undefined |} in
  let room :=
    {| Room.name := CreateRoomData.roomName data;
       Room.budget := CreateRoomData.budget data;
       Room.gameStarted := false;
       Room.participants := [initialParticipant];
       Room.gifts := [];
       Room.activeAssignments := [];
       Room.createdAt := now;
       Room.createdBy := CreateRoomData.username data |} in
  (<[autoId := room]> db, autoId).

(** [{ id: roomId, ...roomDoc.data() }] or [null]. *)
Definition getRoom (db : Store) (roomId : string) : option (string * Room.t) :=
  match db !! roomId with
  | Some data => Some (roomId, data)
  | None => None
  end.

(** ** The home page, [src/src/app/page.tsx] *)

Module Home.

(** [parseInt(e.target.value) || 0], the budget kept in [createData]. *)
Definition budgetInput (parseInt : string -> option Z) (value : string) : Z :=
  match parseInt value with
  | Some n => n
  | None => 0
  end.

(** The message given to [setError] (empty when none is) and the collection
    afterwards; the navigation of [router.push] is not part of the result. *)
Definition handleCreateRoom (trim : string -> string) (autoId : string) (now : Z)
    (db : Store) (createData : CreateRoomData.t) : string * Store :=
  if negb (nonEmpty (trim (CreateRoomData.roomName createData)))
     || negb (nonEmpty (trim (CreateRoomData.username createData)))
     || (CreateRoomData.budget createData <=? 0)
  then ("Please fill in all fields with valid values"%string, db)
  else (""%string, fst (createRoom autoId now db createData)).

Definition handleJoinRoom (trim : string -> string) (db : Store)
    (roomId username : string) : string * Store :=
  if negb (nonEmpty (trim roomId)) || negb (nonEmpty (trim username))
  then ("Please fill in all fields"%string, db)
  else
    let '(db', success) := joinRoom db roomId username in
    if success then (""%string, db')
    else ("Room not found or you cannot join this room"%string, db').

End Home.

(** ** The rest of the room page [src/src/app/room/[id]/page.tsx]
    (it belongs with [src/unnamed/part_002]) *)

Module RoomPageRest.

Definition handleJoin (trim : string -> string) (db : Store)
    (roomId username : string) : string * Store :=
  if negb (nonEmpty (trim username))
  then ("Please enter your name"%string, db)
  else
    let '(db', success) := joinRoom db roomId username in
    if success then (""%string, db')
    else ("Cannot join this room. It may not exist or the game has already started."%string,
          db').

(** [`Failed to start game: ${error.message}`] when [startGame] throws. *)
Definition handleStartGame (shuffleR shuffleG : list Participant.t -> list Participant.t)
    (db : Store) (roomId : string) : string * Store :=
  match Part002.startGame shuffleR shuffleG db roomId with
  | inr db' => (""%string, db')
  | inl message => (("Failed to start game: " ++ message)%string, db)
  end.

(** [disabled={loading || room.participants.length < 2}] of the start
    button; [loading] is the component's state of that name. *)
Definition startDisabled (loading : bool) (room : Room.t) : bool :=
  loading || (length (Room.participants room) <? 2)%nat.

(** [gift.isHidden] as a condition: a missing field is falsy. *)
Definition hidden (gift : Gift.t) : bool :=
  match Gift.isHidden gift with
  | Some flag => flag
  | None => false
  end.

(** [room.gifts.filter(gift => !gift.isHidden || gift.gifter === currentUser?.username)] *)
Definition visibleGifts (room : Room.t) (currentUser : option Participant.t) : list Gift.t :=
  List.filter (fun gift =>
                 negb (hidden gift)
                 || match currentUser with
                    | Some user => String.eqb (Gift.gifter gift) (Participant.username user)
                    | None => false
                    end)
              (Room.gifts room).

End RoomPageRest.

(** ** The rest of the room page [src/unnamed/part_001]
    (it belongs with [src/src/lib/firebase.ts]) *)

Module Part001Rest.

(** [getRoom] first: a started game without the user is left silently. *)
Definition handleJoin (trim : string -> string) (db : Store)
    (roomId username : string) : string * Store :=
  if negb (nonEmpty (trim username))
  then ("Please enter your name"%string, db)
  else
    match getRoom db roomId with
    | Some (_, updatedRoom) =>
      if Room.gameStarted updatedRoom
         && negb (truthy (findParticipant username (Room.participants updatedRoom)))
      then (""%string, db)
      else (""%string, fst (joinRoom db roomId username))
    | None => (""%string, fst (joinRoom db roomId username))
    end.

Definition handleStartGame (shuffleR shuffleG : list Participant.t -> list Participant.t)
    (db : Store) (roomId : string) : string * Store :=
  match Firebase.startGame shuffleR shuffleG db roomId with
  | inr db' => (""%string, db')
  | inl message => (("Failed to start game: " ++ message)%string, db)
  end.

(** [disabled={loading || disabled}] of the button in [StartGameButton],
    which the page renders with [disabled={room.participants.length < 3}];
    [loading] is the state of the button component. *)
Definition startDisabled (loading : bool) (room : Room.t) : bool :=
  loading || (length (Room.participants room) <? 3)%nat.

(** [room?.participants.find(p => p.username === urlUsername) || null] *)
Definition currentUser (room : Room.t) (urlUsername : string) : option Participant.t :=
  findParticipant urlUsername (Room.participants room).

(** [recipient ? Math.max(room.budget - recipient.received, 0) : 0] of the
    gift form, where [recipient] is found by the name in
    [currentUser.recipient]. *)
Definition remaining (room : Room.t) (user : Participant.t) : Z :=
  match Participant.recipient user with
  | Name r =>
    match findParticipant r (Room.participants room) with
    | Some recipient => Z.max (Room.budget room - Participant.received recipient) 0
    | None => 0
    end
  | _ => 0
  end.

End Part001Rest.

(** ** What both room pages compute from the room *)

(** [room.participants.filter(p => p.isGifter)] *)
Definition currentGifters (room : Room.t) : list Participant.t :=
  List.filter Participant.isGifter (Room.participants room).

(** [room.participants.every(p => p.received >= room.budget)] *)
Definition allAtBudget (room : Room.t) : bool :=
  forallb (fun p => Room.budget room <=? Participant.received p) (Room.participants room).

(** [visibleGifts.slice(-10).reverse()]: the last ten, newest first. *)
Definition recentGifts (visibleGifts : list Gift.t) : list Gift.t :=
  rev (skipn (length visibleGifts - 10) visibleGifts).

(** ** The sums shown by the room page *)

(** [participants.reduce((sum, p) => sum + p.spent, 0)] and the same sum over
    [received]. *)
Definition totalSpent (ps : list Participant.t) : Z :=
  fold_left (fun sum p => sum + Participant.spent p) ps 0.

Definition totalReceived (ps : list Participant.t) : Z :=
  fold_left (fun sum p => sum + Participant.received p) ps 0.

(** ** Vocabulary of the statements *)

(** The sum of a column of balances. *)
Definition sumZ (column : list Z) : Z := fold_right Z.add 0 column.

(** The columns [spent] and [received] that [addGift]'s two [map]s compute
    for a participant of the room it read. *)
Definition spentAfter (gifter : string) (amount : Z) (p : Participant.t) : Z :=
  if String.eqb (Participant.username p) gifter
  then Participant.spent p + amount else Participant.spent p.

Definition receivedAfter (gifter recipient : string) (amount : Z) (p : Participant.t) : Z :=
  if String.eqb (Participant.username p) gifter then Participant.received p
  else if String.eqb (Participant.username p) recipient
       then Participant.received p + amount else Participant.received p.

(** The participant list [after] a settlement of [amount] from [gifter] to
    [recipient], column by column, against the list [before] it: the same user
    names in the same order, [amount] added to the [spent] of the gifter and
    to the [received] of the recipient. *)
Definition giftApplied (gifter recipient : string) (amount : Z)
    (before after : list Participant.t) : Prop :=
  map Participant.username after = map Participant.username before
  /\ map Participant.spent after = map (spentAfter gifter amount) before
  /\ map Participant.received after = map (receivedAfter gifter recipient amount) before.

(** What a gift of [amount] from [gifter] to [recipient] does to the
    participant [p], giving [q]: [amount] is added to [spent] when [p] is the
    gifter, and to [received] when [p] is the recipient and not the gifter (a
    gift to oneself only raises [spent]); nothing else changes in the two
    balances. *)
Definition booked (gifter recipient : string) (amount : Z) (p q : Participant.t) : Prop :=
  Participant.username q = Participant.username p
  /\ (Participant.username p = gifter ->
      Participant.spent q = Participant.spent p + amount)
  /\ (Participant.username p <> gifter -> Participant.spent q = Participant.spent p)
  /\ (Participant.username p = recipient -> Participant.username p <> gifter ->
      Participant.received q = Participant.received p + amount)
  /\ (Participant.username p <> recipient \/ Participant.username p = gifter ->
      Participant.received q = Participant.received p).

(** The two sums that a gift computes are safe integers: the gifter's
    [spent + amount] and the recipient's [received + amount]. *)
Definition exactGift (gifter recipient : string) (amount : Z) (ps : list Participant.t)
  : Prop :=
  forall p, p ∈ ps ->
    (Participant.username p = gifter ->
     Double.isSafeInteger (Participant.spent p + amount) = true)
    /\ (Participant.username p = recipient ->
        Double.isSafeInteger (Participant.received p + amount) = true).

(** [a] is an active assignment of the pair. *)
Definition matchesPair (gifter recipient : string) (a : Assignment.t) : bool :=
  String.eqb (Assignment.gifter a) gifter && String.eqb (Assignment.recipient a) recipient.

(** What the pairing loop of [src/src/lib/firebase.ts] guarantees for a pair
    it pushes: gifter and recipient differ, the recipient was not in
    [usedRecipients], and both are user names of the shuffled arrays. *)
Definition pushed (shuffledRecipients gifters : list Participant.t) (used : gset string)
    (a : Assignment.t) : Prop :=
  Assignment.gifter a <> Assignment.recipient a
  /\ (Assignment.recipient a ∉ used)
  /\ (exists g, g ∈ gifters /\ Participant.username g = Assignment.gifter a)
  /\ (exists r, r ∈ shuffledRecipients /\ Participant.username r = Assignment.recipient a).

(** The capacity bound of a room: at most [floor(participants.length / 2)]
    active assignments. *)
Definition withinCapacity (room : Room.t) : Prop :=
  (length (Room.activeAssignments room) <= length (Room.participants room) / 2)%nat.

(** The invariants of the data model on a room: user names are keys, the
    active assignments are within capacity, no participant is the recipient
    of two of them, and none of them is a self assignment. *)
Definition soundRoom (room : Room.t) : Prop :=
  NoDup (map Participant.username (Room.participants room))
  /\ withinCapacity room
  /\ NoDup (map Assignment.recipient (Room.activeAssignments room))
  /\ Forall (fun a => Assignment.gifter a <> Assignment.recipient a)
            (Room.activeAssignments room).

(** Every document but the one of [roomId] is the same in both collections. *)
Definition sameElsewhere (roomId : string) (db db' : Store) : Prop :=
  forall other, other <> roomId -> db' !! other = db !! other.

(** The fields of a room that are set when it is created. *)
Definition sameSettings (room room' : Room.t) : Prop :=
  Room.name room' = Room.name room
  /\ Room.budget room' = Room.budget room
  /\ Room.createdAt room' = Room.createdAt room
  /\ Room.createdBy room' = Room.createdBy room.

(** The gifter flag and the recipient of each participant say what the
    active assignments say: a participant is flagged exactly when it carries
    a recipient name, the name is the recipient of an active assignment of
    which it is the gifter, a participant without the flag has [null], and
    the gifter of every active assignment is flagged. *)
Definition flagsMatch (room : Room.t) : Prop :=
  (forall p, p ∈ Room.participants room ->
     (Participant.isGifter p = true <-> exists r, Participant.recipient p = Name r)
     /\ (forall r, Participant.recipient p = Name r ->
                   {| Assignment.gifter := Participant.username p;
                      Assignment.recipient := r |} ∈ Room.activeAssignments room)
     /\ (Participant.isGifter p = false -> Participant.recipient p = Null))
  /\ (forall a p, a ∈ Room.activeAssignments room -> p ∈ Room.participants room ->
                  Participant.username p = Assignment.gifter a ->
                  Participant.isGifter p = true).


(** No balance of the room is negative. *)
Definition balancesNonNegative (room : Room.t) : Prop :=
  forall p, p ∈ Room.participants room ->
            0 <= Participant.spent p /\ 0 <= Participant.received p.

(** One submitted gift with the outcomes of the two random sorts and the two
    clock readings of its [addGift] call; a list of them is a run of calls,
    one after the other, on one room. *)
Module Submit.
Record t : Type := mk {
  shuffleR : list Participant.t -> list Participant.t;
  shuffleG : list Participant.t -> list Participant.t;
  now : Z;
  nowTs : Z;
  gifter : string;
  recipient : string;
  description : string;
  amount : Z
}.
End Submit.

(** The calls of [submits] in order, each on the collection the call before
    it wrote; the first error ends the run. *)
Fixpoint playWith (step : Store -> Submit.t -> Outcome) (db : Store)
    (submits : list Submit.t) : Outcome :=
  match submits with
  | [] => inr db
  | submit :: rest =>
    match step db submit with
    | inr db' => playWith step db' rest
    | inl message => inl message
    end
  end.

Definition Double_Firebase_step (roomId : string) (db : Store) (s : Submit.t) : Outcome :=
  Double.Firebase_addGift (Submit.shuffleR s) (Submit.shuffleG s) (Submit.now s) db roomId
                          (Submit.gifter s) (Submit.recipient s) (Submit.description s)
                          (Submit.amount s).

Definition Double_Part002_step (roomId : string) (db : Store) (s : Submit.t) : Outcome :=
  Double.Part002_addGift (Submit.shuffleR s) (Submit.shuffleG s) (Submit.now s)
                         (Submit.nowTs s) db roomId
                         (Submit.gifter s) (Submit.recipient s) (Submit.description s)
                         (Submit.amount s).

(** A submitted gift between two different participants of the room. *)
Definition validSubmit (names : list string) (s : Submit.t) : Prop :=
  Submit.gifter s ∈ names /\ Submit.recipient s ∈ names
  /\ Submit.gifter s <> Submit.recipient s.

(** ** Sample rooms and sample outcomes of the random sort *)

Definition idShuffle (l : list Participant.t) : list Participant.t := l.

Definition revShuffle (l : list Participant.t) : list Participant.t := rev l.

(** A rearrangement that exchanges the first two elements. *)
Definition swapShuffle (l : list Participant.t) : list Participant.t :=
  match l with
  | a :: b :: rest => b :: a :: rest
  | _ => l
  end.

(** The participants of [l] in the order in which [order] lists their names. *)
Definition arrange (order : list string) (l : list Participant.t) : list Participant.t :=
  flat_map (fun u => List.filter (fun p => String.eqb (Participant.username p) u) l) order.

(** A participant as [joinRoom] adds it, as [startGame] leaves a participant
    without an assignment, and as it leaves a gifter. *)
Definition fresh (u : string) : Participant.t := newParticipant u.

Definition idle (u : string) : Participant.t :=
  {| Participant.username := u; Participant.spent := 0; Participant.received := 0;
     Participant.isGifter := false; Participant.recipient := Null |}.

Definition giving (u r : string) : Participant.t :=
  {| Participant.username := u; Participant.spent := 0; Participant.received := 0;
     Participant.isGifter := true; Participant.recipient := Name r |}.

Definition sampleRoom (started : bool) (ps : list Participant.t) (gifts : list Gift.t)
    (active : list Assignment.t) : Room.t :=
  {| Room.name := "party";
     Room.budget := 100;
     Room.gameStarted := started;
     Room.participants := ps;
     Room.gifts := gifts;
     Room.activeAssignments := active;
     Room.createdAt := 0;
     Room.createdBy := "A" |}.

(** A collection that holds one room. *)
Definition collection (room : Room.t) : Store := {[ "room"%string := room ]}.

(** Rooms before [startGame], with two, three and four participants. *)
Definition lobby : Room.t := sampleRoom false [fresh "A"; fresh "B"] [] [].

Definition lobby3 : Room.t := sampleRoom false [fresh "A"; fresh "B"; fresh "C"] [] [].

Definition lobby4 : Room.t :=
  sampleRoom false [fresh "A"; fresh "B"; fresh "C"; fresh "D"] [] [].

(** [lobby3] started, with the assignment A to B active. *)
Definition roomAB : Room.t :=
  sampleRoom true [giving "A" "B"; idle "B"; idle "C"] []
             [ {| Assignment.gifter := "A"; Assignment.recipient := "B" |} ].

(** The participant A of [roomAB], as the component state [currentUser]. *)
Definition userA : Participant.t := giving "A" "B".

(** [lobby4] started, with the assignments A to B and C to D active. *)
Definition roomABCD : Room.t :=
  sampleRoom true [giving "A" "B"; idle "B"; giving "C" "D"; idle "D"] []
             [ {| Assignment.gifter := "A"; Assignment.recipient := "B" |};
               {| Assignment.gifter := "C"; Assignment.recipient := "D" |} ].

(** [roomABCD] two gifts later ([src/src/lib/firebase.ts]): A gave 40 to B,
    then B gave 10 to A; C still owes D a gift, and D, who has not spent
    anything yet, owes A one. *)
Definition roomLater : Room.t :=
  sampleRoom true
    [ {| Participant.username := "A"; Participant.spent := 40; Participant.received := 10;
         Participant.isGifter := false; Participant.recipient := Null |};
      {| Participant.username := "B"; Participant.spent := 10; Participant.received := 40;
         Participant.isGifter := false; Participant.recipient := Null |};
      giving "C" "D";
      giving "D" "A" ]
    [ {| Gift.id := "11"; Gift.gifter := "A"; Gift.recipient := "B";
         Gift.description := "socks"; Gift.amount := 40;
         Gift.timestamp := None; Gift.isHidden := None |};
      {| Gift.id := "12"; Gift.gifter := "B"; Gift.recipient := "A";
         Gift.description := "mug"; Gift.amount := 10;
         Gift.timestamp := None; Gift.isHidden := None |} ]
    [ {| Assignment.gifter := "C"; Assignment.recipient := "D" |};
      {| Assignment.gifter := "D"; Assignment.recipient := "A" |} ].

(** The participants of [roomABCD] as [addGift] passes them to
    [createNewAssignments] once A has given 40 to B. *)
Definition settledABCD : list Participant.t :=
  finalParticipants (updatedParticipants (Room.participants roomABCD) "A" "B" 40) "A".

(** A room of three near its end: A and C have received the budget, B has
    received 60, and A owes B the last gift. *)
Definition roomLast : Room.t :=
  sampleRoom true
    [ {| Participant.username := "A"; Participant.spent := 60; Participant.received := 100;
         Participant.isGifter := true; Participant.recipient := Name "B" |};
      {| Participant.username := "B"; Participant.spent := 100; Participant.received := 60;
         Participant.isGifter := false; Participant.recipient := Null |};
      {| Participant.username := "C"; Participant.spent := 100; Participant.received := 100;
         Participant.isGifter := false; Participant.recipient := Null |} ]
    []
    [ {| Assignment.gifter := "A"; Assignment.recipient := "B" |} ].

(** A room of four in which only D is below the budget, and D is already
    the recipient of C: A has one more gift of 10 to give to B. *)
Definition roomFull : Room.t :=
  sampleRoom true
    [ {| Participant.username := "A"; Participant.spent := 90; Participant.received := 100;
         Participant.isGifter := true; Participant.recipient := Name "B" |};
      {| Participant.username := "B"; Participant.spent := 100; Participant.received := 90;
         Participant.isGifter := false; Participant.recipient := Null |};
      {| Participant.username := "C"; Participant.spent := 60; Participant.received := 100;
         Participant.isGifter := true; Participant.recipient := Name "D" |};
      {| Participant.username := "D"; Participant.spent := 100; Participant.received := 60;
         Participant.isGifter := false; Participant.recipient := Null |} ]
    []
    [ {| Assignment.gifter := "A"; Assignment.recipient := "B" |};
      {| Assignment.gifter := "C"; Assignment.recipient := "D" |} ].

(** A room with a budget of 2^54 in which A has given 2^53 to C and now owes
    B a gift. *)
Definition roomBig : Room.t :=
  {| Room.name := "party";
     Room.budget := 2 ^ 54;
     Room.gameStarted := true;
     Room.participants :=
       [ {| Participant.username := "A"; Participant.spent := 2 ^ 53;
            Participant.received := 0;
            Participant.isGifter := true; Participant.recipient := Name "B" |};
         idle "B";
         {| Participant.username := "C"; Participant.spent := 0;
            Participant.received := 2 ^ 53;
            Participant.isGifter := false; Participant.recipient := Null |} ];
     Room.gifts :=
       [ {| Gift.id := "11"; Gift.gifter := "A"; Gift.recipient := "C";
            Gift.description := "car"; Gift.amount := 2 ^ 53;
            Gift.timestamp := None; Gift.isHidden := None |} ];
     Room.activeAssignments := [ {| Assignment.gifter := "A"; Assignment.recipient := "B" |} ];
     Room.createdAt := 0;
     Room.createdBy := "A" |}.

(** Two gifts in [roomAB], one after the other: A gives 40 to B, then B
    gives 25 to C. *)
Definition twoGifts : list Submit.t :=
  [ {| Submit.shuffleR := idShuffle; Submit.shuffleG := idShuffle;
       Submit.now := 17; Submit.nowTs := 17;
       Submit.gifter := "A"; Submit.recipient := "B";
       Submit.description := "socks"; Submit.amount := 40 |};
    {| Submit.shuffleR := revShuffle; Submit.shuffleG := idShuffle;
       Submit.now := 18; Submit.nowTs := 18;
       Submit.gifter := "B"; Submit.recipient := "C";
       Submit.description := "mug"; Submit.amount := 25 |} ].

(** The form data of the creator of the sample rooms. *)
Definition partyData : CreateRoomData.t :=
  {| CreateRoomData.roomName := "party";
     CreateRoomData.username := "A";
     CreateRoomData.budget := 100 |}.

(** A [parseInt] for the strings of a number input: an optional minus sign
    and the leading decimal digits; [None] ([NaN]) without a digit. *)
Fixpoint leadingDigits (s : string) (acc : option Z) : option Z :=
  match s with
  | EmptyString => acc
  | String c rest =>
    let code := Z.of_nat (Ascii.nat_of_ascii c) in
    if (48 <=? code) && (code <=? 57)
    then leadingDigits rest (Some (10 * default 0 acc + (code - 48)))
    else acc
  end.

Definition parseDecimal (s : string) : option Z :=
  match s with
  | String "-"%char rest => Z.opp <$> leadingDigits rest None
  | _ => leadingDigits s None
  end.

(** * Properties *)

(** ** Sums over participants *)

Lemma reduce_shift (f : Participant.t -> Z) (ps : list Participant.t) (z : Z) :
  fold_left (fun sum p => sum + f p) ps z = z + sumZ (map f ps).
Proof.
  revert z. induction ps as [|p ps IH]; intros z; simpl; [lia|].
  rewrite IH. lia.
Qed.

(** The sums only depend on the columns [spent] and [received]. *)
Lemma totalSpent_column ps : totalSpent ps = sumZ (map Participant.spent ps).
Proof. unfold totalSpent. rewrite reduce_shift. lia. Qed.

Lemma totalReceived_column ps : totalReceived ps = sumZ (map Participant.received ps).
Proof. unfold totalReceived. rewrite reduce_shift. lia. Qed.

(** ** What a settlement does to the balances *)

(** One participant at a time through the three [map]s of [addGift]. *)
Ltac by_participant gifter recipient :=
  unfold withAssignments, finalParticipants, updatedParticipants;
  rewrite !map_map; apply map_ext; intros p;
  destruct (String.eqb (Participant.username p) gifter) eqn:Hg; simpl;
  [rewrite Hg; reflexivity
  |destruct (String.eqb (Participant.username p) recipient); simpl; rewrite Hg; reflexivity].

Lemma settled_usernames ps gifter recipient amount assignments :
  map Participant.username
      (withAssignments (finalParticipants (updatedParticipants ps gifter recipient amount)
                                          gifter) assignments)
  = map Participant.username ps.
Proof. by_participant gifter recipient. Qed.

Lemma settled_spent ps gifter recipient amount assignments :
  map Participant.spent
      (withAssignments (finalParticipants (updatedParticipants ps gifter recipient amount)
                                          gifter) assignments)
  = map (spentAfter gifter amount) ps.
Proof. unfold spentAfter. by_participant gifter recipient. Qed.

Lemma settled_received ps gifter recipient amount assignments :
  map Participant.received
      (withAssignments (finalParticipants (updatedParticipants ps gifter recipient amount)
                                          gifter) assignments)
  = map (receivedAfter gifter recipient amount) ps.
Proof. unfold receivedAfter. by_participant gifter recipient. Qed.

Lemma settled_length ps gifter recipient amount :
  length (finalParticipants (updatedParticipants ps gifter recipient amount) gifter)
  = length ps.
Proof. unfold finalParticipants, updatedParticipants. rewrite !length_map. reflexivity. Qed.

(** A user name that no participant carries leaves a column as it is. *)
Lemma spentAfter_absent ps gifter amount :
  gifter ∉ map Participant.username ps ->
  map (spentAfter gifter amount) ps = map Participant.spent ps.
Proof.
  intros Hout. apply map_ext_in. intros p Hp. unfold spentAfter.
  destruct (String.eqb_spec (Participant.username p) gifter) as [E|_]; [|reflexivity].
  exfalso. apply Hout. rewrite <- E. apply list_elem_of_In, in_map, Hp.
Qed.

Lemma receivedAfter_absent ps gifter recipient amount :
  recipient ∉ map Participant.username ps ->
  map (receivedAfter gifter recipient amount) ps = map Participant.received ps.
Proof.
  intros Hout. apply map_ext_in. intros p Hp. unfold receivedAfter.
  destruct (String.eqb (Participant.username p) gifter); [reflexivity|].
  destruct (String.eqb_spec (Participant.username p) recipient) as [E|_]; [|reflexivity].
  exfalso. apply Hout. rewrite <- E. apply list_elem_of_In, in_map, Hp.
Qed.

(** With user names that are keys, one [spent] and one [received] grow by
    [amount]. *)
Lemma sum_spentAfter ps gifter amount :
  NoDup (map Participant.username ps) ->
  gifter ∈ map Participant.username ps ->
  sumZ (map (spentAfter gifter amount) ps) = sumZ (map Participant.spent ps) + amount.
Proof.
  induction ps as [|p ps IH]; simpl map; intros Hnd Hin.
  - inversion Hin.
  - apply NoDup_cons in Hnd as [Hp Hnd]. simpl sumZ. unfold spentAfter at 1.
    destruct (String.eqb_spec (Participant.username p) gifter) as [E|N].
    + subst gifter. rewrite spentAfter_absent by exact Hp. lia.
    + apply elem_of_cons in Hin as [Hin|Hin]; [congruence|].
      rewrite IH by assumption. lia.
Qed.

Lemma sum_receivedAfter ps gifter recipient amount :
  NoDup (map Participant.username ps) ->
  recipient ∈ map Participant.username ps ->
  gifter <> recipient ->
  sumZ (map (receivedAfter gifter recipient amount) ps)
  = sumZ (map Participant.received ps) + amount.
Proof.
  intros Hnd Hin Hne. induction ps as [|p ps IH]; simpl map.
  - inversion Hin.
  - simpl in Hnd. apply NoDup_cons in Hnd as [Hp Hnd]. simpl sumZ.
    unfold receivedAfter at 1.
    destruct (String.eqb_spec (Participant.username p) recipient) as [E|N].
    + destruct (String.eqb_spec (Participant.username p) gifter) as [E'|_]; [congruence|].
      subst recipient. rewrite receivedAfter_absent by exact Hp. lia.
    + apply elem_of_cons in Hin as [Hin|Hin]; [congruence|].
      rewrite IH by assumption.
      destruct (String.eqb (Participant.username p) gifter); lia.
Qed.

(** ** The greedy pairing loop of [src/src/lib/firebase.ts] *)

Section PairLoop.
Context (full : nat -> bool) (shuffledRecipients : list Participant.t).

Lemma pushed_weaken g gifters used u a :
  pushed shuffledRecipients gifters (used ∪ {[u]}) a ->
  pushed shuffledRecipients (g :: gifters) used a.
Proof.
  intros (Hself & Hused & (g' & Hg' & Eg') & Hr). repeat split; auto.
  - intros Hu. apply Hused, elem_of_union. left. exact Hu.
  - exists g'. split; [right; exact Hg'|exact Eg'].
Qed.

(** The loop only appends; every appended pair was [pushed]; the appended
    recipients are pairwise different. *)
Lemma pairLoop_appends gifters assignments used :
  exists new,
    Firebase.pairLoop full shuffledRecipients gifters assignments used = assignments ++ new
    /\ Forall (pushed shuffledRecipients gifters used) new
    /\ NoDup (map Assignment.recipient new).
Proof.
  revert assignments used.
  induction gifters as [|g gifters IH]; intros assignments used; simpl.
  - exists []. rewrite app_nil_r. repeat split; constructor.
  - destruct (find _ shuffledRecipients) as [r|] eqn:Hfind.
    + apply find_some in Hfind as [Hr Hok].
      apply andb_true_iff in Hok as [Hne Hfree].
      apply negb_true_iff in Hne, Hfree.
      apply String.eqb_neq in Hne. apply bool_decide_eq_false in Hfree.
      set (a := {| Assignment.gifter := Participant.username g;
                   Assignment.recipient := Participant.username r |}).
      assert (pushed shuffledRecipients (g :: gifters) used a) as Ha.
      { repeat split; simpl; auto.
        - exists g. split; [left|reflexivity].
        - exists r. split; [apply list_elem_of_In, Hr|reflexivity]. }
      destruct (full (length (assignments ++ [a]))).
      * exists [a]. repeat split; [constructor; [exact Ha|constructor]|].
        simpl. apply NoDup_singleton.
      * destruct (IH (assignments ++ [a]) (used ∪ {[Participant.username r]}))
          as (new & E & Hall & Hnd).
        exists (a :: new). rewrite E, <- app_assoc. simpl. repeat split.
        -- constructor; [exact Ha|].
           eapply Forall_impl; [exact Hall|]. intros b Hb. eapply pushed_weaken, Hb.
        -- apply NoDup_cons. split; [|exact Hnd].
           intros Hin. apply list_elem_of_In, in_map_iff in Hin as (b & Eb & Hb).
           rewrite Forall_forall in Hall.
           destruct (Hall b (proj2 (list_elem_of_In _ _) Hb)) as (_ & Hfresh & _).
           apply Hfresh. rewrite Eb. apply elem_of_union. right.
           apply elem_of_singleton. reflexivity.
    + destruct (IH assignments used) as (new & E & Hall & Hnd).
      exists new. repeat split; auto.
      eapply Forall_impl; [exact Hall|]. intros b (Hself & Hused & (g' & Hg' & Eg') & Hr).
      repeat split; auto. exists g'. split; [right; exact Hg'|exact Eg'].
Qed.

(** Once [full] holds from [limit] on, the loop stops at [limit] pairs. *)
Lemma pairLoop_length (limit : nat) gifters assignments used :
  (forall n, (limit <= n)%nat -> full n = true) ->
  (length assignments < limit)%nat ->
  (length (Firebase.pairLoop full shuffledRecipients gifters assignments used) <= limit)%nat.
Proof.
  intros Hfull. revert assignments used.
  induction gifters as [|g gifters IH]; intros assignments used Hlt; simpl; [lia|].
  destruct (find _ shuffledRecipients) as [r|]; [|apply IH, Hlt].
  destruct (full _) eqn:Hstop.
  - rewrite length_app. simpl. lia.
  - apply IH. rewrite length_app in *. simpl in *.
    destruct (Nat.le_gt_cases limit (length assignments + 1)) as [Hge|]; [|assumption].
    rewrite Hfull in Hstop by exact Hge. discriminate.
Qed.

(** When no recipient is left for any gifter, nothing is pushed. *)
Lemma pairLoop_nothing gifters assignments used :
  (forall g r, g ∈ gifters -> r ∈ shuffledRecipients ->
               Participant.username r = Participant.username g
               \/ Participant.username r ∈ used) ->
  Firebase.pairLoop full shuffledRecipients gifters assignments used = assignments.
Proof.
  induction gifters as [|g gifters IH]; intros Hnone; simpl; [reflexivity|].
  destruct (find _ shuffledRecipients) as [r|] eqn:Hfind.
  - apply find_some in Hfind as [Hr Hok]. exfalso.
    apply andb_true_iff in Hok as [Hne Hfree].
    apply negb_true_iff in Hne, Hfree.
    apply String.eqb_neq in Hne. apply bool_decide_eq_false in Hfree.
    destruct (Hnone g r) as [E|U]; [left|apply list_elem_of_In, Hr|..]; auto.
  - apply IH. intros g' r' Hg' Hr'. apply Hnone; [right; exact Hg'|exact Hr'].
Qed.

End PairLoop.

(** ** [createAssignments] and [createNewAssignments] of [src/src/lib/firebase.ts] *)

Lemma shuffled_elem (shuffle : list Participant.t -> list Participant.t) l p :
  is_shuffle shuffle -> p ∈ shuffle l -> p ∈ l.
Proof. intros Hs Hp. rewrite (Hs l) in Hp. exact Hp. Qed.

Lemma elem_filter (f : Participant.t -> bool) l p :
  p ∈ List.filter f l <-> p ∈ l /\ f p = true.
Proof. rewrite !list_elem_of_In. apply filter_In. Qed.

Lemma Firebase_createAssignments_pushed shuffleR shuffleG ps budget prevGifters :
  Forall (pushed (shuffleR (eligibleRecipients ps budget))
                 (shuffleG (Firebase.availableGifters0 ps prevGifters)) ∅)
         (Firebase.createAssignments shuffleR shuffleG ps budget prevGifters)
  /\ NoDup (map Assignment.recipient
                (Firebase.createAssignments shuffleR shuffleG ps budget prevGifters)).
Proof.
  unfold Firebase.createAssignments.
  destruct (_ || _); [split; constructor|].
  destruct (pairLoop_appends (fun n => (maxGifters ps <=? n)%nat)
              (shuffleR (eligibleRecipients ps budget))
              (shuffleG (Firebase.availableGifters0 ps prevGifters)) [] ∅)
    as (new & -> & Hall & Hnd).
  split; assumption.
Qed.

Lemma Firebase_createNewAssignments_pushed shuffleR shuffleG ps budget current excl :
  Forall (pushed (shuffleR (eligibleRecipients ps budget))
                 (shuffleG (Firebase.availableGifters ps current excl))
                 (list_to_set (map Assignment.recipient current)))
         (Firebase.createNewAssignments shuffleR shuffleG ps budget current excl)
  /\ NoDup (map Assignment.recipient
                (Firebase.createNewAssignments shuffleR shuffleG ps budget current excl)).
Proof.
  unfold Firebase.createNewAssignments.
  destruct (_ || _); [split; constructor|].
  destruct (_ <=? _)%nat; [split; constructor|].
  destruct (pairLoop_appends (fun n => (maxGifters ps <=? n + length current)%nat)
              (shuffleR (eligibleRecipients ps budget))
              (shuffleG (Firebase.availableGifters ps current excl)) []
              (list_to_set (map Assignment.recipient current)))
    as (new & -> & Hall & Hnd).
  split; assumption.
Qed.

(** No pair of this revision gifts to itself. *)
Lemma Firebase_createAssignments_no_self shuffleR shuffleG ps budget prevGifters a :
  a ∈ Firebase.createAssignments shuffleR shuffleG ps budget prevGifters ->
  Assignment.gifter a <> Assignment.recipient a.
Proof.
  intros Ha.
  destruct (Firebase_createAssignments_pushed shuffleR shuffleG ps budget prevGifters)
    as [Hall _].
  rewrite Forall_forall in Hall. apply (Hall a Ha).
Qed.

Lemma Firebase_createNewAssignments_no_self shuffleR shuffleG ps budget current excl a :
  a ∈ Firebase.createNewAssignments shuffleR shuffleG ps budget current excl ->
  Assignment.gifter a <> Assignment.recipient a.
Proof.
  intros Ha.
  destruct (Firebase_createNewAssignments_pushed shuffleR shuffleG ps budget current excl)
    as [Hall _].
  rewrite Forall_forall in Hall. apply (Hall a Ha).
Qed.

(** The recipients of the active assignments stay pairwise different when the
    new pairs are merged in. *)
Lemma Firebase_createNewAssignments_exclusive shuffleR shuffleG ps budget current excl :
  NoDup (map Assignment.recipient current) ->
  NoDup (map Assignment.recipient
             (current ++ Firebase.createNewAssignments shuffleR shuffleG ps budget current excl)).
Proof.
  intros Hcur.
  destruct (Firebase_createNewAssignments_pushed shuffleR shuffleG ps budget current excl)
    as [Hall Hnew].
  rewrite map_app. apply NoDup_app. repeat split; [exact Hcur| |exact Hnew].
  intros u Hu Hu'. apply list_elem_of_In, in_map_iff in Hu' as (a & <- & Ha).
  rewrite Forall_forall in Hall.
  destruct (Hall a (proj2 (list_elem_of_In _ _) Ha)) as (_ & Hfresh & _).
  apply Hfresh, elem_of_list_to_set, Hu.
Qed.

(** Every candidate gifter of [createNewAssignments] passed [notTaken]. *)
Lemma Firebase_availableGifters_notTaken ps current excl p :
  p ∈ Firebase.availableGifters ps current excl ->
  p ∈ ps /\ Firebase.notTaken current excl p = true.
Proof.
  unfold Firebase.availableGifters.
  destruct (0 <? _)%nat; intros Hp; apply elem_filter in Hp as [Hin Hok];
    apply andb_true_iff in Hok as [_ Hok]; auto.
Qed.

Lemma includes_true names u : includes names u = true <-> u ∈ names.
Proof.
  unfold includes. rewrite existsb_exists, list_elem_of_In. split.
  - intros (v & Hv & E). apply String.eqb_eq in E. subst v. exact Hv.
  - intros Hu. exists u. split; [exact Hu|apply String.eqb_refl].
Qed.

(** No new gifter is in [excludeGifters], and none is already the gifter of a
    current assignment. *)
Lemma Firebase_createNewAssignments_excludes shuffleR shuffleG ps budget current excl a :
  is_shuffle shuffleG ->
  a ∈ Firebase.createNewAssignments shuffleR shuffleG ps budget current excl ->
  (Assignment.gifter a ∉ excl)
  /\ (Assignment.gifter a ∉ map Assignment.gifter current).
Proof.
  intros Hs Ha.
  destruct (Firebase_createNewAssignments_pushed shuffleR shuffleG ps budget current excl)
    as [Hall _].
  rewrite Forall_forall in Hall.
  destruct (Hall a Ha) as (_ & _ & (g & Hg & <-) & _).
  apply (shuffled_elem _ _ _ Hs), Firebase_availableGifters_notTaken in Hg as [_ Hok].
  unfold Firebase.notTaken in Hok.
  apply andb_true_iff in Hok as [Hok Hex]. apply andb_true_iff in Hok as [_ Hprev].
  apply negb_true_iff in Hex, Hprev.
  split; intros Hin; apply includes_true in Hin; congruence.
Qed.

(** ** Capacity *)

Lemma Firebase_createNewAssignments_capacity shuffleR shuffleG ps budget current excl :
  (length (Firebase.createNewAssignments shuffleR shuffleG ps budget current excl)
   <= maxGifters ps - length current)%nat.
Proof.
  unfold Firebase.createNewAssignments.
  destruct (_ || _); [simpl; lia|].
  destruct (Nat.leb_spec (maxGifters ps) (length current)) as [|Hroom]; [simpl; lia|].
  apply pairLoop_length; [|simpl; lia].
  intros n Hn. apply Nat.leb_le. lia.
Qed.

Lemma Firebase_createAssignments_capacity shuffleR shuffleG ps budget prevGifters :
  is_shuffle shuffleR -> is_shuffle shuffleG ->
  (length (Firebase.createAssignments shuffleR shuffleG ps budget prevGifters)
   <= maxGifters ps)%nat.
Proof.
  intros HR HG. unfold Firebase.createAssignments.
  destruct (_ || _); [simpl; lia|].
  destruct (Nat.eq_dec (maxGifters ps) 0%nat) as [Hzero|Hpos].
  - (* at most one participant: the only candidate pair is a self pair *)
    rewrite pairLoop_nothing; [simpl; lia|].
    intros g r Hg Hr. left.
    apply (shuffled_elem _ _ _ HG) in Hg. apply (shuffled_elem _ _ _ HR) in Hr.
    assert (g ∈ ps) as Hgin.
    { unfold Firebase.availableGifters0 in Hg.
      destruct (0 <? _)%nat; apply elem_filter in Hg as [Hg _]; exact Hg. }
    apply elem_filter in Hr as [Hrin _].
    unfold maxGifters in Hzero.
    destruct ps as [|p [|q ps]].
    + inversion Hgin.
    + apply list_elem_of_singleton in Hgin, Hrin. congruence.
    + exfalso. change (length (p :: q :: ps)) with (S (S (length ps))) in Hzero.
      pose proof (Nat.div_mod_eq (S (S (length ps))) 2) as Hdm.
      pose proof (Nat.mod_upper_bound (S (S (length ps))) 2 ltac:(lia)) as Hlt.
      rewrite Hzero in Hdm. lia.
  - apply pairLoop_length; [|simpl; lia].
    intros n Hn. apply Nat.leb_le. exact Hn.
Qed.

(** The three cases in which [createNewAssignments] pairs nobody. *)
Lemma Firebase_createNewAssignments_empty shuffleR shuffleG ps budget current excl :
  (maxGifters ps <= length current)%nat
  \/ eligibleRecipients ps budget = []
  \/ Firebase.availableGifters ps current excl = [] ->
  Firebase.createNewAssignments shuffleR shuffleG ps budget current excl = [].
Proof.
  unfold Firebase.createNewAssignments. intros [Hcap|[Hr|Hg]].
  - destruct (_ || _); [reflexivity|].
    destruct (Nat.leb_spec (maxGifters ps) (length current)); [reflexivity|lia].
  - rewrite Hr. reflexivity.
  - rewrite Hg. simpl. rewrite orb_true_r. reflexivity.
Qed.

(** Also when every participant below the budget is already the recipient of
    a current assignment. *)
Lemma Firebase_createNewAssignments_all_used shuffleR shuffleG ps budget current excl :
  is_shuffle shuffleR ->
  (forall p, p ∈ eligibleRecipients ps budget ->
             Participant.username p ∈ map Assignment.recipient current) ->
  Firebase.createNewAssignments shuffleR shuffleG ps budget current excl = [].
Proof.
  intros HR Hused. unfold Firebase.createNewAssignments.
  destruct (_ || _); [reflexivity|].
  destruct (_ <=? _)%nat; [reflexivity|].
  apply pairLoop_nothing. intros g r _ Hr. right.
  apply elem_of_list_to_set, Hused, (shuffled_elem _ _ _ HR), Hr.
Qed.

Lemma Part002_pairByIndex_length count gifters recipients :
  (length (Part002.pairByIndex count gifters recipients) <= count)%nat.
Proof.
  revert gifters recipients.
  induction count as [|count IH]; intros [|g gifters] [|r recipients]; simpl; try lia.
  specialize (IH gifters recipients). lia.
Qed.

Lemma Part002_createNewAssignments_capacity shuffleR shuffleG ps budget current :
  (length (Part002.createNewAssignments shuffleR shuffleG ps budget current)
   <= maxGifters ps - length current)%nat.
Proof.
  unfold Part002.createNewAssignments.
  destruct (_ || _); [simpl; lia|].
  destruct (_ <=? _)%nat; [simpl; lia|].
  etransitivity; [apply Part002_pairByIndex_length|]. lia.
Qed.

Lemma Part002_createAssignments_capacity shuffleR shuffleG ps budget :
  (length (Part002.createAssignments shuffleR shuffleG ps budget) <= maxGifters ps)%nat.
Proof.
  unfold Part002.createAssignments.
  destruct (_ || _); [simpl; lia|].
  etransitivity; [apply Part002_pairByIndex_length|]. lia.
Qed.

Lemma Part002_createNewAssignments_empty shuffleR shuffleG ps budget current :
  (maxGifters ps <= length current)%nat
  \/ eligibleRecipients ps budget = []
  \/ Part002.availableGifters ps current = [] ->
  Part002.createNewAssignments shuffleR shuffleG ps budget current = [].
Proof.
  unfold Part002.createNewAssignments. intros [Hcap|[Hr|Hg]].
  - destruct (_ || _); [reflexivity|].
    destruct (Nat.leb_spec (maxGifters ps) (length current)); [reflexivity|lia].
  - rewrite Hr. reflexivity.
  - rewrite Hg. simpl. rewrite orb_true_r. reflexivity.
Qed.

(** ** [joinRoom] *)

Lemma findParticipant_Some username ps p :
  findParticipant username ps = Some p -> p ∈ ps /\ Participant.username p = username.
Proof.
  intros H. apply find_some in H as [Hin E]. apply String.eqb_eq in E.
  split; [apply list_elem_of_In, Hin|exact E].
Qed.

Lemma findParticipant_None username ps :
  findParticipant username ps = None <->
  forall p, p ∈ ps -> Participant.username p <> username.
Proof.
  split.
  - intros H p Hp. apply String.eqb_neq.
    apply (find_none _ _ H p), list_elem_of_In, Hp.
  - intros H. destruct (findParticipant username ps) as [p|] eqn:E; [|reflexivity].
    apply findParticipant_Some in E as [Hp E]. destruct (H p Hp E).
Qed.

Lemma arrayUnion_new {A : Type} `{EqDecision A} (stored : list A) (x : A) :
  x ∉ stored -> arrayUnion stored x = stored ++ [x].
Proof. intros H. unfold arrayUnion. rewrite bool_decide_eq_false_2 by exact H. reflexivity. Qed.

Lemma arrayUnion_old {A : Type} `{EqDecision A} (stored : list A) (x : A) :
  x ∈ stored -> arrayUnion stored x = stored.
Proof. intros H. unfold arrayUnion. rewrite bool_decide_eq_true_2 by exact H. reflexivity. Qed.

Lemma joinRoom_existing (db : Store) roomId username room p :
  db !! roomId = Some room ->
  p ∈ Room.participants room -> Participant.username p = username ->
  joinRoom db roomId username = (db, true).
Proof.
  intros Hroom Hp E. unfold joinRoom. rewrite Hroom.
  destruct (findParticipant username (Room.participants room)) as [q|] eqn:Hfind.
  - simpl. rewrite andb_false_r. reflexivity.
  - exfalso. rewrite findParticipant_None in Hfind. exact (Hfind p Hp E).
Qed.

Lemma joinRoom_absent (db : Store) roomId username room :
  db !! roomId = Some room ->
  (forall p, p ∈ Room.participants room -> Participant.username p <> username) ->
  Room.gameStarted room = false ->
  joinRoom db roomId username
  = (<[roomId := setParticipants room (Room.participants room ++ [newParticipant username])]> db,
     true).
Proof.
  intros Hroom Hnone Hnot. unfold joinRoom. rewrite Hroom, Hnot. simpl.
  rewrite (proj2 (findParticipant_None _ _) Hnone).
  rewrite arrayUnion_new; [reflexivity|].
  intros Hin. exact (Hnone _ Hin eq_refl).
Qed.

(** ** Settlement *)

(** Closes [NoDup] of a list of string literals. *)
Ltac distinct_names :=
  repeat (apply NoDup_cons_2;
          [rewrite ?elem_of_cons, elem_of_nil; intuition discriminate|]);
  apply NoDup_nil_2.

Lemma settled_applied ps gifter recipient amount assignments :
  giftApplied gifter recipient amount ps
    (withAssignments (finalParticipants (updatedParticipants ps gifter recipient amount)
                                        gifter) assignments).
Proof.
  repeat split;
    [apply settled_usernames|apply settled_spent|apply settled_received].
Qed.

Lemma Firebase_settle_applied shuffleR shuffleG now room gifter recipient description amount :
  giftApplied gifter recipient amount (Room.participants room)
    (Room.participants
       (Firebase.settle shuffleR shuffleG now room gifter recipient description amount)).
Proof. apply settled_applied. Qed.

Lemma Part002_settle_applied shuffleR shuffleG nowId nowTs room gifter recipient
    description amount :
  giftApplied gifter recipient amount (Room.participants room)
    (Room.participants
       (Part002.settle shuffleR shuffleG nowId nowTs room gifter recipient description amount)).
Proof. apply settled_applied. Qed.

(** [addGift] only fails on a missing room. *)
Lemma Firebase_addGift_found shuffleR shuffleG now (db : Store) roomId room
    gifter recipient description amount :
  db !! roomId = Some room ->
  Firebase.addGift shuffleR shuffleG now db roomId gifter recipient description amount
  = inr (<[roomId :=
           Firebase.settle shuffleR shuffleG now room gifter recipient description amount]> db).
Proof. intros H. unfold Firebase.addGift. rewrite H. reflexivity. Qed.

Lemma Part002_addGift_found shuffleR shuffleG nowId nowTs (db : Store) roomId room
    gifter recipient description amount :
  db !! roomId = Some room ->
  Part002.addGift shuffleR shuffleG nowId nowTs db roomId gifter recipient description amount
  = inr (<[roomId :=
           Part002.settle shuffleR shuffleG nowId nowTs room
                          gifter recipient description amount]> db).
Proof. intros H. unfold Part002.addGift. rewrite H. reflexivity. Qed.

(** Conservation for a participant list to which a gift was applied. *)
Lemma giftApplied_totals gifter recipient amount before after :
  giftApplied gifter recipient amount before after ->
  NoDup (map Participant.username before) ->
  gifter ∈ map Participant.username before ->
  recipient ∈ map Participant.username before ->
  gifter <> recipient ->
  totalSpent after = totalSpent before + amount
  /\ totalReceived after = totalReceived before + amount.
Proof.
  intros (_ & Hs & Hr) Hnd Hg Hrec Hne.
  rewrite !totalSpent_column, !totalReceived_column, Hs, Hr.
  split; [apply sum_spentAfter|apply sum_receivedAfter]; assumption.
Qed.


Lemma arrayUnion_elem {A : Type} `{EqDecision A} (stored : list A) (x : A) :
  x ∈ arrayUnion stored x.
Proof.
  unfold arrayUnion. destruct (bool_decide_reflect (x ∈ stored)) as [Hin|_]; [exact Hin|].
  apply elem_of_app. right. apply list_elem_of_singleton. reflexivity.
Qed.

(** ** The room invariants that [src/src/lib/firebase.ts] keeps *)

Lemma NoDup_map_filter {A B : Type} (f : A -> B) (keep : A -> bool) (l : list A) :
  NoDup (map f l) -> NoDup (map f (List.filter keep l)).
Proof.
  induction l as [|x l IH]; simpl; intros Hnd; [exact Hnd|].
  apply NoDup_cons in Hnd as [Hx Hnd].
  destruct (keep x); simpl; [|apply IH, Hnd].
  apply NoDup_cons_2; [|apply IH, Hnd].
  intros Hin. apply Hx.
  apply list_elem_of_In, in_map_iff in Hin as (y & E & Hy).
  apply filter_In in Hy as [Hy _].
  apply list_elem_of_In, in_map_iff. exists y. split; assumption.
Qed.

(** The settled gifter is not the gifter of a backfilled assignment. *)
Lemma Firebase_addGift_excludes_settled shuffleR shuffleG ps budget current gifter a :
  is_shuffle shuffleG ->
  a ∈ Firebase.createNewAssignments shuffleR shuffleG ps budget current [gifter] ->
  Assignment.gifter a <> gifter.
Proof.
  intros Hs Ha E.
  destruct (Firebase_createNewAssignments_excludes _ _ _ _ _ _ _ Hs Ha) as [Hex _].
  apply Hex. rewrite E. apply list_elem_of_singleton. reflexivity.
Qed.

(** No recipient is the recipient of two active assignments after [addGift],
    if none was before it. *)
Lemma Firebase_settle_exclusive shuffleR shuffleG now room gifter recipient description amount :
  NoDup (map Assignment.recipient (Room.activeAssignments room)) ->
  NoDup (map Assignment.recipient
             (Room.activeAssignments
                (Firebase.settle shuffleR shuffleG now room gifter recipient
                                 description amount))).
Proof.
  intros Hnd. simpl. apply Firebase_createNewAssignments_exclusive.
  unfold updatedAssignments. apply NoDup_map_filter, Hnd.
Qed.

(** No active assignment is a self assignment after [addGift], if none was
    before it. *)
Lemma Firebase_settle_no_self shuffleR shuffleG now room gifter recipient description amount :
  Forall (fun a => Assignment.gifter a <> Assignment.recipient a)
         (Room.activeAssignments room) ->
  Forall (fun a => Assignment.gifter a <> Assignment.recipient a)
         (Room.activeAssignments
            (Firebase.settle shuffleR shuffleG now room gifter recipient description amount)).
Proof.
  intros Hall. simpl. apply Forall_app. split.
  - rewrite Forall_forall in *. intros a Ha. apply Hall.
    unfold updatedAssignments in Ha.
    apply list_elem_of_In, filter_In in Ha as [Ha _]. apply list_elem_of_In, Ha.
  - rewrite Forall_forall. intros a Ha.
    eapply Firebase_createNewAssignments_no_self, Ha.
Qed.

(** ** The first-turn tier of [src/src/lib/firebase.ts] *)

Lemma username_key (ps : list Participant.t) (p q : Participant.t) :
  NoDup (map Participant.username ps) ->
  p ∈ ps -> q ∈ ps -> Participant.username p = Participant.username q -> p = q.
Proof.
  induction ps as [|x ps IH]; simpl; intros Hnd Hp Hq E; [inversion Hp|].
  apply NoDup_cons in Hnd as [Hx Hnd].
  assert (forall y, y ∈ ps -> Participant.username y ∈ map Participant.username ps) as Hname.
  { intros y Hy. apply list_elem_of_In, in_map, list_elem_of_In, Hy. }
  apply elem_of_cons in Hp as [->|Hp], Hq as [->|Hq]; auto.
  - exfalso. apply Hx. rewrite E. apply Hname, Hq.
  - exfalso. apply Hx. rewrite <- E. apply Hname, Hp.
Qed.

Lemma nonempty_length {A : Type} (l : list A) (x : A) :
  x ∈ l -> (0 <? length l)%nat = true.
Proof. intros Hx. destruct l; [inversion Hx|reflexivity]. Qed.

Lemma Firebase_tier_exclusive ps current excl p :
  p ∈ Firebase.peopleWhoHaventGifted ps current excl ->
  Firebase.availableGifters ps current excl
  = Firebase.peopleWhoHaventGifted ps current excl.
Proof.
  intros Hp. unfold Firebase.availableGifters.
  rewrite (nonempty_length _ p Hp). reflexivity.
Qed.

Lemma Firebase_tier0_exclusive ps prevGifters p :
  p ∈ Firebase.peopleWhoHaventGifted0 ps prevGifters ->
  Firebase.availableGifters0 ps prevGifters = Firebase.peopleWhoHaventGifted0 ps prevGifters.
Proof.
  intros Hp. unfold Firebase.availableGifters0.
  rewrite (nonempty_length _ p Hp). reflexivity.
Qed.

(** ** Capacity of a room *)

Lemma updatedAssignments_length current gifter recipient :
  (length (updatedAssignments current gifter recipient) <= length current)%nat.
Proof.
  unfold updatedAssignments. induction current as [|a current IH]; simpl; [lia|].
  destruct (negb _); simpl; lia.
Qed.

Lemma withAssignments_length ps assignments :
  length (withAssignments ps assignments) = length ps.
Proof. unfold withAssignments. apply length_map. Qed.

Lemma Firebase_settle_capacity shuffleR shuffleG now room gifter recipient description amount :
  withinCapacity room ->
  withinCapacity (Firebase.settle shuffleR shuffleG now room gifter recipient
                                  description amount).
Proof.
  unfold withinCapacity. intros Hcap.
  cbn [Firebase.settle Part002.settle Room.activeAssignments Room.participants].
  rewrite withAssignments_length, settled_length, length_app.
  pose proof (updatedAssignments_length (Room.activeAssignments room) gifter recipient) as Hu.
  pose proof (Firebase_createNewAssignments_capacity shuffleR shuffleG
                (finalParticipants
                   (updatedParticipants (Room.participants room) gifter recipient amount)
                   gifter)
                (Room.budget room)
                (updatedAssignments (Room.activeAssignments room) gifter recipient)
                [gifter]) as Hnew.
  unfold maxGifters in Hnew. rewrite settled_length in Hnew. lia.
Qed.

Lemma Part002_settle_capacity shuffleR shuffleG nowId nowTs room gifter recipient
    description amount :
  withinCapacity room ->
  withinCapacity (Part002.settle shuffleR shuffleG nowId nowTs room gifter recipient
                                 description amount).
Proof.
  unfold withinCapacity. intros Hcap.
  cbn [Firebase.settle Part002.settle Room.activeAssignments Room.participants].
  rewrite withAssignments_length, settled_length, length_app.
  pose proof (updatedAssignments_length (Room.activeAssignments room) gifter recipient) as Hu.
  pose proof (Part002_createNewAssignments_capacity shuffleR shuffleG
                (finalParticipants
                   (updatedParticipants (Room.participants room) gifter recipient amount)
                   gifter)
                (Room.budget room)
                (updatedAssignments (Room.activeAssignments room) gifter recipient)) as Hnew.
  unfold maxGifters in Hnew. rewrite settled_length in Hnew. lia.
Qed.

Lemma Firebase_startGame_capacity shuffleR shuffleG (db db' : Store) roomId :
  is_shuffle shuffleR -> is_shuffle shuffleG ->
  Firebase.startGame shuffleR shuffleG db roomId = inr db' ->
  exists room', db' !! roomId = Some room' /\ withinCapacity room'.
Proof.
  intros HR HG. unfold Firebase.startGame.
  destruct (db !! roomId) as [room|]; [|discriminate].
  destruct (_ <? 3)%nat; [discriminate|].
  intros [= <-]. eexists. split; [apply lookup_insert_eq|].
  unfold withinCapacity. cbn [Room.activeAssignments Room.participants].
  rewrite withAssignments_length.
  apply Firebase_createAssignments_capacity; assumption.
Qed.

Lemma Part002_startGame_capacity shuffleR shuffleG (db db' : Store) roomId :
  Part002.startGame shuffleR shuffleG db roomId = inr db' ->
  exists room', db' !! roomId = Some room' /\ withinCapacity room'.
Proof.
  unfold Part002.startGame.
  destruct (db !! roomId) as [room|]; [|discriminate].
  destruct (_ <? 2)%nat; [discriminate|].
  intros [= <-]. eexists. split; [apply lookup_insert_eq|].
  unfold withinCapacity. cbn [Room.activeAssignments Room.participants].
  rewrite withAssignments_length.
  apply Part002_createAssignments_capacity.
Qed.

(** ** The sample rooms are rooms of the game *)

(** The sample outcomes of the random sort are rearrangements. *)
Lemma idShuffle_is_shuffle : is_shuffle idShuffle.
Proof. intros l. reflexivity. Qed.

Lemma revShuffle_is_shuffle : is_shuffle revShuffle.
Proof. intros l. unfold revShuffle. symmetry. apply Permutation_rev. Qed.

Lemma swapShuffle_is_shuffle : is_shuffle swapShuffle.
Proof. intros [|a [|b l]]; simpl; [reflexivity..|apply perm_swap]. Qed.

(** [roomAB] is what [startGame] writes for [lobby3], in both revisions. *)
Example roomAB_started :
  Firebase.startGame idShuffle idShuffle (collection lobby3) "room" = inr (collection roomAB)
  /\ Part002.startGame swapShuffle idShuffle (collection lobby3) "room"
     = inr (collection roomAB).
Proof. split; vm_compute; reflexivity. Qed.

(** [roomABCD] is what [startGame] writes for [lobby4], in both revisions. *)
Example roomABCD_started :
  Firebase.startGame (arrange ["B"; "D"; "A"; "C"]%string) (arrange ["A"; "C"; "B"; "D"]%string)
                     (collection lobby4) "room" = inr (collection roomABCD)
  /\ Part002.startGame (arrange ["B"; "D"; "A"; "C"]%string)
                       (arrange ["A"; "C"; "B"; "D"]%string)
                       (collection lobby4) "room" = inr (collection roomABCD).
Proof. split; vm_compute; reflexivity. Qed.

(** [roomLater] is [roomABCD] after A's gift to B and B's gift to A
    ([src/src/lib/firebase.ts]). *)
Example roomLater_played :
  exists db1,
    Firebase.addGift idShuffle idShuffle 11 (collection roomABCD) "room" "A" "B" "socks" 40
    = inr db1
    /\ Firebase.addGift idShuffle idShuffle 12 db1 "room" "B" "A" "mug" 10
       = inr (collection roomLater).
Proof. eexists. split; [reflexivity|]. vm_compute. reflexivity. Qed.

(** ** User names are keys *)

(** [joinRoom] is the only function that adds a participant, and it adds a
    name only when no participant has it; [startGame] and [addGift] keep the
    names.  So the names of a room are pairwise different if they were. *)
Lemma joinRoom_keys (db db' : Store) roomId username room joined :
  db !! roomId = Some room ->
  NoDup (map Participant.username (Room.participants room)) ->
  joinRoom db roomId username = (db', joined) ->
  exists room', db' !! roomId = Some room'
                /\ NoDup (map Participant.username (Room.participants room')).
Proof.
  intros Hroom Hnd. unfold joinRoom. rewrite Hroom.
  destruct (_ && _); [intros [= <- _]; eauto|].
  destruct (findParticipant username (Room.participants room)) as [p|] eqn:Hfind;
    [intros [= <- _]; eauto|].
  intros [= <- _]. eexists. split; [apply lookup_insert_eq|].
  rewrite findParticipant_None in Hfind. simpl.
  rewrite arrayUnion_new by (intros Hin; exact (Hfind _ Hin eq_refl)).
  rewrite map_app. simpl. apply NoDup_app. repeat split; [exact Hnd| |apply NoDup_singleton].
  intros u Hu Hu'. apply list_elem_of_singleton in Hu'. subst u.
  apply list_elem_of_In, in_map_iff in Hu as (p & E & Hp).
  exact (Hfind p (proj2 (list_elem_of_In _ _) Hp) E).
Qed.

Lemma withAssignments_usernames ps assignments :
  map Participant.username (withAssignments ps assignments) = map Participant.username ps.
Proof. unfold withAssignments. rewrite map_map. reflexivity. Qed.

(** ** [src/src/lib/firebase.ts] keeps the invariants of the data model *)

Lemma Firebase_addGift_sound shuffleR shuffleG now (db : Store) roomId room
    gifter recipient description amount :
  db !! roomId = Some room -> soundRoom room ->
  exists room',
    Firebase.addGift shuffleR shuffleG now db roomId gifter recipient description amount
    = inr (<[roomId := room']> db)
    /\ soundRoom room'.
Proof.
  intros Hroom (Hkeys & Hcap & Hexcl & Hself).
  eexists. split; [apply Firebase_addGift_found, Hroom|].
  repeat split.
  - destruct (Firebase_settle_applied shuffleR shuffleG now room gifter recipient
                description amount) as (-> & _). exact Hkeys.
  - apply Firebase_settle_capacity, Hcap.
  - apply Firebase_settle_exclusive, Hexcl.
  - apply Firebase_settle_no_self, Hself.
Qed.

Lemma Firebase_startGame_sound shuffleR shuffleG (db db' : Store) roomId room :
  is_shuffle shuffleR -> is_shuffle shuffleG ->
  db !! roomId = Some room ->
  NoDup (map Participant.username (Room.participants room)) ->
  Firebase.startGame shuffleR shuffleG db roomId = inr db' ->
  exists room', db' !! roomId = Some room' /\ soundRoom room'.
Proof.
  intros HR HG Hroom Hkeys Hstart.
  destruct (Firebase_startGame_capacity _ _ _ _ _ HR HG Hstart) as (room' & Hroom' & Hcap).
  exists room'. split; [exact Hroom'|].
  unfold Firebase.startGame in Hstart. rewrite Hroom in Hstart.
  destruct (_ <? 3)%nat; [discriminate|]. injection Hstart as <-.
  rewrite lookup_insert_eq in Hroom'. injection Hroom' as <-.
  destruct (Firebase_createAssignments_pushed shuffleR shuffleG (Room.participants room)
              (Room.budget room) (map Assignment.gifter (Room.activeAssignments room)))
    as [Hall Hnd].
  repeat split; cbn [Room.participants Room.activeAssignments].
  - rewrite withAssignments_usernames. exact Hkeys.
  - exact Hcap.
  - exact Hnd.
  - eapply Forall_impl; [exact Hall|]. intros a Ha. apply Ha.
Qed.

(** ** The additions of [addGift] on safe integers *)

Lemma Double_round_safe (z : Z) : Double.isSafeInteger z = true -> Double.round z = z.
Proof.
  unfold Double.isSafeInteger, Double.MAX_SAFE_INTEGER, Double.round.
  change (2 ^ 53) with 9007199254740992.
  intros H. apply andb_true_iff in H as [Hlow Hhigh].
  apply Z.leb_le in Hlow, Hhigh.
  assert (Z.log2 (Z.abs z) < 53) as Hlog.
  { destruct (Z.eq_dec z 0) as [->|Hz]; [simpl; lia|].
    apply Z.log2_lt_pow2; [lia|]. change (2 ^ 53) with 9007199254740992. lia. }
  destruct (Z.leb_spec (Z.log2 (Z.abs z) - 52) 0); [reflexivity|lia].
Qed.

Lemma Double_add_safe (x y : Z) :
  Double.isSafeInteger (x + y) = true -> Double.add x y = x + y.
Proof. apply Double_round_safe. Qed.

(** On safe integers the participant update of the code is the exact one. *)
Lemma Double_updatedParticipants_exact ps gifter recipient amount :
  exactGift gifter recipient amount ps ->
  Double.updatedParticipants ps gifter recipient amount
  = updatedParticipants ps gifter recipient amount.
Proof.
  intros Hexact. unfold Double.updatedParticipants, updatedParticipants.
  apply map_ext_in. intros p Hp. apply list_elem_of_In in Hp.
  destruct (Hexact p Hp) as [Hs Hr].
  destruct (String.eqb_spec (Participant.username p) gifter) as [Eg|_].
  - rewrite (Double_add_safe _ _ (Hs Eg)). reflexivity.
  - destruct (String.eqb_spec (Participant.username p) recipient) as [Er|_]; [|reflexivity].
    rewrite (Double_add_safe _ _ (Hr Er)). reflexivity.
Qed.

Lemma Double_Firebase_addGift_exact shuffleR shuffleG now (db : Store) roomId room
    gifter recipient description amount :
  db !! roomId = Some room ->
  exactGift gifter recipient amount (Room.participants room) ->
  Double.Firebase_addGift shuffleR shuffleG now db roomId gifter recipient description amount
  = Firebase.addGift shuffleR shuffleG now db roomId gifter recipient description amount.
Proof.
  intros Hroom Hexact. unfold Double.Firebase_addGift, Firebase.addGift. rewrite Hroom.
  unfold Double.Firebase_settle, Firebase.settle.
  rewrite (Double_updatedParticipants_exact _ _ _ _ Hexact). reflexivity.
Qed.

Lemma Double_Part002_addGift_exact shuffleR shuffleG nowId nowTs (db : Store) roomId room
    gifter recipient description amount :
  db !! roomId = Some room ->
  exactGift gifter recipient amount (Room.participants room) ->
  Double.Part002_addGift shuffleR shuffleG nowId nowTs db roomId
                         gifter recipient description amount
  = Part002.addGift shuffleR shuffleG nowId nowTs db roomId
                    gifter recipient description amount.
Proof.
  intros Hroom Hexact. unfold Double.Part002_addGift, Part002.addGift. rewrite Hroom.
  unfold Double.Part002_settle, Part002.settle.
  rewrite (Double_updatedParticipants_exact _ _ _ _ Hexact). reflexivity.
Qed.

(** The columns of a settlement, read participant by participant. *)
Lemma giftApplied_booked gifter recipient amount before after :
  giftApplied gifter recipient amount before after ->
  Forall2 (booked gifter recipient amount) before after.
Proof.
  intros (Hn & Hs & Hr). revert after Hn Hs Hr.
  induction before as [|p before IH]; intros [|q after] Hn Hs Hr;
    try discriminate; constructor.
  - injection Hn as Hn _. injection Hs as Hs _. injection Hr as Hr _.
    unfold spentAfter in Hs. unfold receivedAfter in Hr. unfold booked.
    destruct (String.eqb_spec (Participant.username p) gifter) as [Eg|Eg];
      destruct (String.eqb_spec (Participant.username p) recipient) as [Er|Er];
      repeat split; intros; try tauto; congruence.
  - injection Hn as _ Hn. injection Hs as _ Hs. injection Hr as _ Hr.
    apply IH; assumption.
Qed.

Lemma sumZ_member (column : list Z) (x : Z) :
  Forall (fun y => 0 <= y) column -> x ∈ column -> x <= sumZ column.
Proof.
  induction column as [|y column IH]; intros Hpos Hx; [inversion Hx|].
  apply Forall_cons in Hpos as [Hy Hpos].
  assert (0 <= sumZ column) as Hsum.
  { clear IH Hx. induction column as [|z column IH]; simpl; [lia|].
    apply Forall_cons in Hpos as [Hz Hpos]. specialize (IH Hpos). lia. }
  simpl. apply elem_of_cons in Hx as [->|Hx]; [lia|]. specialize (IH Hpos Hx). lia.
Qed.

Lemma sumZ_nonneg (column : list Z) : Forall (fun y => 0 <= y) column -> 0 <= sumZ column.
Proof.
  induction column as [|z column IH]; simpl; intros Hpos; [lia|].
  apply Forall_cons in Hpos as [Hz Hpos]. specialize (IH Hpos). lia.
Qed.

(** A gift of an amount that is not negative leaves no balance negative. *)
Lemma giftApplied_nonneg gifter recipient amount before after :
  0 <= amount ->
  giftApplied gifter recipient amount before after ->
  (forall p, p ∈ before -> 0 <= Participant.spent p /\ 0 <= Participant.received p) ->
  forall q, q ∈ after -> 0 <= Participant.spent q /\ 0 <= Participant.received q.
Proof.
  intros Hamount Happ. apply giftApplied_booked in Happ.
  induction Happ as [|p q before after Hb _ IH]; intros Hpos q' Hq'; [inversion Hq'|].
  apply elem_of_cons in Hq' as [->|Hq'].
  - destruct Hb as (_ & Hs & Hs' & Hr & Hr').
    destruct (Hpos p) as [H1 H2]; [left|].
    destruct (String.eqb_spec (Participant.username p) gifter) as [Eg|Eg].
    + rewrite (Hs Eg), (Hr' (or_intror Eg)). lia.
    + rewrite (Hs' Eg).
      destruct (String.eqb_spec (Participant.username p) recipient) as [Er|Er].
      * rewrite (Hr Er Eg). lia.
      * rewrite (Hr' (or_introl Er)). lia.
  - apply IH; [|exact Hq']. intros p0 Hp0. apply Hpos. right. exact Hp0.
Qed.

(** * The claims *)




(** C2 as stated fails on large balances.  The balances are numbers of the
    language: in [roomBig] A has spent 2^53 and received nothing, C has
    received 2^53, and the two sums are equal.  A gives 1 to B: the sum
    2^53 + 1 is rounded to 2^53, so A's [spent] stays as it was while B's
    [received] becomes 1, and the sums differ by 1 afterwards.  Both
    revisions. *)
Lemma C2_counterexample :
  NoDup (map Participant.username (Room.participants roomBig))
  /\ sumZ (map Participant.spent (Room.participants roomBig))
     = sumZ (map Participant.received (Room.participants roomBig))
  /\ (exists db1 room1,
         Double.Firebase_addGift idShuffle idShuffle 17 (collection roomBig)
                                 "room" "A" "B" "socks" 1 = inr db1
         /\ db1 !! "room"%string = Some room1
         /\ map Participant.spent (Room.participants room1) = [2 ^ 53; 0; 0]
         /\ map Participant.received (Room.participants room1) = [0; 1; 2 ^ 53]
         /\ sumZ (map Participant.spent (Room.participants room1))
            <> sumZ (map Participant.received (Room.participants room1)))
  /\ (exists db1 room1,
         Double.Part002_addGift idShuffle idShuffle 17 18 (collection roomBig)
                                "room" "A" "B" "socks" 1 = inr db1
         /\ db1 !! "room"%string = Some room1
         /\ map Participant.spent (Room.participants room1) = [2 ^ 53; 0; 0]
         /\ map Participant.received (Room.participants room1) = [0; 1; 2 ^ 53]
         /\ sumZ (map Participant.spent (Room.participants room1))
            <> sumZ (map Participant.received (Room.participants room1))).
Proof.
  split; [simpl; distinct_names|]. split; [reflexivity|]. split.
  - eexists _, _. split; [reflexivity|]. split; [reflexivity|].
    split; [reflexivity|]. split; [reflexivity|]. vm_compute. discriminate.
  - eexists _, _. split; [reflexivity|]. split; [reflexivity|].
    split; [reflexivity|]. split; [reflexivity|]. vm_compute. discriminate.
Qed.

(** C2, as the code has it.  Conservation on safe integers.  In a room whose
    user names are keys, where [gifter] and [recipient] are two different
    participants, the sum of [spent] equals the sum of [received], and the
    gifter's [spent + amount] and the recipient's [received + amount] are
    safe integers (at most 2^53 - 1 in magnitude), [addGift] (either
    revision, with the addition of the language) writes a participant list
    in which [amount] was added to the [spent] of the gifter and to the
    [received] of the recipient and nothing else changed in these columns;
    both sums grew by [amount] and are still equal. *)
Theorem C2_conservation
    (shuffleR shuffleG : list Participant.t -> list Participant.t) (now nowId nowTs : Z)
    (db : Store) (roomId gifter recipient description : string) (amount : Z)
    (room : Room.t) :
  db !! roomId = Some room ->
  NoDup (map Participant.username (Room.participants room)) ->
  gifter ∈ map Participant.username (Room.participants room) ->
  recipient ∈ map Participant.username (Room.participants room) ->
  gifter <> recipient ->
  exactGift gifter recipient amount (Room.participants room) ->
  sumZ (map Participant.spent (Room.participants room))
  = sumZ (map Participant.received (Room.participants room)) ->
  (exists room',
     Double.Firebase_addGift shuffleR shuffleG now db roomId
                             gifter recipient description amount
     = inr (<[roomId := room']> db)
     /\ Forall2 (booked gifter recipient amount) (Room.participants room)
                 (Room.participants room')
     /\ sumZ (map Participant.spent (Room.participants room'))
        = sumZ (map Participant.spent (Room.participants room)) + amount
     /\ sumZ (map Participant.received (Room.participants room'))
        = sumZ (map Participant.received (Room.participants room)) + amount
     /\ sumZ (map Participant.spent (Room.participants room'))
        = sumZ (map Participant.received (Room.participants room')))
  /\ (exists room',
        Double.Part002_addGift shuffleR shuffleG nowId nowTs db roomId
                               gifter recipient description amount
        = inr (<[roomId := room']> db)
        /\ Forall2 (booked gifter recipient amount) (Room.participants room)
                    (Room.participants room')
        /\ sumZ (map Participant.spent (Room.participants room'))
           = sumZ (map Participant.spent (Room.participants room)) + amount
        /\ sumZ (map Participant.received (Room.participants room'))
           = sumZ (map Participant.received (Room.participants room)) + amount
        /\ sumZ (map Participant.spent (Room.participants room'))
           = sumZ (map Participant.received (Room.participants room'))).
Proof.
  intros Hroom Hnd Hg Hr Hne Hexact Heq. split.
  - rewrite (Double_Firebase_addGift_exact _ _ _ _ _ _ _ _ _ _ Hroom Hexact).
    eexists. split; [apply Firebase_addGift_found, Hroom|].
    pose proof (Firebase_settle_applied shuffleR shuffleG now room gifter recipient
                  description amount) as Happ.
    destruct (giftApplied_totals _ _ _ _ _ Happ Hnd Hg Hr Hne) as [Hs Hrec].
    rewrite !totalSpent_column in Hs. rewrite !totalReceived_column in Hrec.
    split; [apply giftApplied_booked, Happ|]. split; [exact Hs|]. split; [exact Hrec|].
    rewrite Hs, Hrec, Heq. reflexivity.
  - rewrite (Double_Part002_addGift_exact _ _ _ _ _ _ _ _ _ _ _ Hroom Hexact).
    eexists. split; [apply Part002_addGift_found, Hroom|].
    pose proof (Part002_settle_applied shuffleR shuffleG nowId nowTs room gifter recipient
                  description amount) as Happ.
    destruct (giftApplied_totals _ _ _ _ _ Happ Hnd Hg Hr Hne) as [Hs Hrec].
    rewrite !totalSpent_column in Hs. rewrite !totalReceived_column in Hrec.
    split; [apply giftApplied_booked, Happ|]. split; [exact Hs|]. split; [exact Hrec|].
    rewrite Hs, Hrec, Heq. reflexivity.
Qed.

Lemma C2_conservation_witness :
  exists room',
    Double.Firebase_addGift idShuffle revShuffle 17 (collection roomAB)
                            "room" "A" "B" "socks" 40
    = inr (<["room"%string := room']> (collection roomAB))
    /\ sumZ (map Participant.spent (Room.participants room')) = 40
    /\ sumZ (map Participant.received (Room.participants room')) = 40.
Proof.
  destruct (C2_conservation idShuffle revShuffle 17 17 18 (collection roomAB)
              "room" "A" "B" "socks" 40 roomAB) as [(room' & Hrun & _ & Hs & Hr & _) _].
  - reflexivity.
  - simpl. distinct_names.
  - simpl. left.
  - simpl. right. left.
  - discriminate.
  - intros p Hp. apply list_elem_of_In in Hp. simpl in Hp.
    destruct Hp as [<-|[<-|[<-|[]]]]; split; intros _; reflexivity.
  - reflexivity.
  - exists room'. split; [exact Hrun|]. split; [exact Hs|exact Hr].
Defined.

(** C3 on [src/unnamed/part_002]: [startGame] on a room of two fresh
    participants, when both [sort] calls leave their array in order, makes A
    the gifter of A.  ([src/src/lib/firebase.ts] tests
    [r.username !== gifter.username]: see [Firebase_createAssignments_no_self]
    and [Firebase_createNewAssignments_no_self].) *)
Theorem C3_part002_self_assignment :
  exists db1 room1,
    Part002.startGame idShuffle idShuffle (collection lobby) "room" = inr db1
    /\ db1 !! "room"%string = Some room1
    /\ Room.activeAssignments room1
       = [ {| Assignment.gifter := "A"; Assignment.recipient := "A" |} ].
Proof. eexists _, _. split; [reflexivity|]. split; reflexivity. Qed.

(** C4 as stated fails.  In [roomLater] D has [spent = 0] but is the gifter
    of an active assignment; when C settles with D, the tier is empty and the
    backfill makes A, who has spent 40, a gifter. *)
Lemma C4_counterexample :
  exists db1 room1,
    Firebase.addGift idShuffle idShuffle 17 (collection roomLater) "room" "C" "D" "scarf" 30
    = inr db1
    /\ db1 !! "room"%string = Some room1
    /\ Room.activeAssignments room1
       = [ {| Assignment.gifter := "D"; Assignment.recipient := "A" |};
           {| Assignment.gifter := "A"; Assignment.recipient := "B" |} ]
    /\ map (fun p => (Participant.username p, Participant.spent p)) (Room.participants room1)
       = [ ("A"%string, 40); ("B"%string, 10); ("C"%string, 30); ("D"%string, 0) ].
Proof. eexists _, _. split; [reflexivity|]. split; [reflexivity|]. split; reflexivity. Qed.

(** C4, as the code has it ([src/src/lib/firebase.ts], user names being
    keys).  The tier is made of the participants with [spent === 0] who are
    not the gifter of a current assignment and not excluded ([notTaken]; for
    [createAssignments]: not in [prevGifters]).  Whenever at least one such
    participant exists, every new gifter is a participant with [spent = 0];
    a participant with [spent === 0] who is already a gifter or is excluded
    does not count. *)
Theorem C4_first_turn_tier
    (shuffleR shuffleG : list Participant.t -> list Participant.t)
    (ps : list Participant.t) (budget : Z)
    (current : list Assignment.t) (excl prevGifters : list string) :
  is_shuffle shuffleG ->
  NoDup (map Participant.username ps) ->
  ((exists p, p ∈ ps /\ Participant.spent p = 0
              /\ Firebase.notTaken current excl p = true) ->
   forall a q,
     a ∈ Firebase.createNewAssignments shuffleR shuffleG ps budget current excl ->
     q ∈ ps -> Participant.username q = Assignment.gifter a ->
     Participant.spent q = 0)
  /\ ((exists p, p ∈ ps /\ Participant.spent p = 0
                 /\ includes prevGifters (Participant.username p) = false) ->
      forall a q,
        a ∈ Firebase.createAssignments shuffleR shuffleG ps budget prevGifters ->
        q ∈ ps -> Participant.username q = Assignment.gifter a ->
        Participant.spent q = 0).
Proof.
  intros Hs Hkey. split.
  - intros (p & Hp & Hzero & Hfree) a q Ha Hq E.
    assert (p ∈ Firebase.peopleWhoHaventGifted ps current excl) as Htier.
    { apply elem_filter. split; [exact Hp|].
      rewrite Hfree, (proj2 (Z.eqb_eq _ _) Hzero). reflexivity. }
    destruct (Firebase_createNewAssignments_pushed shuffleR shuffleG ps budget current excl)
      as [Hall _].
    rewrite Forall_forall in Hall.
    destruct (Hall a Ha) as (_ & _ & (g & Hg & Eg) & _).
    apply (shuffled_elem _ _ _ Hs) in Hg.
    rewrite (Firebase_tier_exclusive _ _ _ _ Htier) in Hg.
    apply elem_filter in Hg as [Hgin Hok].
    apply andb_true_iff in Hok as [Hgz _]. apply Z.eqb_eq in Hgz.
    rewrite (username_key ps q g Hkey Hq Hgin); [exact Hgz|congruence].
  - intros (p & Hp & Hzero & Hfree) a q Ha Hq E.
    assert (p ∈ Firebase.peopleWhoHaventGifted0 ps prevGifters) as Htier.
    { apply elem_filter. split; [exact Hp|].
      rewrite Hfree, (proj2 (Z.eqb_eq _ _) Hzero). reflexivity. }
    destruct (Firebase_createAssignments_pushed shuffleR shuffleG ps budget prevGifters)
      as [Hall _].
    rewrite Forall_forall in Hall.
    destruct (Hall a Ha) as (_ & _ & (g & Hg & Eg) & _).
    apply (shuffled_elem _ _ _ Hs) in Hg.
    rewrite (Firebase_tier0_exclusive _ _ _ Htier) in Hg.
    apply elem_filter in Hg as [Hgin Hok].
    apply andb_true_iff in Hok as [Hgz _]. apply Z.eqb_eq in Hgz.
    rewrite (username_key ps q g Hkey Hq Hgin); [exact Hgz|congruence].
Qed.

Lemma C4_first_turn_tier_witness :
  {| Assignment.gifter := "B"; Assignment.recipient := "A" |}
    ∈ Firebase.createNewAssignments idShuffle idShuffle settledABCD 100
        [ {| Assignment.gifter := "C"; Assignment.recipient := "D" |} ] ["A"%string]
  /\ Participant.spent
       {| Participant.username := "B"; Participant.spent := 0; Participant.received := 40;
          Participant.isGifter := false; Participant.recipient := Null |} = 0.
Proof.
  assert ({| Assignment.gifter := "B"; Assignment.recipient := "A" |}
            ∈ Firebase.createNewAssignments idShuffle idShuffle settledABCD 100
                [ {| Assignment.gifter := "C"; Assignment.recipient := "D" |} ] ["A"%string])
    as Hnew by (vm_compute; left).
  split; [exact Hnew|].
  destruct (C4_first_turn_tier idShuffle idShuffle settledABCD 100
              [ {| Assignment.gifter := "C"; Assignment.recipient := "D" |} ]
              ["A"%string] []) as [Htier _].
  - exact idShuffle_is_shuffle.
  - vm_compute. distinct_names.
  - eapply Htier; [|exact Hnew| |reflexivity].
    + exists (idle "D"). split; [vm_compute; do 3 right; left|]. split; reflexivity.
    + vm_compute. right. left.
Defined.

(** C5 on [src/unnamed/part_002]: in the room of four with A to B and
    C to D active, A settles with B; the backfill pairs B with D although
    D is still the recipient of C.  ([src/src/lib/firebase.ts] starts
    [usedRecipients] from the current recipients: see
    [Firebase_createNewAssignments_exclusive].) *)
Theorem C5_part002_recipient_twice :
  exists db1 room1,
    Part002.addGift revShuffle swapShuffle 17 18 (collection roomABCD)
                    "room" "A" "B" "socks" 40 = inr db1
    /\ db1 !! "room"%string = Some room1
    /\ Room.activeAssignments room1
       = [ {| Assignment.gifter := "C"; Assignment.recipient := "D" |};
           {| Assignment.gifter := "B"; Assignment.recipient := "D" |} ].
Proof. eexists _, _. split; [reflexivity|]. split; reflexivity. Qed.

(** C6 on [src/unnamed/part_002]: in [roomFull], A settles with B; then A,
    B and C have received the budget and D, the only participant below it,
    is still the recipient of C, so there is no eligible recipient and the
    claim has the computation return the empty set.  The backfill of
    [src/unnamed/part_002] pairs B with D all the same (the recipients are
    not checked against the current assignments).  [src/src/lib/firebase.ts]
    returns the empty array there: the active assignments stay [C to D]
    (see [Firebase_createNewAssignments_all_used]).  The bound
    [floor(participants.length / 2)] itself holds in both revisions (see
    [Firebase_createNewAssignments_capacity] and
    [Part002_createNewAssignments_capacity]). *)
Theorem C6_part002_pairs_taken_recipient :
  exists db1 room1 db2 room2,
    Part002.addGift idShuffle swapShuffle 17 18 (collection roomFull)
                    "room" "A" "B" "socks" 10 = inr db1
    /\ db1 !! "room"%string = Some room1
    /\ Forall (fun p => Participant.received p < Room.budget room1 ->
                        Participant.username p = "D"%string)
              (Room.participants room1)
    /\ updatedAssignments (Room.activeAssignments roomFull) "A" "B"
       = [ {| Assignment.gifter := "C"; Assignment.recipient := "D" |} ]
    /\ Room.activeAssignments room1
       = [ {| Assignment.gifter := "C"; Assignment.recipient := "D" |};
           {| Assignment.gifter := "B"; Assignment.recipient := "D" |} ]
    /\ Firebase.addGift idShuffle swapShuffle 17 (collection roomFull)
                        "room" "A" "B" "socks" 10 = inr db2
    /\ db2 !! "room"%string = Some room2
    /\ Room.activeAssignments room2
       = [ {| Assignment.gifter := "C"; Assignment.recipient := "D" |} ].
Proof.
  eexists _, _, _, _.
  split; [reflexivity|]. split; [reflexivity|].
  split; [repeat constructor; simpl; lia|].
  split; [reflexivity|]. split; [reflexivity|].
  split; [reflexivity|]. split; reflexivity.
Qed.




(** C8 on [src/unnamed/part_002]: in the room of three with A to B active,
    A settles with B and is at once the gifter of the backfilled
    assignment.  ([src/src/lib/firebase.ts] passes [[gifter]] as
    [excludeGifters]: see [Firebase_addGift_excludes_settled].) *)
Theorem C8_part002_settled_gifter_again :
  exists db1 room1,
    Part002.addGift revShuffle idShuffle 17 18 (collection roomAB)
                    "room" "A" "B" "socks" 40 = inr db1
    /\ db1 !! "room"%string = Some room1
    /\ Room.activeAssignments room1
       = [ {| Assignment.gifter := "A"; Assignment.recipient := "C" |} ].
Proof. eexists _, _. split; [reflexivity|]. split; reflexivity. Qed.

(** C9 as stated fails twice.  In [src/src/lib/firebase.ts] the stored record
    has no [isHidden] field.  In [src/unnamed/part_002] a second submit
    with the same arguments and the same clock readings builds a record the
    ledger already holds: the call succeeds and the ledger keeps its length. *)
Lemma C9_counterexample :
  (exists db1 room1,
      Firebase.addGift idShuffle idShuffle 17 (collection roomAB) "room" "A" "B" "socks" 40
      = inr db1
      /\ db1 !! "room"%string = Some room1
      /\ map Gift.isHidden (Room.gifts room1) = [None])
  /\ (exists db1 room1 db2 room2,
         Part002.addGift idShuffle idShuffle 17 17 (collection roomAB)
                         "room" "A" "B" "socks" 40 = inr db1
         /\ db1 !! "room"%string = Some room1
         /\ Part002.addGift idShuffle idShuffle 17 17 db1 "room" "A" "B" "socks" 40 = inr db2
         /\ db2 !! "room"%string = Some room2
         /\ length (Room.gifts room1) = 1%nat
         /\ length (Room.gifts room2) = 1%nat).
Proof.
  split.
  - eexists _, _. split; [reflexivity|]. split; reflexivity.
  - eexists _, _, _, _. split; [reflexivity|]. split; [reflexivity|].
    split; [reflexivity|]. split; [reflexivity|]. split; reflexivity.
Qed.

(** C9, as the code has it.  [addGift] on an existing room hands one gift
    record to [arrayUnion]: the record is appended to the ledger unless the
    ledger already holds an identical record (same [Date.now()] readings and
    same fields), in which case the ledger is unchanged.  The record of
    [src/unnamed/part_002] has [isHidden = true]; the record of
    [src/src/lib/firebase.ts] has no [isHidden] and no [timestamp]. *)
Theorem C9_gift_record
    (shuffleR shuffleG : list Participant.t -> list Participant.t) (now nowTs : Z)
    (db : Store) (roomId gifter recipient description : string) (amount : Z)
    (room : Room.t) :
  db !! roomId = Some room ->
  (exists room' gift,
      Part002.addGift shuffleR shuffleG now nowTs db roomId
                      gifter recipient description amount
      = inr (<[roomId := room']> db)
      /\ gift = {| Gift.id := toString now; Gift.gifter := gifter;
                   Gift.recipient := recipient; Gift.description := description;
                   Gift.amount := amount; Gift.timestamp := Some nowTs;
                   Gift.isHidden := Some true |}
      /\ (gift ∉ Room.gifts room -> Room.gifts room' = Room.gifts room ++ [gift])
      /\ (gift ∈ Room.gifts room -> Room.gifts room' = Room.gifts room))
  /\ (exists room' gift,
         Firebase.addGift shuffleR shuffleG now db roomId
                          gifter recipient description amount
         = inr (<[roomId := room']> db)
         /\ gift = {| Gift.id := toString now; Gift.gifter := gifter;
                      Gift.recipient := recipient; Gift.description := description;
                      Gift.amount := amount; Gift.timestamp := None;
                      Gift.isHidden := None |}
         /\ (gift ∉ Room.gifts room -> Room.gifts room' = Room.gifts room ++ [gift])
         /\ (gift ∈ Room.gifts room -> Room.gifts room' = Room.gifts room)).
Proof.
  intros Hroom. split.
  - eexists _, _. split; [apply Part002_addGift_found, Hroom|].
    split; [reflexivity|]. split; intros Hin; simpl.
    + apply arrayUnion_new, Hin.
    + apply arrayUnion_old, Hin.
  - eexists _, _. split; [apply Firebase_addGift_found, Hroom|].
    split; [reflexivity|]. split; intros Hin; simpl.
    + apply arrayUnion_new, Hin.
    + apply arrayUnion_old, Hin.
Qed.

Lemma C9_gift_record_witness :
  exists room',
    Part002.addGift idShuffle idShuffle 17 18 (collection roomAB) "room" "A" "B" "socks" 40
    = inr (<["room"%string := room']> (collection roomAB))
    /\ Room.gifts room'
       = [ {| Gift.id := "17"; Gift.gifter := "A"; Gift.recipient := "B";
              Gift.description := "socks"; Gift.amount := 40;
              Gift.timestamp := Some 18; Gift.isHidden := Some true |} ].
Proof.
  destruct (C9_gift_record idShuffle idShuffle 17 18 (collection roomAB)
              "room" "A" "B" "socks" 40 roomAB)
    as [(room' & gift & Hrun & -> & Hnew & _) _].
  - reflexivity.
  - exists room'. split; [exact Hrun|].
    apply Hnew. simpl. apply not_elem_of_nil.
Defined.

(** C10. [joinRoom] is idempotent: in a room that already has a participant
    with the given user name it returns [true] and writes nothing, so the
    participant list is unchanged; when the name is absent and the game has
    not started, it returns [true] and the stored room has one participant
    more, at the end of the list, with the given name, [spent = 0],
    [received = 0], [isGifter = false] (and no [recipient] field), every
    other field of the room and every other room being as before; and a
    [joinRoom] that returned [true] returns [true] again without writing when
    repeated. *)
Theorem C10_joinRoom_idempotent (db : Store) (roomId username : string) (room : Room.t) :
  db !! roomId = Some room ->
  ((exists p, p ∈ Room.participants room /\ Participant.username p = username) ->
   joinRoom db roomId username = (db, true))
  /\ ((forall p, p ∈ Room.participants room -> Participant.username p <> username) ->
      Room.gameStarted room = false ->
      exists db' room',
        joinRoom db roomId username = (db', true)
        /\ db' !! roomId = Some room'
        /\ Room.participants room'
           = Room.participants room
             ++ [ {| Participant.username := username;
                     Participant.spent := 0;
                     Participant.received := 0;
                     Participant.isGifter := false;
                     Participant.recipient := Undefined |} ]
        /\ Room.name room' = Room.name room
        /\ Room.budget room' = Room.budget room
        /\ Room.gameStarted room' = false
        /\ Room.gifts room' = Room.gifts room
        /\ Room.activeAssignments room' = Room.activeAssignments room
        /\ Room.createdAt room' = Room.createdAt room
        /\ Room.createdBy room' = Room.createdBy room
        /\ (forall other, other <> roomId -> db' !! other = db !! other))
  /\ (forall db', joinRoom db roomId username = (db', true) ->
                  joinRoom db' roomId username = (db', true)).
Proof.
  intros Hroom. split; [|split].
  - intros (p & Hp & E). eapply joinRoom_existing; eassumption.
  - intros Hnone Hnot. eexists _, _.
    split; [exact (joinRoom_absent db roomId username room Hroom Hnone Hnot)|].
    split; [apply lookup_insert_eq|].
    cbn [setParticipants Room.participants Room.name Room.budget Room.gameStarted
         Room.gifts Room.activeAssignments Room.createdAt Room.createdBy].
    repeat split; try assumption.
    intros other Hother. apply lookup_insert_ne. congruence.
  - intros db' Hjoin.
    destruct (findParticipant username (Room.participants room)) as [p|] eqn:Hfind.
    + apply findParticipant_Some in Hfind as [Hp E].
      rewrite (joinRoom_existing db roomId username room p Hroom Hp E) in Hjoin.
      injection Hjoin as <-. eapply joinRoom_existing; eassumption.
    + rewrite findParticipant_None in Hfind.
      destruct (Room.gameStarted room) eqn:Hstarted.
      * unfold joinRoom in Hjoin. rewrite Hroom, Hstarted in Hjoin.
        rewrite (proj2 (findParticipant_None _ _) Hfind) in Hjoin. discriminate.
      * rewrite (joinRoom_absent db roomId username room Hroom Hfind Hstarted) in Hjoin.
        injection Hjoin as <-.
        eapply (joinRoom_existing _ roomId username _ (newParticipant username)).
        -- apply lookup_insert_eq.
        -- simpl. apply elem_of_app. right. apply list_elem_of_singleton. reflexivity.
        -- reflexivity.
Qed.

Lemma C10_joinRoom_idempotent_witness :
  joinRoom (collection lobby) "room" "A" = (collection lobby, true)
  /\ exists db' room',
       joinRoom (collection lobby) "room" "C" = (db', true)
       /\ db' !! "room"%string = Some room'
       /\ Room.participants room' = [fresh "A"; fresh "B"; fresh "C"].
Proof.
  split.
  - destruct (C10_joinRoom_idempotent (collection lobby) "room" "A" lobby) as (Hold & _).
    + reflexivity.
    + apply Hold. exists (fresh "A"). split; [left|reflexivity].
  - destruct (C10_joinRoom_idempotent (collection lobby) "room" "C" lobby) as (_ & Hnew & _).
    + reflexivity.
    + destruct Hnew as (db' & room' & Hjoin & Hroom' & Hps & _).
      * intros p Hp. simpl in Hp.
        apply elem_of_cons in Hp as [->|Hp]; [discriminate|].
        apply list_elem_of_singleton in Hp as ->. discriminate.
      * reflexivity.
      * exists db', room'. split; [exact Hjoin|]. split; [exact Hroom'|exact Hps].
Defined.

(** * Further properties of the code *)

(** ** [createRoom], [getRoom], [joinRoom] *)

(** X1. A created room can be read back under the returned id: [getRoom]
    gives the room with the creator as its only participant, zero balances,
    not started, no gift and no assignment; every other document of the
    collection is as it was. *)
Theorem X1_createRoom_getRoom (autoId : string) (now : Z) (db : Store)
    (data : CreateRoomData.t) :
  getRoom (fst (createRoom autoId now db data)) (snd (createRoom autoId now db data))
  = Some (autoId,
          {| Room.name := CreateRoomData.roomName data;
             Room.budget := CreateRoomData.budget data;
             Room.gameStarted := false;
             Room.participants := [newParticipant (CreateRoomData.username data)];
             Room.gifts := [];
             Room.activeAssignments := [];
             Room.createdAt := now;
             Room.createdBy := CreateRoomData.username data |})
  /\ sameElsewhere autoId db (fst (createRoom autoId now db data))
  /\ (forall other, other <> autoId ->
         getRoom (fst (createRoom autoId now db data)) other = getRoom db other).
Proof.
  unfold createRoom, getRoom. cbn [fst snd]. split; [|split].
  - rewrite lookup_insert_eq. reflexivity.
  - intros other Hne. apply lookup_insert_ne. congruence.
  - intros other Hne. rewrite lookup_insert_ne by congruence. reflexivity.
Qed.

(** X2. In a room that was just created, the creator is already in: a
    [joinRoom] under the creator's name returns [true] and writes nothing;
    and the creator cannot start alone: [startGame] throws the
    too-few-participants error of its revision. *)
Theorem X2_created_room_alone
    (shuffleR shuffleG : list Participant.t -> list Participant.t)
    (autoId : string) (now : Z) (db : Store) (data : CreateRoomData.t) :
  joinRoom (fst (createRoom autoId now db data)) autoId (CreateRoomData.username data)
  = (fst (createRoom autoId now db data), true)
  /\ Firebase.startGame shuffleR shuffleG (fst (createRoom autoId now db data)) autoId
     = inl "Need at least 3 participants to start"%string
  /\ Part002.startGame shuffleR shuffleG (fst (createRoom autoId now db data)) autoId
     = inl "Need at least 2 participants to start"%string.
Proof.
  unfold createRoom. cbn [fst]. split; [|split].
  - eapply joinRoom_existing with (p := newParticipant (CreateRoomData.username data));
      [apply lookup_insert_eq| |reflexivity].
    cbn [Room.participants]. apply list_elem_of_singleton. reflexivity.
  - unfold Firebase.startGame. rewrite lookup_insert_eq. reflexivity.
  - unfold Part002.startGame. rewrite lookup_insert_eq. reflexivity.
Qed.

(** X3. Called with a room id that is a document id, [joinRoom] returns
    [false] exactly when no room is stored under the id, or the game has
    started and no participant has the name.  When it returns [false], and
    whenever the game has started, it writes nothing; it never touches
    another room. *)
Theorem X3_joinRoom_refusal (db : Store) (roomId username : string) :
  validRoomId roomId = true ->
  (snd (joinRoom db roomId username) = false <->
   db !! roomId = None
   \/ exists room, db !! roomId = Some room /\ Room.gameStarted room = true
                   /\ forall p, p ∈ Room.participants room ->
                                Participant.username p <> username)
  /\ (snd (joinRoom db roomId username) = false -> fst (joinRoom db roomId username) = db)
  /\ (forall room, db !! roomId = Some room -> Room.gameStarted room = true ->
                   fst (joinRoom db roomId username) = db)
  /\ sameElsewhere roomId db (fst (joinRoom db roomId username)).
Proof.
  intros _. unfold joinRoom. destruct (db !! roomId) as [room|] eqn:Hroom.
  - destruct (findParticipant username (Room.participants room)) as [p|] eqn:Hfind.
    + rewrite andb_false_r. cbn [fst snd]. split; [|split; [|split]].
      * split; [discriminate|].
        intros [Hnone|(room' & [= <-] & _ & Habs)]; [discriminate|].
        apply findParticipant_Some in Hfind as [Hp E]. destruct (Habs p Hp E).
      * reflexivity.
      * reflexivity.
      * intros other _. reflexivity.
    + destruct (Room.gameStarted room) eqn:Hstarted; cbn [fst snd negb truthy andb].
      * split; [|split; [|split]].
        -- split; [|reflexivity].
           intros _. right. exists room. split; [reflexivity|]. split; [exact Hstarted|].
           apply findParticipant_None, Hfind.
        -- reflexivity.
        -- reflexivity.
        -- intros other _. reflexivity.
      * split; [|split; [|split]].
        -- split; [discriminate|].
           intros [Hnone|(room' & [= <-] & Hs & _)]; [discriminate|congruence].
        -- discriminate.
        -- intros room' [= <-]. congruence.
        -- intros other Hne. apply lookup_insert_ne. congruence.
  - cbn [fst snd]. split; [|split; [|split]].
    + split; [left; reflexivity|reflexivity].
    + reflexivity.
    + intros room [=].
    + intros other _. reflexivity.
Qed.

Lemma X3_joinRoom_refusal_witness :
  joinRoom (collection roomAB) "attic" "Z" = (collection roomAB, false)
  /\ joinRoom (collection roomAB) "room" "Z" = (collection roomAB, false).
Proof.
  destruct (X3_joinRoom_refusal (collection roomAB) "attic" "Z" eq_refl)
    as (Hfalse & Hsame & _).
  destruct (X3_joinRoom_refusal (collection roomAB) "room" "Z" eq_refl)
    as (Hfalse' & Hsame' & _).
  assert (snd (joinRoom (collection roomAB) "attic" "Z") = false) as H1
    by (apply Hfalse; left; reflexivity).
  assert (snd (joinRoom (collection roomAB) "room" "Z") = false) as H2.
  { apply Hfalse'. right. exists roomAB. split; [reflexivity|]. split; [reflexivity|].
    intros p Hp. apply list_elem_of_In in Hp. simpl in Hp.
    destruct Hp as [<-|[<-|[<-|[]]]]; discriminate. }
  split; apply injective_projections; cbn [fst snd]; auto.
Defined.

(** ** [startGame] *)

(** X4. Called with a room id that is a document id, [startGame] throws in
    two cases only: [Room not found] when no room is stored under the id, and
    the too-few-participants error when the room has fewer than 3
    participants ([src/src/lib/firebase.ts]) or fewer than 2
    ([src/unnamed/part_002]). *)
Theorem X4_startGame_errors
    (shuffleR shuffleG : list Participant.t -> list Participant.t)
    (db : Store) (roomId message : string) :
  validRoomId roomId = true ->
  (Firebase.startGame shuffleR shuffleG db roomId = inl message <->
   (db !! roomId = None /\ message = "Room not found"%string)
   \/ exists room, db !! roomId = Some room
                   /\ (length (Room.participants room) < 3)%nat
                   /\ message = "Need at least 3 participants to start"%string)
  /\ (Part002.startGame shuffleR shuffleG db roomId = inl message <->
      (db !! roomId = None /\ message = "Room not found"%string)
      \/ exists room, db !! roomId = Some room
                      /\ (length (Room.participants room) < 2)%nat
                      /\ message = "Need at least 2 participants to start"%string).
Proof.
  intros _. unfold Firebase.startGame, Part002.startGame.
  destruct (db !! roomId) as [room|] eqn:Hroom.
  - split.
    + destruct (Nat.ltb_spec (length (Room.participants room)) 3) as [Hlt|Hge]; split.
      * intros [= <-]. right. exists room. auto.
      * intros [[[=] _]|(room' & [= <-] & _ & ->)]. reflexivity.
      * discriminate.
      * intros [[[=] _]|(room' & [= <-] & Hlt & _)]. lia.
    + destruct (Nat.ltb_spec (length (Room.participants room)) 2) as [Hlt|Hge]; split.
      * intros [= <-]. right. exists room. auto.
      * intros [[[=] _]|(room' & [= <-] & _ & ->)]. reflexivity.
      * discriminate.
      * intros [[[=] _]|(room' & [= <-] & Hlt & _)]. lia.
  - split; (split; [intros [= <-]; left; auto
                   |intros [[_ ->]|(room' & [=] & _)]; reflexivity]).
Qed.

Lemma X4_startGame_errors_witness :
  Firebase.startGame idShuffle idShuffle (collection lobby) "room"
  = inl "Need at least 3 participants to start"%string
  /\ Part002.startGame idShuffle idShuffle (collection lobby) "attic"
     = inl "Room not found"%string.
Proof.
  destruct (X4_startGame_errors idShuffle idShuffle (collection lobby) "room"
              "Need at least 3 participants to start" eq_refl) as [Hfew _].
  destruct (X4_startGame_errors idShuffle idShuffle (collection lobby) "attic"
              "Room not found" eq_refl) as [_ Hnone].
  split.
  - apply Hfew. right. exists lobby. split; [reflexivity|]. split; [simpl; lia|reflexivity].
  - apply Hnone. left. split; reflexivity.
Defined.

Lemma withAssignments_spent ps assignments :
  map Participant.spent (withAssignments ps assignments) = map Participant.spent ps.
Proof. unfold withAssignments. rewrite map_map. reflexivity. Qed.

Lemma withAssignments_received ps assignments :
  map Participant.received (withAssignments ps assignments) = map Participant.received ps.
Proof. unfold withAssignments. rewrite map_map. reflexivity. Qed.

(** What [startGame] writes when it does not throw. *)
Lemma Firebase_startGame_written shuffleR shuffleG (db db' : Store) roomId :
  Firebase.startGame shuffleR shuffleG db roomId = inr db' ->
  exists room assignments,
    db !! roomId = Some room
    /\ (3 <= length (Room.participants room))%nat
    /\ assignments
       = Firebase.createAssignments shuffleR shuffleG (Room.participants room)
           (Room.budget room) (map Assignment.gifter (Room.activeAssignments room))
    /\ db' = <[roomId :=
                {| Room.name := Room.name room;
                   Room.budget := Room.budget room;
                   Room.gameStarted := true;
                   Room.participants := withAssignments (Room.participants room) assignments;
                   Room.gifts := Room.gifts room;
                   Room.activeAssignments := assignments;
                   Room.createdAt := Room.createdAt room;
                   Room.createdBy := Room.createdBy room |}]> db.
Proof.
  unfold Firebase.startGame. destruct (db !! roomId) as [room|]; [|discriminate].
  destruct (Nat.ltb_spec (length (Room.participants room)) 3); [discriminate|].
  intros [= <-]. eexists _, _. repeat split. assumption.
Qed.

Lemma Part002_startGame_written shuffleR shuffleG (db db' : Store) roomId :
  Part002.startGame shuffleR shuffleG db roomId = inr db' ->
  exists room assignments,
    db !! roomId = Some room
    /\ (2 <= length (Room.participants room))%nat
    /\ assignments
       = Part002.createAssignments shuffleR shuffleG (Room.participants room)
           (Room.budget room)
    /\ db' = <[roomId :=
                {| Room.name := Room.name room;
                   Room.budget := Room.budget room;
                   Room.gameStarted := true;
                   Room.participants := withAssignments (Room.participants room) assignments;
                   Room.gifts := Room.gifts room;
                   Room.activeAssignments := assignments;
                   Room.createdAt := Room.createdAt room;
                   Room.createdBy := Room.createdBy room |}]> db.
Proof.
  unfold Part002.startGame. destruct (db !! roomId) as [room|]; [|discriminate].
  destruct (Nat.ltb_spec (length (Room.participants room)) 2); [discriminate|].
  intros [= <-]. eexists _, _. repeat split. assumption.
Qed.

(** X5. A [startGame] that does not throw (either revision) only marks the
    game as started and writes the assignments with the participants' flags:
    the room's name, budget, creation fields and gift ledger, and every
    participant's name, [spent] and [received] are as before. *)
Theorem X5_startGame_frame
    (shuffleR shuffleG : list Participant.t -> list Participant.t)
    (db db' : Store) (roomId : string) :
  Firebase.startGame shuffleR shuffleG db roomId = inr db'
  \/ Part002.startGame shuffleR shuffleG db roomId = inr db' ->
  exists room room',
    db !! roomId = Some room
    /\ db' = <[roomId := room']> db
    /\ Room.gameStarted room' = true
    /\ sameSettings room room'
    /\ Room.gifts room' = Room.gifts room
    /\ map Participant.username (Room.participants room')
       = map Participant.username (Room.participants room)
    /\ map Participant.spent (Room.participants room')
       = map Participant.spent (Room.participants room)
    /\ map Participant.received (Room.participants room')
       = map Participant.received (Room.participants room).
Proof.
  intros [Hstart|Hstart].
  - apply Firebase_startGame_written in Hstart as (room & assignments & Hroom & _ & _ & ->).
    eexists room, _. split; [exact Hroom|]. split; [reflexivity|].
    cbn [Room.gameStarted Room.gifts Room.participants].
    rewrite withAssignments_usernames, withAssignments_spent, withAssignments_received.
    repeat split.
  - apply Part002_startGame_written in Hstart as (room & assignments & Hroom & _ & _ & ->).
    eexists room, _. split; [exact Hroom|]. split; [reflexivity|].
    cbn [Room.gameStarted Room.gifts Room.participants].
    rewrite withAssignments_usernames, withAssignments_spent, withAssignments_received.
    repeat split.
Qed.

Lemma X5_startGame_frame_witness :
  exists room',
    Firebase.startGame idShuffle idShuffle (collection lobby3) "room"
    = inr (<["room"%string := room']> (collection lobby3))
    /\ Room.gameStarted room' = true
    /\ Room.budget room' = 100.
Proof.
  destruct (X5_startGame_frame idShuffle idShuffle (collection lobby3)
              (collection roomAB) "room")
    as (room & room' & Hroom & Hdb & Hstarted & (_ & Hbudget & _) & _).
  - left. vm_compute. reflexivity.
  - injection Hroom as <-. exists room'. split; [|split; [exact Hstarted|exact Hbudget]].
    rewrite <- Hdb. vm_compute. reflexivity.
Defined.

(** ** Flags and assignments *)

Lemma recipientOf_Name assignments u r :
  recipientOf assignments u = Name r ->
  {| Assignment.gifter := u; Assignment.recipient := r |} ∈ assignments.
Proof.
  unfold recipientOf.
  destruct (find _ assignments) as [a|] eqn:Hfind; [|discriminate].
  intros [= <-]. apply find_some in Hfind as [Hin E]. apply String.eqb_eq in E.
  subst u. destruct a. apply list_elem_of_In, Hin.
Qed.

Lemma isGifter_recipientOf assignments u :
  existsb (fun a => String.eqb (Assignment.gifter a) u) assignments = true
  <-> exists r, recipientOf assignments u = Name r.
Proof.
  unfold recipientOf. split.
  - intros Hex. destruct (find _ assignments) as [a|] eqn:Hfind; [eauto|].
    apply existsb_exists in Hex as (a & Hin & E).
    rewrite (find_none _ _ Hfind a Hin) in E. discriminate.
  - intros [r Hr]. destruct (find _ assignments) as [a|] eqn:Hfind; [|discriminate].
    apply find_some in Hfind as [Hin E]. apply existsb_exists. eauto.
Qed.

(** The last [map] of [startGame] and [addGift] makes the flags say what the
    assignments say. *)
Lemma withAssignments_flagsMatch (room : Room.t) ps :
  Room.participants room = withAssignments ps (Room.activeAssignments room) ->
  flagsMatch room.
Proof.
  intros Hps. unfold flagsMatch. rewrite Hps. split.
  - intros p Hp. unfold withAssignments in Hp.
    apply list_elem_of_In, in_map_iff in Hp as (q & <- & _).
    cbn [Participant.isGifter Participant.recipient Participant.username].
    split; [apply isGifter_recipientOf|]. split; [apply recipientOf_Name|].
    intros Hnot. unfold recipientOf.
    destruct (find _ (Room.activeAssignments room)) as [a|] eqn:Hfind; [|reflexivity].
    apply find_some in Hfind as [Hin E].
    assert (existsb (fun a => String.eqb (Assignment.gifter a) (Participant.username q))
                    (Room.activeAssignments room) = true) as Hex
      by (apply existsb_exists; eauto).
    congruence.
  - intros a p Ha Hp E. unfold withAssignments in Hp.
    apply list_elem_of_In, in_map_iff in Hp as (q & <- & _).
    cbn [Participant.isGifter Participant.username] in *.
    apply existsb_exists. exists a. split; [apply list_elem_of_In, Ha|].
    apply String.eqb_eq. congruence.
Qed.

(** X6. After every [startGame] and every [addGift] (either revision,
    whatever the room was before), the participants' [isGifter] and
    [recipient] agree with the active assignments: a participant is flagged
    exactly when it carries a recipient name, that name and the participant
    form an active assignment, a participant without the flag has
    [recipient = null], and the gifter of every active assignment is
    flagged. *)
Theorem X6_flags_match_assignments
    (shuffleR shuffleG : list Participant.t -> list Participant.t) (now nowTs : Z)
    (db : Store) (roomId gifter recipient description : string) (amount : Z)
    (room : Room.t) :
  db !! roomId = Some room ->
  (exists room',
      Firebase.addGift shuffleR shuffleG now db roomId gifter recipient description amount
      = inr (<[roomId := room']> db) /\ flagsMatch room')
  /\ (exists room',
         Part002.addGift shuffleR shuffleG now nowTs db roomId
                         gifter recipient description amount
         = inr (<[roomId := room']> db) /\ flagsMatch room')
  /\ (forall db', Firebase.startGame shuffleR shuffleG db roomId = inr db'
                  \/ Part002.startGame shuffleR shuffleG db roomId = inr db' ->
                  exists room', db' !! roomId = Some room' /\ flagsMatch room').
Proof.
  intros Hroom. split; [|split].
  - eexists. split; [apply Firebase_addGift_found, Hroom|].
    eapply withAssignments_flagsMatch. reflexivity.
  - eexists. split; [apply Part002_addGift_found, Hroom|].
    eapply withAssignments_flagsMatch. reflexivity.
  - intros db' [Hstart|Hstart].
    + apply Firebase_startGame_written in Hstart as (room0 & assignments & _ & _ & _ & ->).
      eexists. split; [apply lookup_insert_eq|].
      eapply withAssignments_flagsMatch. reflexivity.
    + apply Part002_startGame_written in Hstart as (room0 & assignments & _ & _ & _ & ->).
      eexists. split; [apply lookup_insert_eq|].
      eapply withAssignments_flagsMatch. reflexivity.
Qed.

Lemma X6_flags_match_assignments_witness :
  exists room',
    Firebase.addGift idShuffle idShuffle 17 (collection roomAB) "room" "A" "B" "socks" 40
    = inr (<["room"%string := room']> (collection roomAB))
    /\ flagsMatch room'.
Proof.
  destruct (X6_flags_match_assignments idShuffle idShuffle 17 18 (collection roomAB)
              "room" "A" "B" "socks" 40 roomAB) as [Hfirebase _].
  - reflexivity.
  - exact Hfirebase.
Defined.

(** ** One assignment per gifter *)

(** The gifters of the pairs that the loop appends are names of the shuffled
    gifters, in their order, each at most once. *)
Lemma pairLoop_gifters full shuffledRecipients gifters assignments used :
  exists new,
    Firebase.pairLoop full shuffledRecipients gifters assignments used = assignments ++ new
    /\ map Assignment.gifter new `sublist_of` map Participant.username gifters.
Proof.
  revert assignments used.
  induction gifters as [|g gifters IH]; intros assignments used; simpl.
  - exists []. rewrite app_nil_r. split; [reflexivity|constructor].
  - destruct (find _ shuffledRecipients) as [r|].
    + destruct (full _).
      * eexists [_]. split; [reflexivity|]. simpl. apply sublist_skip, sublist_nil_l.
      * destruct (IH (assignments ++
                        [ {| Assignment.gifter := Participant.username g;
                             Assignment.recipient := Participant.username r |} ])
                     (used ∪ {[Participant.username r]})) as (new & -> & Hsub).
        eexists (_ :: new). rewrite <- app_assoc. split; [reflexivity|].
        simpl. apply sublist_skip, Hsub.
    + destruct (IH assignments used) as (new & -> & Hsub).
      exists new. split; [reflexivity|]. apply sublist_cons, Hsub.
Qed.

Lemma Part002_pairByIndex_gifters count gifters recipients :
  map Assignment.gifter (Part002.pairByIndex count gifters recipients)
  `sublist_of` map Participant.username gifters.
Proof.
  revert gifters recipients.
  induction count as [|count IH]; intros [|g gifters] [|r recipients]; simpl;
    try apply sublist_nil_l.
  apply sublist_skip, IH.
Qed.

Lemma shuffled_names (shuffle : list Participant.t -> list Participant.t) keep ps :
  is_shuffle shuffle ->
  NoDup (map Participant.username ps) ->
  NoDup (map Participant.username (shuffle (List.filter keep ps))).
Proof.
  intros Hs Hkeys.
  assert (map Participant.username (shuffle (List.filter keep ps))
          ≡ₚ map Participant.username (List.filter keep ps)) as ->
    by (apply Permutation_map, Hs).
  apply NoDup_map_filter, Hkeys.
Qed.

Lemma Firebase_availableGifters_names shuffleG ps current excl :
  is_shuffle shuffleG ->
  NoDup (map Participant.username ps) ->
  NoDup (map Participant.username (shuffleG (Firebase.availableGifters ps current excl))).
Proof.
  intros Hs Hkeys. unfold Firebase.availableGifters.
  destruct (0 <? _)%nat; apply shuffled_names; assumption.
Qed.

Lemma Firebase_availableGifters0_names shuffleG ps prevGifters :
  is_shuffle shuffleG ->
  NoDup (map Participant.username ps) ->
  NoDup (map Participant.username (shuffleG (Firebase.availableGifters0 ps prevGifters))).
Proof.
  intros Hs Hkeys. unfold Firebase.availableGifters0.
  destruct (0 <? _)%nat; apply shuffled_names; assumption.
Qed.

Lemma Firebase_createAssignments_gifters shuffleR shuffleG ps budget prevGifters :
  is_shuffle shuffleG ->
  NoDup (map Participant.username ps) ->
  NoDup (map Assignment.gifter
             (Firebase.createAssignments shuffleR shuffleG ps budget prevGifters)).
Proof.
  intros Hs Hkeys. unfold Firebase.createAssignments.
  destruct (_ || _); [constructor|].
  destruct (pairLoop_gifters (fun n => (maxGifters ps <=? n)%nat)
              (shuffleR (eligibleRecipients ps budget))
              (shuffleG (Firebase.availableGifters0 ps prevGifters)) [] ∅)
    as (new & -> & Hsub).
  eapply sublist_NoDup; [|exact Hsub].
  apply Firebase_availableGifters0_names; assumption.
Qed.

Lemma Firebase_createNewAssignments_gifters shuffleR shuffleG ps budget current excl :
  is_shuffle shuffleG ->
  NoDup (map Participant.username ps) ->
  NoDup (map Assignment.gifter current) ->
  NoDup (map Assignment.gifter
             (current ++ Firebase.createNewAssignments shuffleR shuffleG ps budget
                           current excl)).
Proof.
  intros Hs Hkeys Hcur. rewrite map_app. apply NoDup_app. repeat split; [exact Hcur| |].
  - intros u Hu Hu'. apply list_elem_of_In, in_map_iff in Hu' as (a & <- & Ha).
    apply list_elem_of_In in Ha.
    destruct (Firebase_createNewAssignments_excludes _ _ _ _ _ _ _ Hs Ha) as [_ Hnot].
    exact (Hnot Hu).
  - unfold Firebase.createNewAssignments.
    destruct (_ || _); [constructor|]. destruct (_ <=? _)%nat; [constructor|].
    destruct (pairLoop_gifters (fun n => (maxGifters ps <=? n + length current)%nat)
                (shuffleR (eligibleRecipients ps budget))
                (shuffleG (Firebase.availableGifters ps current excl)) []
                (list_to_set (map Assignment.recipient current)))
      as (new & -> & Hsub).
    eapply sublist_NoDup; [|exact Hsub].
    apply Firebase_availableGifters_names; assumption.
Qed.

Lemma Part002_createAssignments_gifters shuffleR shuffleG ps budget :
  is_shuffle shuffleG ->
  NoDup (map Participant.username ps) ->
  NoDup (map Assignment.gifter (Part002.createAssignments shuffleR shuffleG ps budget)).
Proof.
  intros Hs Hkeys. unfold Part002.createAssignments.
  destruct (_ || _); [constructor|].
  eapply sublist_NoDup; [|apply Part002_pairByIndex_gifters].
  apply shuffled_names; assumption.
Qed.

Lemma Part002_createNewAssignments_gifters shuffleR shuffleG ps budget current :
  is_shuffle shuffleG ->
  NoDup (map Participant.username ps) ->
  NoDup (map Assignment.gifter current) ->
  NoDup (map Assignment.gifter
             (current ++ Part002.createNewAssignments shuffleR shuffleG ps budget current)).
Proof.
  intros Hs Hkeys Hcur. rewrite map_app.
  unfold Part002.createNewAssignments.
  destruct (_ || _); [simpl; rewrite app_nil_r; exact Hcur|].
  destruct (_ <=? _)%nat; [simpl; rewrite app_nil_r; exact Hcur|].
  apply NoDup_app. repeat split; [exact Hcur| |].
  - intros u Hu Hu'.
    pose proof (elem_of_sublist _ _ _ Hu' (Part002_pairByIndex_gifters _ _ _)) as Hg.
    apply list_elem_of_In, in_map_iff in Hg as (g & <- & Hg).
    apply list_elem_of_In, (shuffled_elem _ _ _ Hs), elem_filter in Hg as [_ Hok].
    apply andb_true_iff in Hok as [_ Hfree]. apply negb_true_iff in Hfree.
    apply list_elem_of_In, in_map_iff in Hu as (a & E & Ha).
    assert (existsb (fun a => String.eqb (Assignment.gifter a) (Participant.username g))
                    current = true) as Hex.
    { apply existsb_exists. exists a. split; [exact Ha|apply String.eqb_eq, E]. }
    congruence.
  - eapply sublist_NoDup; [|apply Part002_pairByIndex_gifters].
    apply shuffled_names; assumption.
Qed.

Lemma final_usernames ps gifter recipient amount :
  map Participant.username
      (finalParticipants (updatedParticipants ps gifter recipient amount) gifter)
  = map Participant.username ps.
Proof.
  rewrite <- (settled_usernames ps gifter recipient amount []).
  rewrite withAssignments_usernames. reflexivity.
Qed.

(** X7. At most one active assignment per gifter.  In a room whose user
    names are keys and in which no participant is the gifter of two active
    assignments, that is still so after [addGift], and it is so after every
    [startGame] (both revisions). *)
Theorem X7_one_assignment_per_gifter
    (shuffleR shuffleG : list Participant.t -> list Participant.t) (now nowTs : Z)
    (db : Store) (roomId gifter recipient description : string) (amount : Z)
    (room : Room.t) :
  is_shuffle shuffleG ->
  db !! roomId = Some room ->
  NoDup (map Participant.username (Room.participants room)) ->
  (NoDup (map Assignment.gifter (Room.activeAssignments room)) ->
   (exists room',
       Firebase.addGift shuffleR shuffleG now db roomId gifter recipient description amount
       = inr (<[roomId := room']> db)
       /\ NoDup (map Assignment.gifter (Room.activeAssignments room')))
   /\ (exists room',
          Part002.addGift shuffleR shuffleG now nowTs db roomId
                          gifter recipient description amount
          = inr (<[roomId := room']> db)
          /\ NoDup (map Assignment.gifter (Room.activeAssignments room'))))
  /\ (forall db', Firebase.startGame shuffleR shuffleG db roomId = inr db'
                  \/ Part002.startGame shuffleR shuffleG db roomId = inr db' ->
                  exists room', db' !! roomId = Some room'
                                /\ NoDup (map Assignment.gifter (Room.activeAssignments room'))).
Proof.
  intros Hs Hroom Hkeys. split.
  - intros Hcur.
    assert (NoDup (map Assignment.gifter
                       (updatedAssignments (Room.activeAssignments room) gifter recipient)))
      as Hrem by (apply NoDup_map_filter, Hcur).
    split.
    + eexists. split; [apply Firebase_addGift_found, Hroom|].
      cbn [Firebase.settle Room.activeAssignments].
      apply Firebase_createNewAssignments_gifters; [exact Hs| |exact Hrem].
      rewrite final_usernames. exact Hkeys.
    + eexists. split; [apply Part002_addGift_found, Hroom|].
      cbn [Part002.settle Room.activeAssignments].
      apply Part002_createNewAssignments_gifters; [exact Hs| |exact Hrem].
      rewrite final_usernames. exact Hkeys.
  - intros db' [Hstart|Hstart].
    + apply Firebase_startGame_written in Hstart
        as (room0 & assignments & Hroom0 & _ & -> & ->).
      rewrite Hroom in Hroom0. injection Hroom0 as <-.
      eexists. split; [apply lookup_insert_eq|]. cbn [Room.activeAssignments].
      apply Firebase_createAssignments_gifters; assumption.
    + apply Part002_startGame_written in Hstart
        as (room0 & assignments & Hroom0 & _ & -> & ->).
      rewrite Hroom in Hroom0. injection Hroom0 as <-.
      eexists. split; [apply lookup_insert_eq|]. cbn [Room.activeAssignments].
      apply Part002_createAssignments_gifters; assumption.
Qed.

Lemma X7_one_assignment_per_gifter_witness :
  exists room',
    Part002.addGift revShuffle swapShuffle 17 18 (collection roomABCD)
                    "room" "A" "B" "socks" 40
    = inr (<["room"%string := room']> (collection roomABCD))
    /\ NoDup (map Assignment.gifter (Room.activeAssignments room')).
Proof.
  destruct (X7_one_assignment_per_gifter revShuffle swapShuffle 17 18 (collection roomABCD)
              "room" "A" "B" "socks" 40 roomABCD) as [Hgift _].
  - exact swapShuffle_is_shuffle.
  - reflexivity.
  - simpl. distinct_names.
  - destruct Hgift as [_ Hpart]; [simpl; distinct_names|exact Hpart].
Defined.

(** ** The invariants that [src/src/lib/firebase.ts] keeps *)

(** X8. In [src/src/lib/firebase.ts] the data-model invariants hold after
    [startGame] on a room whose user names are keys, and [addGift] keeps
    them: user names are keys, the active assignments are within
    [floor(n/2)], no participant is the recipient of two active assignments,
    and no active assignment has [gifter = recipient]. *)
Theorem X8_firebase_keeps_invariants
    (shuffleR shuffleG : list Participant.t -> list Participant.t) (now : Z)
    (db : Store) (roomId gifter recipient description : string) (amount : Z)
    (room : Room.t) :
  is_shuffle shuffleR -> is_shuffle shuffleG ->
  db !! roomId = Some room ->
  NoDup (map Participant.username (Room.participants room)) ->
  (soundRoom room ->
   exists room',
     Firebase.addGift shuffleR shuffleG now db roomId gifter recipient description amount
     = inr (<[roomId := room']> db)
     /\ soundRoom room')
  /\ (forall db', Firebase.startGame shuffleR shuffleG db roomId = inr db' ->
                  exists room', db' !! roomId = Some room' /\ soundRoom room').
Proof.
  intros HR HG Hroom Hkeys. split.
  - intros Hsound. apply Firebase_addGift_sound with (room := room); assumption.
  - intros db' Hstart.
    exact (Firebase_startGame_sound shuffleR shuffleG db db' roomId room
             HR HG Hroom Hkeys Hstart).
Qed.

Lemma X8_firebase_keeps_invariants_witness :
  exists room', collection roomAB !! "room"%string = Some room' /\ soundRoom room'.
Proof.
  destruct (X8_firebase_keeps_invariants idShuffle idShuffle 17 (collection lobby3)
              "room" "A" "B" "socks" 40 lobby3) as [_ Hstart].
  - exact idShuffle_is_shuffle.
  - exact idShuffle_is_shuffle.
  - reflexivity.
  - simpl. distinct_names.
  - apply Hstart. vm_compute. reflexivity.
Defined.

Lemma NoDup_map_key {A B : Type} (f : A -> B) (l : list A) (x y : A) :
  NoDup (map f l) -> x ∈ l -> y ∈ l -> f x = f y -> x = y.
Proof.
  induction l as [|z l IH]; simpl; intros Hnd Hx Hy E; [inversion Hx|].
  apply NoDup_cons in Hnd as [Hz Hnd].
  assert (forall w, w ∈ l -> f w ∈ map f l) as Hin.
  { intros w Hw. apply list_elem_of_In, in_map, list_elem_of_In, Hw. }
  apply elem_of_cons in Hx as [->|Hx], Hy as [->|Hy]; auto.
  - exfalso. apply Hz. rewrite E. apply Hin, Hy.
  - exfalso. apply Hz. rewrite <- E. apply Hin, Hx.
Qed.

Lemma matchesPair_active gifter recipient current :
  existsb (matchesPair gifter recipient) current = true ->
  {| Assignment.gifter := gifter; Assignment.recipient := recipient |} ∈ current.
Proof.
  intros Hex. apply existsb_exists in Hex as (a & Ha & Hm).
  unfold matchesPair in Hm. apply andb_true_iff in Hm as [Eg Er].
  apply String.eqb_eq in Eg, Er. subst. destruct a. apply list_elem_of_In, Ha.
Qed.

Lemma updatedAssignments_elem current gifter recipient a :
  a ∈ updatedAssignments current gifter recipient <->
  a ∈ current /\ ~ (Assignment.gifter a = gifter /\ Assignment.recipient a = recipient).
Proof.
  unfold updatedAssignments. rewrite !list_elem_of_In, filter_In.
  destruct (String.eqb_spec (Assignment.gifter a) gifter),
           (String.eqb_spec (Assignment.recipient a) recipient); simpl;
    intuition congruence.
Qed.

(** X9. In [src/src/lib/firebase.ts], once a gifter has settled its active
    assignment, it is not a gifter any more: no active assignment after the
    call has it as gifter (the backfill excludes it), and the participant has
    [isGifter = false] and [recipient = null].  This needs that no
    participant was the gifter of two active assignments. *)
Theorem X9_firebase_settled_gifter_rests
    (shuffleR shuffleG : list Participant.t -> list Participant.t) (now : Z)
    (db : Store) (roomId gifter recipient description : string) (amount : Z)
    (room : Room.t) :
  is_shuffle shuffleG ->
  db !! roomId = Some room ->
  NoDup (map Assignment.gifter (Room.activeAssignments room)) ->
  existsb (matchesPair gifter recipient) (Room.activeAssignments room) = true ->
  exists room',
    Firebase.addGift shuffleR shuffleG now db roomId gifter recipient description amount
    = inr (<[roomId := room']> db)
    /\ (forall a, a ∈ Room.activeAssignments room' -> Assignment.gifter a <> gifter)
    /\ (forall p, p ∈ Room.participants room' -> Participant.username p = gifter ->
                  Participant.isGifter p = false /\ Participant.recipient p = Null).
Proof.
  intros Hs Hroom Hone Hpair.
  eexists. split; [apply Firebase_addGift_found, Hroom|].
  assert (forall a,
             a ∈ Room.activeAssignments
                   (Firebase.settle shuffleR shuffleG now room gifter recipient
                                    description amount) ->
             Assignment.gifter a <> gifter) as Hnone.
  { cbn [Firebase.settle Room.activeAssignments]. intros a Ha E.
    apply elem_of_app in Ha as [Ha|Ha].
    - apply updatedAssignments_elem in Ha as [Ha Hnot]. apply Hnot.
      apply matchesPair_active in Hpair.
      assert (a = {| Assignment.gifter := gifter; Assignment.recipient := recipient |})
        as -> by (eapply NoDup_map_key; eauto).
      split; reflexivity.
    - exact (Firebase_addGift_excludes_settled _ _ _ _ _ _ _ Hs Ha E). }
  split; [exact Hnone|].
  intros p Hp E.
  destruct (withAssignments_flagsMatch
              (Firebase.settle shuffleR shuffleG now room gifter recipient description amount)
              _ eq_refl) as [Hflags _].
  destruct (Hflags p Hp) as (Hiff & Hname & Hnull).
  destruct (Participant.isGifter p) eqn:Hflag; [|auto].
  exfalso. destruct (proj1 Hiff eq_refl) as [r Hr].
  apply (Hnone _ (Hname r Hr)). exact E.
Qed.

Lemma X9_firebase_settled_gifter_rests_witness :
  exists room',
    Firebase.addGift idShuffle idShuffle 17 (collection roomABCD) "room" "A" "B" "socks" 40
    = inr (<["room"%string := room']> (collection roomABCD))
    /\ (forall a, a ∈ Room.activeAssignments room' -> Assignment.gifter a <> "A"%string).
Proof.
  destruct (X9_firebase_settled_gifter_rests idShuffle idShuffle 17 (collection roomABCD)
              "room" "A" "B" "socks" 40 roomABCD) as (room' & Hrun & Hnone & _).
  - exact idShuffle_is_shuffle.
  - reflexivity.
  - simpl. distinct_names.
  - reflexivity.
  - exists room'. split; [exact Hrun|exact Hnone].
Defined.

(** ** Recipients below the budget *)

Lemma withAssignments_elem ps assignments p' :
  p' ∈ withAssignments ps assignments ->
  exists q, q ∈ ps /\ Participant.username p' = Participant.username q
            /\ Participant.spent p' = Participant.spent q
            /\ Participant.received p' = Participant.received q.
Proof.
  unfold withAssignments. intros Hp.
  apply list_elem_of_In, in_map_iff in Hp as (q & <- & Hq).
  exists q. split; [apply list_elem_of_In, Hq|]. repeat split.
Qed.

Lemma final_elem ps gifter recipient amount q :
  q ∈ finalParticipants (updatedParticipants ps gifter recipient amount) gifter ->
  exists p, p ∈ ps /\ Participant.username q = Participant.username p
            /\ Participant.spent q = spentAfter gifter amount p
            /\ Participant.received q = receivedAfter gifter recipient amount p.
Proof.
  unfold finalParticipants, updatedParticipants. rewrite map_map. intros Hq.
  apply list_elem_of_In, in_map_iff in Hq as (p & <- & Hp).
  exists p. split; [apply list_elem_of_In, Hp|].
  unfold spentAfter, receivedAfter.
  destruct (String.eqb (Participant.username p) gifter) eqn:Hg; simpl.
  - rewrite Hg. repeat split.
  - destruct (String.eqb (Participant.username p) recipient); simpl; rewrite Hg;
      repeat split.
Qed.






(** ** The capacity is filled when there are enough candidates *)

Lemma size_union_bound (X Y : gset string) : (size (X ∪ Y) <= size X + size Y)%nat.
Proof.
  rewrite size_union_alt.
  assert (Y ∖ X ⊆ Y) as Hsub
    by (intros x Hx; apply elem_of_difference in Hx as [Hx _]; exact Hx).
  apply subseteq_size in Hsub. lia.
Qed.

(** With pairwise different recipient names, more of them than the limit plus
    the names that were used at the start, and enough gifters left, the loop
    stops exactly at the limit. *)
Lemma pairLoop_fills full shuffledRecipients (limit c : nat) gifters assignments used :
  (forall n, full n = (limit <=? n)%nat) ->
  NoDup (map Participant.username shuffledRecipients) ->
  (size used <= length assignments + c)%nat ->
  (length assignments < limit)%nat ->
  (limit <= length assignments + length gifters)%nat ->
  (limit + c < length shuffledRecipients)%nat ->
  length (Firebase.pairLoop full shuffledRecipients gifters assignments used) = limit.
Proof.
  intros Hfull Hnames. revert assignments used.
  induction gifters as [|g gifters IH]; intros assignments used Hused Hlt Hgs Hrs; simpl.
  - simpl in Hgs. lia.
  - destruct (find _ shuffledRecipients) as [r|] eqn:Hfind.
    + rewrite Hfull, length_app. simpl.
      destruct (Nat.leb_spec limit (length assignments + 1)) as [Hstop|Hgo].
      * rewrite length_app. simpl. lia.
      * apply IH.
        -- rewrite length_app. simpl.
           pose proof (size_union_bound used {[Participant.username r]}) as Hb.
           rewrite size_singleton in Hb. lia.
        -- rewrite length_app. simpl. lia.
        -- rewrite length_app. simpl in *. lia.
        -- exact Hrs.
    + exfalso.
      assert (list_to_set (map Participant.username shuffledRecipients)
              ⊆ ({[Participant.username g]} ∪ used : gset string)) as Hsub.
      { intros u Hu. apply elem_of_list_to_set, list_elem_of_In, in_map_iff in Hu
          as (r & <- & Hr).
        pose proof (find_none _ _ Hfind r Hr) as Hno. simpl in Hno.
        apply andb_false_iff in Hno as [Hno|Hno]; apply negb_false_iff in Hno.
        - apply String.eqb_eq in Hno. rewrite Hno. set_solver.
        - apply bool_decide_eq_true in Hno. set_solver. }
      apply subseteq_size in Hsub.
      rewrite size_list_to_set, length_map in Hsub by exact Hnames.
      pose proof (size_union_bound {[Participant.username g]} used) as Hb.
      rewrite size_singleton in Hb. lia.
Qed.

(** X11. [src/src/lib/firebase.ts] fills the capacity when it can: if the
    current assignments are below [floor(n/2)], more than [floor(n/2)]
    participants are below the budget and the candidate gifters are at least
    as many as the free places, then after [createNewAssignments] the active
    assignments are exactly [floor(n/2)]; likewise [createAssignments]
    returns exactly [floor(n/2)] pairs (user names being keys). *)
Theorem X11_firebase_fills_capacity
    (shuffleR shuffleG : list Participant.t -> list Participant.t)
    (ps : list Participant.t) (budget : Z)
    (current : list Assignment.t) (excl prevGifters : list string) :
  is_shuffle shuffleR -> is_shuffle shuffleG ->
  NoDup (map Participant.username ps) ->
  (length ps / 2 < length (eligibleRecipients ps budget))%nat ->
  ((length current < length ps / 2)%nat ->
   (length ps / 2 - length current
    <= length (Firebase.availableGifters ps current excl))%nat ->
   length (current ++ Firebase.createNewAssignments shuffleR shuffleG ps budget current excl)
   = (length ps / 2)%nat)
  /\ ((0 < length ps / 2)%nat ->
      (length ps / 2 <= length (Firebase.availableGifters0 ps prevGifters))%nat ->
      length (Firebase.createAssignments shuffleR shuffleG ps budget prevGifters)
      = (length ps / 2)%nat).
Proof.
  intros HR HG Hkeys Hmany.
  assert (NoDup (map Participant.username (shuffleR (eligibleRecipients ps budget))))
    as Hnames by (apply shuffled_names; assumption).
  assert (length (shuffleR (eligibleRecipients ps budget))
          = length (eligibleRecipients ps budget)) as Hlen
    by (apply Permutation_length, HR).
  assert ((length (eligibleRecipients ps budget) =? 0)%nat = false) as Hsome
    by (apply Nat.eqb_neq; lia).
  split.
  - intros Hfree Hgifters. rewrite length_app.
    unfold Firebase.createNewAssignments. rewrite Hsome.
    assert ((length (Firebase.availableGifters ps current excl) =? 0)%nat = false) as ->
      by (apply Nat.eqb_neq; lia).
    cbn [orb]. unfold maxGifters.
    destruct (Nat.leb_spec (length ps / 2) (length current)) as [|_]; [lia|].
    rewrite (pairLoop_fills _ _ (length ps / 2 - length current) (length current)).
    + lia.
    + intros n. destruct (Nat.leb_spec (length ps / 2) (n + length current)),
                         (Nat.leb_spec (length ps / 2 - length current) n);
        try reflexivity; lia.
    + exact Hnames.
    + cbn [length].
      assert (size (list_to_set (map Assignment.recipient current) : gset string)
              <= length current)%nat; [|lia].
      clear. induction current as [|x l IH].
      * cbn [map list_to_set]. rewrite size_empty. cbn [length]. lia.
      * cbn [map list_to_set length].
        pose proof (size_union_bound {[Assignment.recipient x]}
                      (list_to_set (map Assignment.recipient l))) as Hb.
        rewrite size_singleton in Hb. lia.
    + cbn [length]. lia.
    + cbn [length]. rewrite (Permutation_length (HG _)). lia.
    + rewrite Hlen. lia.
  - intros Hpos Hgifters. unfold Firebase.createAssignments. rewrite Hsome.
    assert ((length (Firebase.availableGifters0 ps prevGifters) =? 0)%nat = false) as ->
      by (apply Nat.eqb_neq; lia).
    cbn [orb]. unfold maxGifters.
    apply (pairLoop_fills _ _ (length ps / 2) 0).
    + reflexivity.
    + exact Hnames.
    + rewrite size_empty. lia.
    + cbn [length]. lia.
    + cbn [length]. rewrite (Permutation_length (HG _)). lia.
    + rewrite Hlen. lia.
Qed.

Lemma X11_firebase_fills_capacity_witness :
  length ([ {| Assignment.gifter := "C"; Assignment.recipient := "D" |} ]
          ++ Firebase.createNewAssignments revShuffle swapShuffle settledABCD 100
               [ {| Assignment.gifter := "C"; Assignment.recipient := "D" |} ] ["A"%string])
  = 2%nat
  /\ length (Firebase.createAssignments revShuffle swapShuffle
               (Room.participants lobby4) 100 []) = 2%nat.
Proof.
  split.
  - destruct (X11_firebase_fills_capacity revShuffle swapShuffle settledABCD 100
                [ {| Assignment.gifter := "C"; Assignment.recipient := "D" |} ]
                ["A"%string] []) as [Hfill _].
    + exact revShuffle_is_shuffle.
    + exact swapShuffle_is_shuffle.
    + vm_compute. distinct_names.
    + vm_compute. lia.
    + apply Hfill; vm_compute; lia.
  - destruct (X11_firebase_fills_capacity revShuffle swapShuffle
                (Room.participants lobby4) 100 [] [] []) as [_ Hfill].
    + exact revShuffle_is_shuffle.
    + exact swapShuffle_is_shuffle.
    + vm_compute. distinct_names.
    + vm_compute. lia.
    + apply Hfill; vm_compute; lia.
Defined.

(** ** The candidates of [src/unnamed/part_002] *)

Lemma Part002_pairByIndex_elem count gifters recipients a :
  a ∈ Part002.pairByIndex count gifters recipients ->
  exists g r, g ∈ gifters /\ r ∈ recipients
              /\ Assignment.gifter a = Participant.username g
              /\ Assignment.recipient a = Participant.username r.
Proof.
  revert gifters recipients.
  induction count as [|count IH]; intros [|g gifters] [|r recipients]; simpl;
    try (intros H; inversion H; fail).
  intros Ha. apply elem_of_cons in Ha as [->|Ha].
  - exists g, r. repeat split; left.
  - destruct (IH _ _ Ha) as (g' & r' & Hg & Hr & E).
    exists g', r'. split; [right; exact Hg|]. split; [right; exact Hr|exact E].
Qed.

(** X12. The backfill of [src/unnamed/part_002] only pairs candidates: the
    gifter of every new assignment is a participant without the gifter flag
    who is not the gifter of a current assignment, and its recipient is a
    participant whose [received] is below the budget. *)
Theorem X12_part002_pairs_candidates
    (shuffleR shuffleG : list Participant.t -> list Participant.t)
    (ps : list Participant.t) (budget : Z) (current : list Assignment.t)
    (a : Assignment.t) :
  is_shuffle shuffleR -> is_shuffle shuffleG ->
  a ∈ Part002.createNewAssignments shuffleR shuffleG ps budget current ->
  (exists g, g ∈ ps /\ Participant.username g = Assignment.gifter a
             /\ Participant.isGifter g = false
             /\ (Assignment.gifter a ∉ map Assignment.gifter current))
  /\ (exists r, r ∈ ps /\ Participant.username r = Assignment.recipient a
                /\ Participant.received r < budget).
Proof.
  intros HR HG. unfold Part002.createNewAssignments.
  destruct (_ || _); [intros H; inversion H|].
  destruct (_ <=? _)%nat; [intros H; inversion H|].
  intros Ha. apply Part002_pairByIndex_elem in Ha as (g & r & Hg & Hr & Eg & Er).
  apply (shuffled_elem _ _ _ HG), elem_filter in Hg as [Hg Hok].
  apply (shuffled_elem _ _ _ HR), elem_filter in Hr as [Hr Hlt].
  apply andb_true_iff in Hok as [Hflag Hfree].
  apply negb_true_iff in Hflag, Hfree. split.
  - exists g. split; [exact Hg|]. split; [congruence|]. split; [exact Hflag|].
    intros Hin. apply list_elem_of_In, in_map_iff in Hin as (b & Eb & Hb).
    assert (existsb (fun a => String.eqb (Assignment.gifter a) (Participant.username g))
                    current = true) as Hex; [|congruence].
    apply existsb_exists. exists b. split; [exact Hb|]. apply String.eqb_eq. congruence.
  - exists r. split; [exact Hr|]. split; [congruence|]. apply Z.ltb_lt, Hlt.
Qed.

Lemma X12_part002_pairs_candidates_witness :
  exists r, r ∈ settledABCD /\ Participant.username r = "D"%string
            /\ Participant.received r < 100.
Proof.
  destruct (X12_part002_pairs_candidates revShuffle swapShuffle settledABCD 100
              [ {| Assignment.gifter := "C"; Assignment.recipient := "D" |} ]
              {| Assignment.gifter := "B"; Assignment.recipient := "D" |}) as [_ Hr].
  - exact revShuffle_is_shuffle.
  - exact swapShuffle_is_shuffle.
  - vm_compute. left.
  - exact Hr.
Defined.

(** ** [revealGifts] and what a player sees *)

Lemma revealGifts_not_yet (db : Store) roomId room :
  db !! roomId = Some room -> allAtBudget room = false ->
  Part002.revealGifts db roomId = db.
Proof.
  unfold Part002.revealGifts, allAtBudget. intros -> ->. reflexivity.
Qed.

Lemma revealGifts_now (db : Store) roomId room :
  db !! roomId = Some room -> allAtBudget room = true ->
  exists room',
    Part002.revealGifts db roomId = <[roomId := room']> db
    /\ Room.participants room' = Room.participants room
    /\ Room.activeAssignments room' = Room.activeAssignments room
    /\ Room.gameStarted room' = Room.gameStarted room
    /\ sameSettings room room'
    /\ Room.budget room' = Room.budget room
    /\ Forall (fun gift => Gift.isHidden gift = Some false) (Room.gifts room')
    /\ map (fun gift => (Gift.id gift, Gift.gifter gift, Gift.recipient gift,
                         Gift.description gift, Gift.amount gift, Gift.timestamp gift))
           (Room.gifts room')
       = map (fun gift => (Gift.id gift, Gift.gifter gift, Gift.recipient gift,
                           Gift.description gift, Gift.amount gift, Gift.timestamp gift))
             (Room.gifts room).
Proof.
  unfold Part002.revealGifts, allAtBudget. intros -> ->.
  eexists. split; [reflexivity|]. cbn.
  repeat split.
  - apply Forall_forall. intros gift Hin.
    apply list_elem_of_In, in_map_iff in Hin as (g & <- & _). reflexivity.
  - rewrite map_map. reflexivity.
Qed.

(** X13. [revealGifts] writes nothing when the room is missing or some
    participant is still below the budget.  When every participant has
    [received >= budget] it sets [isHidden = false] on every gift and changes
    nothing else: the other fields of each gift, the participants, the
    assignments and the room's settings are as before, and other rooms are
    untouched.  A second [revealGifts] changes nothing more. *)
Theorem X13_revealGifts (db : Store) (roomId : string) :
  (db !! roomId = None -> Part002.revealGifts db roomId = db)
  /\ (forall room, db !! roomId = Some room ->
        (allAtBudget room = false -> Part002.revealGifts db roomId = db)
        /\ (allAtBudget room = true ->
            exists room',
              Part002.revealGifts db roomId = <[roomId := room']> db
              /\ Room.participants room' = Room.participants room
              /\ Room.activeAssignments room' = Room.activeAssignments room
              /\ Room.gameStarted room' = Room.gameStarted room
              /\ sameSettings room room'
              /\ Forall (fun gift => Gift.isHidden gift = Some false) (Room.gifts room')
              /\ map (fun gift => (Gift.id gift, Gift.gifter gift, Gift.recipient gift,
                                   Gift.description gift, Gift.amount gift,
                                   Gift.timestamp gift))
                     (Room.gifts room')
                 = map (fun gift => (Gift.id gift, Gift.gifter gift, Gift.recipient gift,
                                     Gift.description gift, Gift.amount gift,
                                     Gift.timestamp gift))
                       (Room.gifts room)))
  /\ sameElsewhere roomId db (Part002.revealGifts db roomId)
  /\ Part002.revealGifts (Part002.revealGifts db roomId) roomId
     = Part002.revealGifts db roomId.
Proof.
  split; [|split; [|split]].
  - unfold Part002.revealGifts. intros ->. reflexivity.
  - intros room Hroom. split.
    + apply revealGifts_not_yet, Hroom.
    + intros Hall.
      destruct (revealGifts_now db roomId room Hroom Hall)
        as (room' & E & Hp & Ha & Hs & Hset & _ & Hhid & Hrest).
      exists room'. repeat split; try assumption; apply Hset.
  - intros other Hne. unfold Part002.revealGifts.
    destruct (db !! roomId) as [room|]; [|reflexivity].
    destruct (forallb _ _); [|reflexivity]. apply lookup_insert_ne. congruence.
  - destruct (db !! roomId) as [room|] eqn:Hroom.
    + destruct (allAtBudget room) eqn:Hall.
      * remember (Part002.revealGifts db roomId) as db1 eqn:E1.
        unfold Part002.revealGifts in E1. rewrite Hroom in E1.
        unfold allAtBudget in Hall. rewrite Hall in E1. subst db1.
        unfold Part002.revealGifts. rewrite lookup_insert_eq.
        cbn [Room.budget Room.participants Room.gifts Room.name Room.gameStarted
             Room.activeAssignments Room.createdAt Room.createdBy].
        rewrite Hall, insert_insert_eq, map_map. reflexivity.
      * rewrite (revealGifts_not_yet db roomId room Hroom Hall).
        apply (revealGifts_not_yet db roomId room Hroom Hall).
    + unfold Part002.revealGifts. rewrite Hroom. rewrite Hroom. reflexivity.
Qed.

Lemma filter_all {A : Type} (keep : A -> bool) (l : list A) :
  Forall (fun x => keep x = true) l -> List.filter keep l = l.
Proof.
  induction l as [|x l IH]; intros Hall; [reflexivity|].
  apply Forall_cons in Hall as [Hx Hall]. cbn [List.filter].
  rewrite Hx, IH by exact Hall. reflexivity.
Qed.

Lemma visibleGifts_revealed room viewer :
  Forall (fun gift => Gift.isHidden gift = Some false) (Room.gifts room) ->
  RoomPageRest.visibleGifts room viewer = Room.gifts room.
Proof.
  intros Hall. apply filter_all. eapply Forall_impl; [exact Hall|].
  intros gift Hgift. unfold RoomPageRest.hidden. rewrite Hgift. reflexivity.
Qed.

(** X14. Hidden until the reveal ([src/unnamed/part_002] with its room page).
    The record that [addGift] stores is shown by [visibleGifts] to the
    participant who gave it and to nobody else; once every participant has
    reached the budget and [revealGifts] has run, [visibleGifts] shows every
    gift of the ledger to every viewer. *)
Theorem X14_hidden_until_reveal
    (shuffleR shuffleG : list Participant.t -> list Participant.t) (now nowTs : Z)
    (db : Store) (roomId gifter recipient description : string) (amount : Z)
    (room : Room.t) :
  db !! roomId = Some room ->
  exists room' gift,
    Part002.addGift shuffleR shuffleG now nowTs db roomId gifter recipient description amount
    = inr (<[roomId := room']> db)
    /\ gift = {| Gift.id := toString now; Gift.gifter := gifter;
                 Gift.recipient := recipient; Gift.description := description;
                 Gift.amount := amount; Gift.timestamp := Some nowTs;
                 Gift.isHidden := Some true |}
    /\ gift ∈ Room.gifts room'
    /\ (forall viewer,
          gift ∈ RoomPageRest.visibleGifts room' viewer <->
          exists user, viewer = Some user /\ Participant.username user = gifter)
    /\ (allAtBudget room' = true ->
        exists room'',
          Part002.revealGifts (<[roomId := room']> db) roomId
          = <[roomId := room'']> (<[roomId := room']> db)
          /\ length (Room.gifts room'') = length (Room.gifts room')
          /\ forall viewer, RoomPageRest.visibleGifts room'' viewer = Room.gifts room'').
Proof.
  intros Hroom. eexists _, _. split; [apply Part002_addGift_found, Hroom|].
  split; [reflexivity|]. split; [apply arrayUnion_elem|]. split.
  - intros viewer. unfold RoomPageRest.visibleGifts.
    rewrite list_elem_of_In, filter_In, <- list_elem_of_In.
    cbn [RoomPageRest.hidden Gift.isHidden Gift.gifter negb orb]. split.
    + intros [_ Hsee]. destruct viewer as [user|]; [|discriminate].
      exists user. split; [reflexivity|]. symmetry. apply String.eqb_eq, Hsee.
    + intros (user & -> & <-). split; [apply arrayUnion_elem|apply String.eqb_refl].
  - intros Hall.
    destruct (revealGifts_now (<[roomId := _]> db) roomId _ (lookup_insert_eq _ _ _) Hall)
      as (room'' & E & _ & _ & _ & _ & _ & Hhid & Hrest).
    exists room''. split; [exact E|]. split.
    + apply (f_equal (@length _)) in Hrest. rewrite !length_map in Hrest. exact Hrest.
    + intros viewer. apply visibleGifts_revealed, Hhid.
Qed.

Lemma X14_hidden_until_reveal_witness :
  exists room' gift,
    Part002.addGift idShuffle idShuffle 17 18 (collection roomAB) "room" "A" "B" "socks" 40
    = inr (<["room"%string := room']> (collection roomAB))
    /\ gift ∈ Room.gifts room'
    /\ ~ gift ∈ RoomPageRest.visibleGifts room' (Some (idle "B")).
Proof.
  destruct (X14_hidden_until_reveal idShuffle idShuffle 17 18 (collection roomAB)
              "room" "A" "B" "socks" 40 roomAB) as (room' & gift & Hrun & _ & Hin & Hsee & _).
  - reflexivity.
  - exists room', gift. split; [exact Hrun|]. split; [exact Hin|].
    intros Hvis. apply Hsee in Hvis as (user & [= <-] & E). discriminate.
Defined.

(** ** The end of the game *)

Lemma allAtBudget_no_eligible ps budget assignments :
  forallb (fun p => budget <=? Participant.received p) (withAssignments ps assignments) = true ->
  eligibleRecipients ps budget = [].
Proof.
  unfold withAssignments, eligibleRecipients.
  induction ps as [|p ps IH]; [reflexivity|]. cbn [map forallb List.filter].
  cbn [Participant.received]. intros Hall. apply andb_true_iff in Hall as [Hp Hall].
  apply Z.leb_le in Hp.
  destruct (Z.ltb_spec (Participant.received p) budget); [lia|]. apply IH, Hall.
Qed.

(** X15. When a gift brings every participant to the budget, the game winds
    down: [addGift] (either revision) backfills nothing, so the active
    assignments after the call are the earlier ones without the settled
    pair. *)
Theorem X15_no_backfill_at_the_end
    (shuffleR shuffleG : list Participant.t -> list Participant.t) (now nowTs : Z)
    (db : Store) (roomId gifter recipient description : string) (amount : Z)
    (room : Room.t) :
  db !! roomId = Some room ->
  (exists room',
      Firebase.addGift shuffleR shuffleG now db roomId gifter recipient description amount
      = inr (<[roomId := room']> db)
      /\ (allAtBudget room' = true ->
          Room.activeAssignments room'
          = updatedAssignments (Room.activeAssignments room) gifter recipient))
  /\ (exists room',
         Part002.addGift shuffleR shuffleG now nowTs db roomId
                         gifter recipient description amount
         = inr (<[roomId := room']> db)
         /\ (allAtBudget room' = true ->
             Room.activeAssignments room'
             = updatedAssignments (Room.activeAssignments room) gifter recipient)).
Proof.
  intros Hroom. split.
  - eexists. split; [apply Firebase_addGift_found, Hroom|].
    unfold allAtBudget.
    cbn [Firebase.settle Room.budget Room.participants Room.activeAssignments].
    intros Hall. apply allAtBudget_no_eligible in Hall.
    rewrite Firebase_createNewAssignments_empty by (right; left; exact Hall).
    apply app_nil_r.
  - eexists. split; [apply Part002_addGift_found, Hroom|].
    unfold allAtBudget.
    cbn [Part002.settle Room.budget Room.participants Room.activeAssignments].
    intros Hall. apply allAtBudget_no_eligible in Hall.
    rewrite Part002_createNewAssignments_empty by (right; left; exact Hall).
    apply app_nil_r.
Qed.

Lemma X15_no_backfill_at_the_end_witness :
  exists room',
    Firebase.addGift idShuffle idShuffle 17 (collection roomLast) "room" "A" "B" "scarf" 40
    = inr (<["room"%string := room']> (collection roomLast))
    /\ Room.activeAssignments room' = [].
Proof.
  destruct (X15_no_backfill_at_the_end idShuffle idShuffle 17 18 (collection roomLast)
              "room" "A" "B" "scarf" 40 roomLast) as [(room' & Hrun & Hend) _].
  - reflexivity.
  - exists room'. split; [exact Hrun|]. rewrite Hend; [reflexivity|].
    apply (f_equal (fun outcome => match outcome with
                                   | inr db' => db' !! "room"%string
                                   | inl _ => None
                                   end)) in Hrun.
    rewrite lookup_insert_eq in Hrun. vm_compute in Hrun. injection Hrun as <-.
    reflexivity.
Defined.

(** ** Rooms are independent and keep their settings *)

Lemma sameSettings_refl room : sameSettings room room.
Proof. repeat split. Qed.

Lemma joinRoom_settings (db : Store) roomId username room :
  db !! roomId = Some room ->
  exists room', fst (joinRoom db roomId username) !! roomId = Some room'
                /\ sameSettings room room'
                /\ Room.gameStarted room' = Room.gameStarted room
                /\ Room.gifts room' = Room.gifts room
                /\ Room.activeAssignments room' = Room.activeAssignments room
                /\ (Room.participants room' = Room.participants room
                    \/ Room.participants room'
                       = Room.participants room ++ [newParticipant username]).
Proof.
  intros Hroom. unfold joinRoom. rewrite Hroom.
  destruct (_ && _); [exists room; cbn [fst]; repeat split; auto|].
  destruct (findParticipant username (Room.participants room)) eqn:Hfind;
    [exists room; cbn [fst]; repeat split; auto|].
  cbn [fst]. eexists. split; [apply lookup_insert_eq|]. repeat split.
  right. cbn [setParticipants Room.participants]. apply arrayUnion_new.
  rewrite findParticipant_None in Hfind. intros Hin. exact (Hfind _ Hin eq_refl).
Qed.

(** X16. No operation on a room touches another room of the collection, and
    none changes the room's name, budget, [createdAt] or [createdBy]: this
    holds for [joinRoom], [startGame] and [addGift] of both revisions, and
    for [revealGifts]. *)
Theorem X16_rooms_independent
    (shuffleR shuffleG : list Participant.t -> list Participant.t) (now nowTs : Z)
    (db : Store) (roomId username gifter recipient description : string) (amount : Z) :
  (forall db',
      db' = fst (joinRoom db roomId username)
      \/ db' = Part002.revealGifts db roomId
      \/ Firebase.startGame shuffleR shuffleG db roomId = inr db'
      \/ Part002.startGame shuffleR shuffleG db roomId = inr db'
      \/ Firebase.addGift shuffleR shuffleG now db roomId
                          gifter recipient description amount = inr db'
      \/ Part002.addGift shuffleR shuffleG now nowTs db roomId
                         gifter recipient description amount = inr db' ->
      sameElsewhere roomId db db'
      /\ forall room, db !! roomId = Some room ->
                      exists room', db' !! roomId = Some room' /\ sameSettings room room').
Proof.
  intros db' Hop.
  assert (forall room', sameElsewhere roomId db (<[roomId := room']> db)) as Hins.
  { intros room' other Hne. apply lookup_insert_ne. congruence. }
  destruct Hop as [->|[->|[Hop|[Hop|[Hop|Hop]]]]].
  - split.
    + unfold joinRoom. destruct (db !! roomId) as [room|]; [|intros ? _; reflexivity].
      destruct (_ && _); [intros ? _; reflexivity|].
      destruct (findParticipant _ _); [intros ? _; reflexivity|apply Hins].
    + intros room Hroom.
      destruct (joinRoom_settings db roomId username room Hroom) as (room' & H1 & H2 & _).
      eauto.
  - split.
    + unfold Part002.revealGifts. destruct (db !! roomId) as [room|]; [|intros ? _; reflexivity].
      destruct (forallb _ _); [apply Hins|intros ? _; reflexivity].
    + intros room Hroom. destruct (allAtBudget room) eqn:Hall.
      * destruct (revealGifts_now db roomId room Hroom Hall) as (room' & -> & _ & _ & _ & Hs & _).
        exists room'. split; [apply lookup_insert_eq|exact Hs].
      * rewrite (revealGifts_not_yet db roomId room Hroom Hall).
        exists room. split; [exact Hroom|apply sameSettings_refl].
  - apply Firebase_startGame_written in Hop as (room0 & assignments & Hroom0 & _ & _ & ->).
    split; [apply Hins|]. intros room Hroom. rewrite Hroom in Hroom0. injection Hroom0 as <-.
    eexists. split; [apply lookup_insert_eq|]. repeat split.
  - apply Part002_startGame_written in Hop as (room0 & assignments & Hroom0 & _ & _ & ->).
    split; [apply Hins|]. intros room Hroom. rewrite Hroom in Hroom0. injection Hroom0 as <-.
    eexists. split; [apply lookup_insert_eq|]. repeat split.
  - unfold Firebase.addGift in Hop. destruct (db !! roomId) as [room0|]; [|discriminate].
    injection Hop as <-. split; [apply Hins|]. intros room [= <-].
    eexists. split; [apply lookup_insert_eq|]. repeat split.
  - unfold Part002.addGift in Hop. destruct (db !! roomId) as [room0|]; [|discriminate].
    injection Hop as <-. split; [apply Hins|]. intros room [= <-].
    eexists. split; [apply lookup_insert_eq|]. repeat split.
Qed.

Lemma X16_rooms_independent_witness :
  exists room',
    fst (joinRoom (collection lobby) "room" "C") !! "room"%string = Some room'
    /\ sameSettings lobby room'.
Proof.
  destruct (X16_rooms_independent idShuffle idShuffle 17 18 (collection lobby)
              "room" "C" "A" "B" "socks" 40
              (fst (joinRoom (collection lobby) "room" "C"))) as [_ Hsettings].
  - left. reflexivity.
  - exact (Hsettings lobby eq_refl).
Defined.

(** X17. [joinRoom] changes a room at most by one participant at the end of
    the list: the participants before it are kept in place, and the gift
    ledger, the active assignments and [gameStarted] are unchanged. *)
Theorem X17_joinRoom_frame (db : Store) (roomId username : string) (room : Room.t) :
  db !! roomId = Some room ->
  exists room',
    fst (joinRoom db roomId username) !! roomId = Some room'
    /\ (Room.participants room' = Room.participants room
        \/ Room.participants room' = Room.participants room ++ [newParticipant username])
    /\ Room.gifts room' = Room.gifts room
    /\ Room.activeAssignments room' = Room.activeAssignments room
    /\ Room.gameStarted room' = Room.gameStarted room.
Proof.
  intros Hroom.
  destruct (joinRoom_settings db roomId username room Hroom)
    as (room' & H1 & _ & H3 & H4 & H5 & H6).
  exists room'. repeat split; assumption.
Qed.

Lemma X17_joinRoom_frame_witness :
  exists room',
    fst (joinRoom (collection lobby) "room" "C") !! "room"%string = Some room'
    /\ Room.gifts room' = [] /\ Room.gameStarted room' = false.
Proof.
  destruct (X17_joinRoom_frame (collection lobby) "room" "C" lobby)
    as (room' & Hroom' & _ & Hgifts & _ & Hstarted).
  - reflexivity.
  - exists room'. split; [exact Hroom'|]. split; [exact Hgifts|exact Hstarted].
Defined.

(** ** Balances never go down *)

(** X18. With an amount that is not negative, [addGift] (either revision)
    lowers no balance: every participant after the call is a participant
    before it with the same name and a [spent] and a [received] that are at
    least what they were; so balances that were all non-negative stay so. *)
Theorem X18_balances_never_go_down
    (shuffleR shuffleG : list Participant.t -> list Participant.t) (now nowTs : Z)
    (db : Store) (roomId gifter recipient description : string) (amount : Z)
    (room : Room.t) :
  0 <= amount ->
  db !! roomId = Some room ->
  (exists room',
      Firebase.addGift shuffleR shuffleG now db roomId gifter recipient description amount
      = inr (<[roomId := room']> db)
      /\ (forall p', p' ∈ Room.participants room' ->
            exists p, p ∈ Room.participants room
                      /\ Participant.username p' = Participant.username p
                      /\ Participant.spent p <= Participant.spent p'
                      /\ Participant.received p <= Participant.received p')
      /\ (balancesNonNegative room -> balancesNonNegative room'))
  /\ (exists room',
         Part002.addGift shuffleR shuffleG now nowTs db roomId
                         gifter recipient description amount
         = inr (<[roomId := room']> db)
         /\ (forall p', p' ∈ Room.participants room' ->
               exists p, p ∈ Room.participants room
                         /\ Participant.username p' = Participant.username p
                         /\ Participant.spent p <= Participant.spent p'
                         /\ Participant.received p <= Participant.received p')
         /\ (balancesNonNegative room -> balancesNonNegative room')).
Proof.
  intros Hamount Hroom.
  assert (forall assignments p',
             p' ∈ withAssignments
                    (finalParticipants
                       (updatedParticipants (Room.participants room) gifter recipient amount)
                       gifter) assignments ->
             exists p, p ∈ Room.participants room
                       /\ Participant.username p' = Participant.username p
                       /\ Participant.spent p <= Participant.spent p'
                       /\ Participant.received p <= Participant.received p') as Hup.
  { intros assignments p' Hp'.
    apply withAssignments_elem in Hp' as (q & Hq & -> & -> & ->).
    apply final_elem in Hq as (p & Hp & -> & -> & ->).
    exists p. split; [exact Hp|]. split; [reflexivity|].
    unfold spentAfter, receivedAfter.
    destruct (String.eqb (Participant.username p) gifter),
             (String.eqb (Participant.username p) recipient); lia. }
  split.
  - eexists. split; [apply Firebase_addGift_found, Hroom|]. split; [apply Hup|].
    intros Hpos p' Hp'. destruct (Hup _ _ Hp') as (p & Hp & _ & Hs & Hr).
    destruct (Hpos p Hp). lia.
  - eexists. split; [apply Part002_addGift_found, Hroom|]. split; [apply Hup|].
    intros Hpos p' Hp'. destruct (Hup _ _ Hp') as (p & Hp & _ & Hs & Hr).
    destruct (Hpos p Hp). lia.
Qed.

Lemma X18_balances_never_go_down_witness :
  exists room',
    Part002.addGift idShuffle idShuffle 17 18 (collection roomAB) "room" "A" "B" "socks" 40
    = inr (<["room"%string := room']> (collection roomAB))
    /\ balancesNonNegative room'.
Proof.
  destruct (X18_balances_never_go_down idShuffle idShuffle 17 18 (collection roomAB)
              "room" "A" "B" "socks" 40 roomAB) as [_ (room' & Hrun & _ & Hpos)].
  - lia.
  - reflexivity.
  - exists room'. split; [exact Hrun|]. apply Hpos.
    intros p Hp. simpl in Hp.
    repeat (apply elem_of_cons in Hp as [->|Hp]; [simpl; lia|]). inversion Hp.
Defined.

(** ** Conservation along a run of gifts *)

(** A run whose amounts are not negative, from non-negative balances, with
    the sums after the run within the safe integers: every addition of the
    run is exact, and the sums of the columns grow by the amounts. *)
Lemma Double_playWith_totals (step : Store -> Submit.t -> Outcome) (roomId : string) :
  (forall (db : Store) room s,
      db !! roomId = Some room ->
      exactGift (Submit.gifter s) (Submit.recipient s) (Submit.amount s)
                (Room.participants room) ->
      exists room', step db s = inr (<[roomId := room']> db)
                    /\ giftApplied (Submit.gifter s) (Submit.recipient s) (Submit.amount s)
                                   (Room.participants room) (Room.participants room')) ->
  forall submits (db : Store) room,
    db !! roomId = Some room ->
    NoDup (map Participant.username (Room.participants room)) ->
    Forall (validSubmit (map Participant.username (Room.participants room))) submits ->
    balancesNonNegative room ->
    Forall (fun s => 0 <= Submit.amount s) submits ->
    sumZ (map Participant.spent (Room.participants room))
    + sumZ (map Submit.amount submits) <= Double.MAX_SAFE_INTEGER ->
    sumZ (map Participant.received (Room.participants room))
    + sumZ (map Submit.amount submits) <= Double.MAX_SAFE_INTEGER ->
    exists db' room',
      playWith step db submits = inr db'
      /\ db' !! roomId = Some room'
      /\ sumZ (map Participant.spent (Room.participants room'))
         = sumZ (map Participant.spent (Room.participants room))
           + sumZ (map Submit.amount submits)
      /\ sumZ (map Participant.received (Room.participants room'))
         = sumZ (map Participant.received (Room.participants room))
           + sumZ (map Submit.amount submits).
Proof.
  intros Hstep submits.
  induction submits as [|s submits IH];
    intros db room Hroom Hkeys Hvalid Hpos Hamounts Hspent Hreceived.
  - exists db, room. simpl. repeat split; [exact Hroom|lia|lia].
  - apply Forall_cons in Hvalid as [(Hg & Hr & Hne) Hvalid].
    apply Forall_cons in Hamounts as [Hamount Hamounts].
    cbn [map sumZ fold_right] in Hspent, Hreceived.
    assert (0 <= sumZ (map Submit.amount submits)) as Hrest.
    { apply sumZ_nonneg. rewrite Forall_map. exact Hamounts. }
    unfold sumZ in Hrest.
    assert (exactGift (Submit.gifter s) (Submit.recipient s) (Submit.amount s)
                      (Room.participants room)) as Hexact.
    { intros p Hp. destruct (Hpos p Hp) as [H1 H2].
      assert (Participant.spent p <= sumZ (map Participant.spent (Room.participants room)))
        as Hs.
      { apply sumZ_member.
        - rewrite Forall_map, Forall_forall. intros q Hq. apply (Hpos q Hq).
        - apply list_elem_of_In, in_map, list_elem_of_In, Hp. }
      assert (Participant.received p
              <= sumZ (map Participant.received (Room.participants room))) as Hrec.
      { apply sumZ_member.
        - rewrite Forall_map, Forall_forall. intros q Hq. apply (Hpos q Hq).
        - apply list_elem_of_In, in_map, list_elem_of_In, Hp. }
      unfold Double.isSafeInteger, Double.MAX_SAFE_INTEGER in *. unfold sumZ in *.
      split; intros _; apply andb_true_iff; split; apply Z.leb_le; lia. }
    destruct (Hstep db room s Hroom Hexact) as (room1 & Hrun & Happ).
    destruct (giftApplied_totals _ _ _ _ _ Happ Hkeys Hg Hr Hne) as [Hs Hrec].
    rewrite !totalSpent_column in Hs. rewrite !totalReceived_column in Hrec.
    pose proof (giftApplied_nonneg _ _ _ _ _ Hamount Happ Hpos) as Hpos1.
    destruct Happ as (Hnames & _).
    destruct (IH (<[roomId := room1]> db) room1)
      as (db' & room' & Hplay & Hroom' & Hs' & Hr').
    + apply lookup_insert_eq.
    + rewrite Hnames. exact Hkeys.
    + rewrite Hnames. exact Hvalid.
    + exact Hpos1.
    + exact Hamounts.
    + rewrite Hs. unfold sumZ in *. lia.
    + rewrite Hrec. unfold sumZ in *. lia.
    + exists db', room'. cbn [playWith]. rewrite Hrun.
      split; [exact Hplay|]. split; [exact Hroom'|].
      cbn [map sumZ fold_right]. unfold sumZ in *. lia.
Qed.

(** X19. Conservation along a run of gifts on safe integers.  In a room
    whose user names are unique and whose balances are not negative, after
    any sequence of [addGift] calls (either revision, with the addition of
    the language), each between two different participants of the room and
    with an amount that is not negative, such that the sum of [spent] and the
    sum of [received] plus all the amounts stay within
    [Number.MAX_SAFE_INTEGER]: the sum of [spent] and the sum of [received]
    have both grown by the sum of the amounts; they are equal at the end if
    they were at the start. *)
Theorem X19_conservation_along_a_run
    (db : Store) (roomId : string) (room : Room.t) (submits : list Submit.t) :
  db !! roomId = Some room ->
  NoDup (map Participant.username (Room.participants room)) ->
  Forall (validSubmit (map Participant.username (Room.participants room))) submits ->
  balancesNonNegative room ->
  Forall (fun s => 0 <= Submit.amount s) submits ->
  sumZ (map Participant.spent (Room.participants room))
  + sumZ (map Submit.amount submits) <= Double.MAX_SAFE_INTEGER ->
  sumZ (map Participant.received (Room.participants room))
  + sumZ (map Submit.amount submits) <= Double.MAX_SAFE_INTEGER ->
  (exists db' room',
      playWith (Double_Firebase_step roomId) db submits = inr db'
      /\ db' !! roomId = Some room'
      /\ sumZ (map Participant.spent (Room.participants room'))
         = sumZ (map Participant.spent (Room.participants room))
           + sumZ (map Submit.amount submits)
      /\ sumZ (map Participant.received (Room.participants room'))
         = sumZ (map Participant.received (Room.participants room))
           + sumZ (map Submit.amount submits)
      /\ (sumZ (map Participant.spent (Room.participants room))
          = sumZ (map Participant.received (Room.participants room)) ->
          sumZ (map Participant.spent (Room.participants room'))
          = sumZ (map Participant.received (Room.participants room'))))
  /\ (exists db' room',
         playWith (Double_Part002_step roomId) db submits = inr db'
         /\ db' !! roomId = Some room'
         /\ sumZ (map Participant.spent (Room.participants room'))
            = sumZ (map Participant.spent (Room.participants room))
              + sumZ (map Submit.amount submits)
         /\ sumZ (map Participant.received (Room.participants room'))
            = sumZ (map Participant.received (Room.participants room))
              + sumZ (map Submit.amount submits)
         /\ (sumZ (map Participant.spent (Room.participants room))
             = sumZ (map Participant.received (Room.participants room)) ->
             sumZ (map Participant.spent (Room.participants room'))
             = sumZ (map Participant.received (Room.participants room')))).
Proof.
  intros Hroom Hkeys Hvalid Hpos Hamounts Hspent Hreceived. split.
  - destruct (Double_playWith_totals (Double_Firebase_step roomId) roomId)
      with (submits := submits) (db := db) (room := room)
      as (db' & room' & Hplay & Hroom' & Hs & Hr); try assumption.
    + intros db0 room0 s Hroom0 Hexact. eexists. unfold Double_Firebase_step.
      rewrite (Double_Firebase_addGift_exact _ _ _ _ _ _ _ _ _ _ Hroom0 Hexact).
      split; [apply Firebase_addGift_found, Hroom0|apply Firebase_settle_applied].
    + exists db', room'. repeat split; try assumption. lia.
  - destruct (Double_playWith_totals (Double_Part002_step roomId) roomId)
      with (submits := submits) (db := db) (room := room)
      as (db' & room' & Hplay & Hroom' & Hs & Hr); try assumption.
    + intros db0 room0 s Hroom0 Hexact. eexists. unfold Double_Part002_step.
      rewrite (Double_Part002_addGift_exact _ _ _ _ _ _ _ _ _ _ _ Hroom0 Hexact).
      split; [apply Part002_addGift_found, Hroom0|apply Part002_settle_applied].
    + exists db', room'. repeat split; try assumption. lia.
Qed.

Lemma X19_conservation_along_a_run_witness :
  exists db' room',
    playWith (Double_Firebase_step "room") (collection roomAB) twoGifts = inr db'
    /\ db' !! "room"%string = Some room'
    /\ sumZ (map Participant.spent (Room.participants room')) = 65
    /\ sumZ (map Participant.received (Room.participants room')) = 65.
Proof.
  destruct (X19_conservation_along_a_run (collection roomAB) "room" roomAB twoGifts)
    as [(db' & room' & Hplay & Hroom' & Hs & Hr & _) _].
  - reflexivity.
  - simpl. distinct_names.
  - repeat constructor; simpl; try discriminate;
      rewrite ?elem_of_cons; auto.
  - intros p Hp. apply list_elem_of_In in Hp. simpl in Hp.
    destruct Hp as [<-|[<-|[<-|[]]]]; simpl; lia.
  - repeat constructor; simpl; lia.
  - vm_compute. discriminate.
  - vm_compute. discriminate.
  - exists db', room'. split; [exact Hplay|]. split; [exact Hroom'|].
    split; [exact Hs|exact Hr].
Defined.

(** ** The submit handler of [src/src/app/room/[id]/page.tsx] *)

(** The handler either leaves the collection as it is or has passed its
    three checks and called [addGift]. *)
Lemma RoomPage_handleAddGift_cases parseInt trim shuffleR shuffleG now nowTs
    (db : Store) roomId stateRoom currentUser giftDescription giftAmount :
  snd (RoomPage.handleAddGift parseInt trim shuffleR shuffleG now nowTs db roomId
                              stateRoom currentUser giftDescription giftAmount) = db
  \/ exists user recipient amount,
       currentUser = Some user
       /\ recipientName currentUser = Some recipient
       /\ parseInt giftAmount = Some amount
       /\ 0 < amount
       /\ Participant.spent user + amount <= Room.budget stateRoom
       /\ Part002.addGift shuffleR shuffleG now nowTs db roomId
                          (Participant.username user) recipient giftDescription amount
          = inr (snd (RoomPage.handleAddGift parseInt trim shuffleR shuffleG now nowTs db
                                             roomId stateRoom currentUser
                                             giftDescription giftAmount)).
Proof.
  unfold RoomPage.handleAddGift.
  destruct currentUser as [user|]; [|left; reflexivity].
  destruct (recipientName (Some user)) as [recipient|] eqn:Hrec; [|left; reflexivity].
  destruct (_ || _); [left; reflexivity|].
  destruct (parseInt giftAmount) as [amount|] eqn:Hparse; [|left; reflexivity].
  destruct (Z.leb_spec amount 0); [left; reflexivity|].
  destruct (Z.ltb_spec (Room.budget stateRoom) (Participant.spent user + amount));
    [left; reflexivity|].
  destruct (Part002.addGift _ _ _ _ _ _ _ _ _ _) as [message|db'] eqn:Hrun;
    [left; reflexivity|].
  right. exists user, recipient, amount. cbn [snd]. repeat split; auto.
Qed.

(** X20. The submit handler of [src/src/app/room/[id]/page.tsx] keeps a
    gifter within the budget.  When the component's state is the stored room
    (user names unique) and the current user is one of its participants whose
    [spent] is at most the budget, then after [handleAddGift], whatever was
    typed, every participant with that name still has [spent <= budget]. *)
Theorem X20_page_handler_keeps_spent_within_budget
    (parseInt : string -> option Z) (trim : string -> string)
    (shuffleR shuffleG : list Participant.t -> list Participant.t) (now nowTs : Z)
    (db : Store) (roomId giftDescription giftAmount : string)
    (room : Room.t) (user : Participant.t) :
  db !! roomId = Some room ->
  NoDup (map Participant.username (Room.participants room)) ->
  user ∈ Room.participants room ->
  Participant.spent user <= Room.budget room ->
  exists room',
    snd (RoomPage.handleAddGift parseInt trim shuffleR shuffleG now nowTs db roomId
                                room (Some user) giftDescription giftAmount)
      !! roomId = Some room'
    /\ Room.budget room' = Room.budget room
    /\ forall p, p ∈ Room.participants room' ->
                 Participant.username p = Participant.username user ->
                 Participant.spent p <= Room.budget room.
Proof.
  intros Hroom Hkeys Huser Hspent.
  pose proof (RoomPage_handleAddGift_cases parseInt trim shuffleR shuffleG now nowTs db
                roomId room (Some user) giftDescription giftAmount) as Hcases.
  remember (RoomPage.handleAddGift parseInt trim shuffleR shuffleG now nowTs db roomId
              room (Some user) giftDescription giftAmount) as out eqn:Eout.
  clear Eout.
  destruct Hcases
    as [Hsame|(user' & recipient & amount & Euser & _ & _ & Hpos & Hfits & Hrun)].
  - rewrite Hsame. exists room. split; [exact Hroom|]. split; [reflexivity|].
    intros p Hp E. rewrite (username_key _ p user Hkeys Hp Huser E). exact Hspent.
  - injection Euser as <-.
    rewrite (Part002_addGift_found _ _ _ _ _ _ room _ _ _ _ Hroom) in Hrun.
    injection Hrun as <-.
    eexists. split; [apply lookup_insert_eq|]. split; [reflexivity|].
    cbn [Part002.settle Room.participants]. intros p' Hp' E.
    apply withAssignments_elem in Hp' as (q & Hq & Eq & -> & _).
    apply final_elem in Hq as (p & Hp & Eq' & -> & _).
    assert (p = user) as -> by (eapply username_key; eauto; congruence).
    unfold spentAfter. rewrite String.eqb_refl. exact Hfits.
Qed.

Lemma X20_page_handler_keeps_spent_within_budget_witness :
  exists room',
    snd (RoomPage.handleAddGift parseDecimal (fun s => s) idShuffle idShuffle 17 18
                                (collection roomAB) "room" roomAB (Some userA)
                                "socks" "40")
      !! "room"%string = Some room'
    /\ forall p, p ∈ Room.participants room' -> Participant.username p = "A"%string ->
                 Participant.spent p <= 100.
Proof.
  destruct (X20_page_handler_keeps_spent_within_budget parseDecimal (fun s => s)
              idShuffle idShuffle 17 18 (collection roomAB) "room" "socks" "40"
              roomAB userA) as (room' & Hroom' & _ & Hwithin).
  - reflexivity.
  - simpl. distinct_names.
  - left.
  - simpl. lia.
  - exists room'. split; [exact Hroom'|exact Hwithin].
Defined.

(** ** The join and create forms *)

Lemma joinRoom_cases (db : Store) roomId username :
  fst (joinRoom db roomId username) = db
  \/ exists room,
       db !! roomId = Some room
       /\ Room.gameStarted room = false
       /\ (forall p, p ∈ Room.participants room -> Participant.username p <> username)
       /\ joinRoom db roomId username
          = (<[roomId := setParticipants room
                           (Room.participants room ++ [newParticipant username])]> db,
             true).
Proof.
  destruct (db !! roomId) as [room|] eqn:Hroom;
    [|left; unfold joinRoom; rewrite Hroom; reflexivity].
  destruct (findParticipant username (Room.participants room)) as [p|] eqn:Hfind.
  - left. apply findParticipant_Some in Hfind as [Hp E].
    rewrite (joinRoom_existing db roomId username room p Hroom Hp E). reflexivity.
  - rewrite findParticipant_None in Hfind.
    destruct (Room.gameStarted room) eqn:Hstarted.
    + left. unfold joinRoom. rewrite Hroom, Hstarted.
      rewrite (proj2 (findParticipant_None _ _) Hfind). reflexivity.
    + right. exists room. repeat split; auto. apply joinRoom_absent; assumption.
Qed.

(** X21. The three join forms (home page and both room pages) never store a
    blank name and never add to a started game: each leaves the collection
    as it is, or the trimmed name is not empty, the room exists, its game has
    not started, no participant has the name, and the one change is the new
    participant with zero balances at the end of the room's list. *)
Theorem X21_join_forms (trim : string -> string) (db : Store) (roomId username : string) :
  forall db',
    db' = snd (Home.handleJoinRoom trim db roomId username)
    \/ db' = snd (RoomPageRest.handleJoin trim db roomId username)
    \/ db' = snd (Part001Rest.handleJoin trim db roomId username) ->
    db' = db
    \/ (trim username <> ""%string
        /\ exists room,
             db !! roomId = Some room
             /\ Room.gameStarted room = false
             /\ (forall p, p ∈ Room.participants room ->
                           Participant.username p <> username)
             /\ db' = <[roomId := setParticipants room
                                    (Room.participants room ++ [newParticipant username])]>
                        db).
Proof.
  assert (forall db', db' = fst (joinRoom db roomId username) ->
                      trim username <> ""%string ->
                      db' = db
                      \/ (trim username <> ""%string
                          /\ exists room,
                               db !! roomId = Some room
                               /\ Room.gameStarted room = false
                               /\ (forall p, p ∈ Room.participants room ->
                                             Participant.username p <> username)
                               /\ db' = <[roomId :=
                                           setParticipants room
                                             (Room.participants room
                                              ++ [newParticipant username])]> db)) as Hjoin.
  { intros db' -> Hname.
    destruct (joinRoom_cases db roomId username) as [->|(room & H1 & H2 & H3 & ->)];
      [left; reflexivity|].
    right. split; [exact Hname|]. exists room. repeat split; auto. }
  assert (forall s, nonEmpty s = true -> s <> ""%string) as Hnon.
  { intros s H ->. discriminate. }
  intros db' [-> | [-> | ->]].
  - unfold Home.handleJoinRoom.
    destruct (nonEmpty (trim roomId)); [|left; reflexivity].
    destruct (nonEmpty (trim username)) eqn:Hname; [|left; reflexivity].
    cbn [negb orb].
    destruct (joinRoom db roomId username) as [db1 ok] eqn:Hrun.
    assert (db1 = fst (joinRoom db roomId username)) as E by (rewrite Hrun; reflexivity).
    destruct ok; cbn [snd]; apply Hjoin; auto.
  - unfold RoomPageRest.handleJoin.
    destruct (nonEmpty (trim username)) eqn:Hname; [|left; reflexivity].
    cbn [negb].
    destruct (joinRoom db roomId username) as [db1 ok] eqn:Hrun.
    assert (db1 = fst (joinRoom db roomId username)) as E by (rewrite Hrun; reflexivity).
    destruct ok; cbn [snd]; apply Hjoin; auto.
  - unfold Part001Rest.handleJoin.
    destruct (nonEmpty (trim username)) eqn:Hname; [|left; reflexivity].
    cbn [negb].
    destruct (getRoom db roomId) as [[id updatedRoom]|].
    + destruct (_ && _); [left; reflexivity|]. cbn [snd]. apply Hjoin; auto.
    + cbn [snd]. apply Hjoin; auto.
Qed.

Lemma X21_join_forms_witness :
  snd (Home.handleJoinRoom (fun s => s) (collection roomAB) "room" "Z") = collection roomAB.
Proof.
  destruct (X21_join_forms (fun s => s) (collection roomAB) "room" "Z"
              (snd (Home.handleJoinRoom (fun s => s) (collection roomAB) "room" "Z")))
    as [Hsame|(_ & room & Hroom & Hstarted & _)].
  - left. reflexivity.
  - exact Hsame.
  - injection Hroom as <-. discriminate.
Defined.

(** X22. The create form makes a room only from a non-blank room name, a
    non-blank user name and a positive budget: otherwise it reports
    [Please fill in all fields with valid values] and writes nothing.  A
    budget field that [parseInt] cannot read counts as 0 and is refused.  A
    room that the form did make can be read back with that positive budget
    and the creator as its only participant. *)
Theorem X22_create_form (parseInt : string -> option Z) (trim : string -> string)
    (autoId : string) (now : Z) (db : Store) (createData : CreateRoomData.t) :
  ((Home.handleCreateRoom trim autoId now db createData
    = ("Please fill in all fields with valid values"%string, db)
    /\ (trim (CreateRoomData.roomName createData) = ""%string
        \/ trim (CreateRoomData.username createData) = ""%string
        \/ CreateRoomData.budget createData <= 0))
   \/ (fst (Home.handleCreateRoom trim autoId now db createData) = ""%string
       /\ trim (CreateRoomData.roomName createData) <> ""%string
       /\ trim (CreateRoomData.username createData) <> ""%string
       /\ exists room,
            getRoom (snd (Home.handleCreateRoom trim autoId now db createData)) autoId
            = Some (autoId, room)
            /\ 0 < Room.budget room
            /\ Room.budget room = CreateRoomData.budget createData
            /\ Room.participants room
               = [newParticipant (CreateRoomData.username createData)]))
  /\ (forall value roomName username,
        parseInt value = None ->
        Home.handleCreateRoom trim autoId now db
          {| CreateRoomData.roomName := roomName;
             CreateRoomData.username := username;
             CreateRoomData.budget := Home.budgetInput parseInt value |}
        = ("Please fill in all fields with valid values"%string, db)).
Proof.
  assert (forall s, nonEmpty s = false -> s = ""%string) as Hblank.
  { intros s H. unfold nonEmpty in H. apply negb_false_iff, String.eqb_eq in H. exact H. }
  assert (forall s, nonEmpty s = true -> s <> ""%string) as Hnon.
  { intros s H ->. discriminate. }
  split.
  2: { intros value roomName username Hnan.
       unfold Home.handleCreateRoom, Home.budgetInput. rewrite Hnan.
       cbn. rewrite !orb_true_r. reflexivity. }
  unfold Home.handleCreateRoom.
  destruct (nonEmpty (trim (CreateRoomData.roomName createData))) eqn:H1; cbn [negb orb].
  2: { left. split; [reflexivity|]. left. apply Hblank, H1. }
  destruct (nonEmpty (trim (CreateRoomData.username createData))) eqn:H2; cbn [negb orb].
  2: { left. split; [reflexivity|]. right. left. apply Hblank, H2. }
  destruct (Z.leb_spec (CreateRoomData.budget createData) 0) as [Hle|Hpos].
  { left. split; [reflexivity|]. right. right. exact Hle. }
  right.
  split; [reflexivity|]. split; [apply Hnon, H1|]. split; [apply Hnon, H2|].
  eexists. unfold getRoom, createRoom. cbn [fst snd]. rewrite lookup_insert_eq.
  split; [reflexivity|]. repeat split. exact Hpos.
Qed.

Lemma X22_create_form_witness :
  Home.handleCreateRoom (fun s => s) "room" 0 (collection lobby)
    {| CreateRoomData.roomName := "party";
       CreateRoomData.username := "A";
       CreateRoomData.budget := Home.budgetInput parseDecimal "a lot" |}
  = ("Please fill in all fields with valid values"%string, collection lobby).
Proof.
  destruct (X22_create_form parseDecimal (fun s => s) "room" 0 (collection lobby) partyData)
    as [_ Hnan].
  apply (Hnan "a lot"%string "party"%string "A"%string). reflexivity.
Defined.

(** ** The start button *)

(** X23. A start button that is enabled starts the game.  With the
    component state equal to the stored room: when the button of
    [src/src/app/room/[id]/page.tsx] is not disabled (not loading, at least 2
    participants), [handleStartGame] reports nothing and the stored room has
    [gameStarted = true]; likewise for [src/unnamed/part_001] with at least 3
    participants.  [handleStartGame] fails with the too-few-participants
    message exactly in rooms below that number, where the button is disabled
    whatever [loading] is, and then it writes nothing.  While [loading] the
    button is disabled, also where [startGame] would succeed.  With
    [loading = false] the two buttons disagree exactly on rooms of two. *)
Theorem X23_start_button
    (shuffleR shuffleG : list Participant.t -> list Participant.t)
    (db : Store) (roomId : string) (room : Room.t) (loading : bool) :
  db !! roomId = Some room ->
  (RoomPageRest.startDisabled loading room = false ->
   exists db' room',
     Part002.startGame shuffleR shuffleG db roomId = inr db'
     /\ RoomPageRest.handleStartGame shuffleR shuffleG db roomId = (""%string, db')
     /\ db' !! roomId = Some room' /\ Room.gameStarted room' = true)
  /\ (RoomPageRest.handleStartGame shuffleR shuffleG db roomId
      = ("Failed to start game: Need at least 2 participants to start"%string, db)
      <-> (length (Room.participants room) < 2)%nat)
  /\ ((length (Room.participants room) < 2)%nat ->
      RoomPageRest.startDisabled loading room = true)
  /\ (Part001Rest.startDisabled loading room = false ->
      exists db' room',
        Firebase.startGame shuffleR shuffleG db roomId = inr db'
        /\ Part001Rest.handleStartGame shuffleR shuffleG db roomId = (""%string, db')
        /\ db' !! roomId = Some room' /\ Room.gameStarted room' = true)
  /\ (Part001Rest.handleStartGame shuffleR shuffleG db roomId
      = ("Failed to start game: Need at least 3 participants to start"%string, db)
      <-> (length (Room.participants room) < 3)%nat)
  /\ ((length (Room.participants room) < 3)%nat ->
      Part001Rest.startDisabled loading room = true)
  /\ (RoomPageRest.startDisabled false room <> Part001Rest.startDisabled false room <->
      length (Room.participants room) = 2%nat)
  /\ RoomPageRest.startDisabled true room = true
  /\ Part001Rest.startDisabled true room = true.
Proof.
  intros Hroom.
  unfold RoomPageRest.startDisabled, Part001Rest.startDisabled,
    RoomPageRest.handleStartGame, Part001Rest.handleStartGame,
    Part002.startGame, Firebase.startGame.
  rewrite Hroom.
  split; [|split; [|split; [|split; [|split; [|split; [|split; [|split]]]]]]];
    [| | | | | | |reflexivity|reflexivity].
  - intros H. apply orb_false_iff in H as [_ H]. rewrite H.
    eexists _, _. split; [reflexivity|]. split; [reflexivity|].
    split; [apply lookup_insert_eq|reflexivity].
  - destruct (Nat.ltb_spec (length (Room.participants room)) 2); split; intros H';
      try reflexivity; try lia; try discriminate.
  - intros H. apply Nat.ltb_lt in H. rewrite H. apply orb_true_r.
  - intros H. apply orb_false_iff in H as [_ H]. rewrite H.
    eexists _, _. split; [reflexivity|]. split; [reflexivity|].
    split; [apply lookup_insert_eq|reflexivity].
  - destruct (Nat.ltb_spec (length (Room.participants room)) 3); split; intros H';
      try reflexivity; try lia; try discriminate.
  - intros H. apply Nat.ltb_lt in H. rewrite H. apply orb_true_r.
  - cbn [orb].
    destruct (Nat.ltb_spec (length (Room.participants room)) 2),
             (Nat.ltb_spec (length (Room.participants room)) 3);
      split; intros H'; try lia; try discriminate; destruct H'; reflexivity.
Qed.

Lemma X23_start_button_witness :
  RoomPageRest.handleStartGame idShuffle idShuffle (collection lobby) "room"
  <> Part001Rest.handleStartGame idShuffle idShuffle (collection lobby) "room"
  /\ Part001Rest.handleStartGame idShuffle idShuffle (collection lobby) "room"
     = ("Failed to start game: Need at least 3 participants to start"%string,
        collection lobby).
Proof.
  destruct (X23_start_button idShuffle idShuffle (collection lobby) "room" lobby false
              eq_refl) as (Hpage & _ & _ & _ & Hform & _).
  destruct (Hpage eq_refl) as (db' & room' & _ & Hstarted & _).
  rewrite Hstarted, (proj2 Hform); [|simpl; lia]. split; [discriminate|reflexivity].
Defined.

(** ** The list of recent gifts *)

Lemma recentGifts_firstn (gs : list Gift.t) : recentGifts gs = firstn 10 (rev gs).
Proof. unfold recentGifts. symmetry. apply firstn_rev. Qed.

(** X24. The gift list of the room page shows at most ten gifts, all of
    them gifts of the room, the newest first: it is the first ten of the
    stored gifts read backwards.  After an [addGift] of
    [src/src/lib/firebase.ts] whose record is not yet stored, the new gift is
    at the top of the list and the nine newest of before follow it; when the
    very same record is stored already, the list is as it was. *)
Theorem X24_recent_gifts
    (shuffleR shuffleG : list Participant.t -> list Participant.t) (now : Z)
    (db : Store) (roomId gifter recipient description : string) (amount : Z)
    (room : Room.t) :
  let gift :=
    {| Gift.id := toString now; Gift.gifter := gifter; Gift.recipient := recipient;
       Gift.description := description; Gift.amount := amount;
       Gift.timestamp := None; Gift.isHidden := None |} in
  db !! roomId = Some room ->
  (forall gs : list Gift.t,
      recentGifts gs = firstn 10 (rev gs)
      /\ length (recentGifts gs) = Nat.min 10 (length gs)
      /\ (forall g, g ∈ recentGifts gs -> g ∈ gs))
  /\ exists room',
       Firebase.addGift shuffleR shuffleG now db roomId gifter recipient description amount
       = inr (<[roomId := room']> db)
       /\ (gift ∉ Room.gifts room ->
           recentGifts (Room.gifts room') = gift :: firstn 9 (rev (Room.gifts room)))
       /\ (gift ∈ Room.gifts room ->
           recentGifts (Room.gifts room') = recentGifts (Room.gifts room)).
Proof.
  intros gift Hroom. split.
  - intros gs. rewrite recentGifts_firstn. split; [reflexivity|]. split.
    + rewrite length_firstn, length_rev. reflexivity.
    + intros g Hg. pose proof (elem_of_sublist _ _ _ Hg (sublist_take _ _)) as Hrev.
      apply list_elem_of_In in Hrev. apply in_rev in Hrev. apply list_elem_of_In, Hrev.
  - eexists. split; [apply Firebase_addGift_found, Hroom|].
    cbn [Firebase.settle Room.gifts]. fold gift. split.
    + intros Hnew. rewrite (arrayUnion_new _ _ Hnew), recentGifts_firstn, rev_unit.
      reflexivity.
    + intros Hold. rewrite (arrayUnion_old _ _ Hold). reflexivity.
Qed.

Lemma X24_recent_gifts_witness :
  exists room',
    Firebase.addGift idShuffle idShuffle 13 (collection roomLater) "room" "C" "D" "tea" 5
    = inr (<["room"%string := room']> (collection roomLater))
    /\ map Gift.description (recentGifts (Room.gifts room'))
       = ["tea"; "mug"; "socks"]%string.
Proof.
  destruct (X24_recent_gifts idShuffle idShuffle 13 (collection roomLater) "room"
              "C" "D" "tea" 5 roomLater eq_refl) as (_ & room' & Hrun & Hnew & _).
  exists room'. split; [exact Hrun|].
  rewrite Hnew; [reflexivity|].
  intros Hin. apply list_elem_of_In in Hin. simpl in Hin.
  destruct Hin as [E|[E|[]]]; discriminate E.
Defined.

(** ** What the gift form shows as remaining *)



(** ** Who has joined is found by the room page *)

Lemma findParticipant_found (u : string) (ps : list Participant.t) :
  u ∈ map Participant.username ps <->
  exists p, findParticipant u ps = Some p /\ p ∈ ps /\ Participant.username p = u.
Proof.
  split.
  - intros Hu. apply list_elem_of_In, in_map_iff in Hu as (q & Eq & Hq).
    destruct (findParticipant u ps) as [p|] eqn:Hfind.
    + exists p. split; [reflexivity|]. apply findParticipant_Some, Hfind.
    + rewrite findParticipant_None in Hfind.
      destruct (Hfind q (proj2 (list_elem_of_In _ _) Hq) Eq).
  - intros (p & _ & Hp & <-). apply list_elem_of_In, in_map, list_elem_of_In, Hp.
Qed.

(** X26. A user for whom [joinRoom] returned [true] is a participant of the
    stored room, so the room page finds its [currentUser]; and the user stays
    found, under the same name, after every later [startGame] and [addGift]
    of either revision, whoever gives to whom. *)
Theorem X26_joined_user_is_found (db db' : Store) (roomId username : string) :
  joinRoom db roomId username = (db', true) ->
  exists room',
    db' !! roomId = Some room'
    /\ (exists p, Part001Rest.currentUser room' username = Some p
                  /\ p ∈ Room.participants room' /\ Participant.username p = username)
    /\ forall (shuffleR shuffleG : list Participant.t -> list Participant.t)
              (now nowTs : Z) (gifter recipient description : string) (amount : Z) db'',
         Firebase.startGame shuffleR shuffleG db' roomId = inr db''
         \/ Part002.startGame shuffleR shuffleG db' roomId = inr db''
         \/ Firebase.addGift shuffleR shuffleG now db' roomId gifter recipient
                             description amount = inr db''
         \/ Part002.addGift shuffleR shuffleG now nowTs db' roomId gifter recipient
                            description amount = inr db'' ->
         exists room'' q,
           db'' !! roomId = Some room''
           /\ Part001Rest.currentUser room'' username = Some q
           /\ q ∈ Room.participants room'' /\ Participant.username q = username.
Proof.
  intros Hjoin.
  assert (exists room', db' !! roomId = Some room'
                        /\ username ∈ map Participant.username (Room.participants room'))
    as (room' & Hroom' & Hname).
  { destruct (joinRoom_cases db roomId username) as [Hsame|(room & Hroom & _ & _ & Hrun)].
    - rewrite Hjoin in Hsame. cbn [fst] in Hsame. subst db'.
      unfold joinRoom in Hjoin. destruct (db !! roomId) as [room|] eqn:Hroom; [|discriminate].
      exists room. split; [reflexivity|].
      destruct (findParticipant username (Room.participants room)) as [p|] eqn:Hfind.
      + apply findParticipant_found. exists p. split; [exact Hfind|].
        apply findParticipant_Some, Hfind.
      + destruct (Room.gameStarted room); [discriminate|]. cbn [negb truthy andb] in Hjoin.
        injection Hjoin as Hwritten.
        apply (f_equal (fun m : Store => m !! roomId)) in Hwritten.
        rewrite lookup_insert_eq, Hroom in Hwritten. injection Hwritten as Hwritten.
        apply (f_equal Room.participants) in Hwritten.
        cbn [setParticipants Room.participants] in Hwritten.
        rewrite <- Hwritten. apply list_elem_of_In, in_map_iff.
        exists (newParticipant username). split; [reflexivity|].
        apply list_elem_of_In, arrayUnion_elem.
    - rewrite Hjoin in Hrun. injection Hrun as ->.
      eexists. split; [apply lookup_insert_eq|].
      cbn [setParticipants Room.participants]. rewrite map_app.
      apply elem_of_app. right. apply list_elem_of_singleton. reflexivity. }
  exists room'. split; [exact Hroom'|]. split.
  { apply findParticipant_found in Hname as (p & Hp). exists p. exact Hp. }
  intros shuffleR shuffleG now nowTs gifter recipient description amount db'' Hlater.
  assert (exists room'', db'' !! roomId = Some room''
                         /\ map Participant.username (Room.participants room'')
                            = map Participant.username (Room.participants room'))
    as (room'' & Hroom'' & Hnames).
  { destruct Hlater as [Hrun|[Hrun|[Hrun|Hrun]]].
    - apply Firebase_startGame_written in Hrun as (room0 & assignments & H0 & _ & _ & ->).
      rewrite Hroom' in H0. injection H0 as <-.
      eexists. split; [apply lookup_insert_eq|].
      cbn [Room.participants]. apply withAssignments_usernames.
    - apply Part002_startGame_written in Hrun as (room0 & assignments & H0 & _ & _ & ->).
      rewrite Hroom' in H0. injection H0 as <-.
      eexists. split; [apply lookup_insert_eq|].
      cbn [Room.participants]. apply withAssignments_usernames.
    - rewrite (Firebase_addGift_found _ _ _ _ _ room' _ _ _ _ Hroom') in Hrun.
      injection Hrun as <-. eexists. split; [apply lookup_insert_eq|].
      apply Firebase_settle_applied.
    - rewrite (Part002_addGift_found _ _ _ _ _ _ room' _ _ _ _ Hroom') in Hrun.
      injection Hrun as <-. eexists. split; [apply lookup_insert_eq|].
      apply Part002_settle_applied. }
  rewrite <- Hnames in Hname.
  apply findParticipant_found in Hname as (q & Hq). exists room'', q.
  split; [exact Hroom''|exact Hq].
Qed.

Lemma X26_joined_user_is_found_witness :
  exists room',
    fst (joinRoom (collection lobby) "room" "C") !! "room"%string = Some room'
    /\ exists p, Part001Rest.currentUser room' "C" = Some p
                 /\ p ∈ Room.participants room' /\ Participant.username p = "C"%string.
Proof.
  destruct (X26_joined_user_is_found (collection lobby)
              (fst (joinRoom (collection lobby) "room" "C")) "room" "C" eq_refl)
    as (room' & Hroom' & Hfound & _).
  exists room'. split; [exact Hroom'|exact Hfound].
Defined.

(** ** The participants shown as gifting *)

(** X27. The participants that the room pages show as current gifters are
    never more than the active assignments: in a room whose user names are
    keys and whose flags agree with the active assignments, every shown
    gifter is the gifter of an active assignment to the recipient it
    carries, so their number is at most the number of active assignments,
    and at most [floor(participants.length / 2)] in a room within
    capacity. *)
Theorem X27_current_gifters (room : Room.t) :
  NoDup (map Participant.username (Room.participants room)) ->
  flagsMatch room ->
  (forall p, p ∈ currentGifters room ->
             p ∈ Room.participants room
             /\ exists r, Participant.recipient p = Name r
                          /\ {| Assignment.gifter := Participant.username p;
                                Assignment.recipient := r |} ∈ Room.activeAssignments room)
  /\ (length (currentGifters room) <= length (Room.activeAssignments room))%nat
  /\ (withinCapacity room ->
      (length (currentGifters room) <= length (Room.participants room) / 2)%nat).
Proof.
  intros Hkeys [Hflags _].
  assert (forall p, p ∈ currentGifters room ->
                    p ∈ Room.participants room
                    /\ exists r, Participant.recipient p = Name r
                                 /\ {| Assignment.gifter := Participant.username p;
                                       Assignment.recipient := r |}
                                    ∈ Room.activeAssignments room) as Hshown.
  { intros p Hp. unfold currentGifters in Hp.
    apply list_elem_of_In, filter_In in Hp as [Hp Hflag]. apply list_elem_of_In in Hp.
    split; [exact Hp|].
    destruct (Hflags p Hp) as (Hiff & Hactive & _).
    destruct (proj1 Hiff Hflag) as (r & Hr). exists r. split; [exact Hr|].
    apply Hactive, Hr. }
  assert (length (currentGifters room) <= length (Room.activeAssignments room))%nat as Hle.
  { rewrite <- (length_map Participant.username (currentGifters room)).
    rewrite <- (length_map Assignment.gifter (Room.activeAssignments room)).
    apply submseteq_length, NoDup_submseteq.
    - apply NoDup_map_filter, Hkeys.
    - intros u Hu. apply list_elem_of_In, in_map_iff in Hu as (p & <- & Hp).
      destruct (Hshown p (proj2 (list_elem_of_In _ _) Hp)) as (_ & r & _ & Ha).
      apply list_elem_of_In, in_map_iff.
      eexists. split; [|apply list_elem_of_In, Ha]. reflexivity. }
  split; [exact Hshown|]. split; [exact Hle|].
  unfold withinCapacity. lia.
Qed.

Lemma X27_current_gifters_witness :
  (length (currentGifters roomLater) <= length (Room.activeAssignments roomLater))%nat.
Proof.
  destruct (X27_current_gifters roomLater) as (_ & Hle & _).
  - simpl. distinct_names.
  - apply withAssignments_flagsMatch with (ps := Room.participants roomLater). reflexivity.
  - exact Hle.
Defined.

(** ** The capacity bound *)

(** X28. Capacity.  With [floor(participants.length / 2)] as the bound:
    - merged into current assignments that are within the bound, the new
      assignments of [createNewAssignments] stay within it, and
      [createAssignments] alone stays within it;
    - when the current assignments are at or above the bound, or no
      participant is below the budget, or there is no candidate gifter,
      [createNewAssignments] returns the empty array, so the merged
      assignments are the current ones; in [src/src/lib/firebase.ts] this is
      also so when every participant below the budget is already the
      recipient of a current assignment;
    - a room within the bound is within it after [addGift], and every room
      is within it after [startGame].
    Both revisions. *)
Theorem X28_capacity_bound
    (shuffleR shuffleG : list Participant.t -> list Participant.t)
    (ps : list Participant.t) (budget : Z)
    (current : list Assignment.t) (excl prevGifters : list string) :
  is_shuffle shuffleR -> is_shuffle shuffleG ->
  ((length current <= length ps / 2)%nat ->
   (length (current ++ Firebase.createNewAssignments shuffleR shuffleG ps budget current excl)
    <= length ps / 2)%nat
   /\ (length (current ++ Part002.createNewAssignments shuffleR shuffleG ps budget current)
       <= length ps / 2)%nat)
  /\ ((length (Firebase.createAssignments shuffleR shuffleG ps budget prevGifters)
       <= length ps / 2)%nat
      /\ (length (Part002.createAssignments shuffleR shuffleG ps budget)
          <= length ps / 2)%nat)
  /\ ((length ps / 2 <= length current)%nat
      \/ eligibleRecipients ps budget = []
      \/ Firebase.availableGifters ps current excl = [] ->
      Firebase.createNewAssignments shuffleR shuffleG ps budget current excl = []
      /\ current ++ Firebase.createNewAssignments shuffleR shuffleG ps budget current excl
         = current)
  /\ ((forall p, p ∈ eligibleRecipients ps budget ->
                 Participant.username p ∈ map Assignment.recipient current) ->
      Firebase.createNewAssignments shuffleR shuffleG ps budget current excl = [])
  /\ ((length ps / 2 <= length current)%nat
      \/ eligibleRecipients ps budget = []
      \/ Part002.availableGifters ps current = [] ->
      Part002.createNewAssignments shuffleR shuffleG ps budget current = []
      /\ current ++ Part002.createNewAssignments shuffleR shuffleG ps budget current
         = current)
  /\ (forall (db : Store) roomId room gifter recipient description amount now nowTs,
        db !! roomId = Some room -> withinCapacity room ->
        (exists room',
            Firebase.addGift shuffleR shuffleG now db roomId
                             gifter recipient description amount
            = inr (<[roomId := room']> db) /\ withinCapacity room')
        /\ (exists room',
               Part002.addGift shuffleR shuffleG now nowTs db roomId
                               gifter recipient description amount
               = inr (<[roomId := room']> db) /\ withinCapacity room'))
  /\ (forall (db db' : Store) roomId,
        Firebase.startGame shuffleR shuffleG db roomId = inr db'
        \/ Part002.startGame shuffleR shuffleG db roomId = inr db' ->
        exists room', db' !! roomId = Some room' /\ withinCapacity room').
Proof.
  intros HR HG. repeat apply conj.
  - intros Hcap. rewrite !length_app.
    pose proof (Firebase_createNewAssignments_capacity shuffleR shuffleG ps budget
                  current excl) as HF.
    pose proof (Part002_createNewAssignments_capacity shuffleR shuffleG ps budget current)
      as HP.
    unfold maxGifters in HF, HP. lia.
  - apply Firebase_createAssignments_capacity; assumption.
  - apply Part002_createAssignments_capacity.
  - intros Hcase.
    rewrite (Firebase_createNewAssignments_empty shuffleR shuffleG ps budget current excl
               Hcase).
    split; [reflexivity|apply app_nil_r].
  - intros Hused. apply Firebase_createNewAssignments_all_used; assumption.
  - intros Hcase.
    rewrite (Part002_createNewAssignments_empty shuffleR shuffleG ps budget current Hcase).
    split; [reflexivity|apply app_nil_r].
  - intros db roomId room gifter recipient description amount now nowTs Hroom Hcap. split.
    + eexists. split; [apply Firebase_addGift_found, Hroom|].
      apply Firebase_settle_capacity, Hcap.
    + eexists. split; [apply Part002_addGift_found, Hroom|].
      apply Part002_settle_capacity, Hcap.
  - intros db db' roomId [Hstart|Hstart].
    + exact (Firebase_startGame_capacity shuffleR shuffleG db db' roomId HR HG Hstart).
    + exact (Part002_startGame_capacity shuffleR shuffleG db db' roomId Hstart).
Qed.

Lemma X28_capacity_bound_witness :
  (length ([ {| Assignment.gifter := "C"; Assignment.recipient := "D" |} ]
           ++ Firebase.createNewAssignments revShuffle idShuffle settledABCD 100
                [ {| Assignment.gifter := "C"; Assignment.recipient := "D" |} ] ["A"%string])
   <= 2)%nat.
Proof.
  destruct (X28_capacity_bound revShuffle idShuffle settledABCD 100
              [ {| Assignment.gifter := "C"; Assignment.recipient := "D" |} ]
              ["A"%string] []) as [Hbound _].
  - exact revShuffle_is_shuffle.
  - exact idShuffle_is_shuffle.
  - apply Hbound. vm_compute. lia.
Defined.
